(** * HSCL fairness benchmark harness: a shallow embedding and its properties

    The development embeds the parts of [test_lock/upscale_mutex.c],
    [test_lock/upscale_fairness_test.c] and
    [test_lock/upscale_fairness_cgroups.c] that decide the harness'
    configuration checks, hierarchy construction, workload selection and
    fairness metrics.

    Conventions of the embedding.
    - [unsigned long long] values are integers in [Z], reduced modulo
      [2^64] wherever the C code adds or multiplies them; [int] values
      are reduced to 32 bits where the code adds to them.
    - [double] arithmetic is written once, against the interface
      [DoubleOps].  The instance [F64_double] is IEEE binary64, the
      arithmetic of the program.  The instance [Q_double] reads the same
      operations over the exact rationals, without rounding: a
      statement made at this instance is about the formula the code
      evaluates, not about the last digits of the value it prints, and
      says so.  A statement that is generic in the instance holds for
      both.  A division by zero yields 0 in [Q_double] and an infinity
      or a NaN in binary64; the report functions therefore record the
      divisor of every division they perform.
    - [printf] output, calls into the key-value store, into the lock and
      into the operating system are recorded, in order, in a log.
    - A worker is followed through its own statements.  The state it
      shares with the other workers ([next_key_id], the bookkeeping of
      the last holder) is the state as it finds it; the other workers
      change it only while they hold the lock. *)

From Stdlib Require Import ZArith QArith Qabs Lia List String Floats.
From stdpp Require Import base list.
Import ListNotations.
Open Scope Z_scope.

(** ** Machine integers *)

Definition ULL_MOD : Z := 2 ^ 64.

(** Reduction of an integer to [unsigned long long]. *)
Definition ull (z : Z) : Z := z mod ULL_MOD.

Definition INT_MOD : Z := 2 ^ 32.

(** Reduction of an integer to a 32-bit two's complement [int]. *)
Definition int32 (z : Z) : Z := (z + 2 ^ 31) mod INT_MOD - 2 ^ 31.

(** ** The arithmetic of [double] *)

Class DoubleOps (D : Type) := {
  of_int : Z -> D;          (* conversion of an integer value to double *)
  dadd : D -> D -> D;
  dsub : D -> D -> D;
  dmul : D -> D -> D;
  ddiv : D -> D -> D;
  dfabs : D -> D;           (* fabs *)
  dlt : D -> D -> bool      (* a < b *)
}.

Definition Qltb (a b : Q) : bool :=
  Qnum a * Z.pos (Qden b) <? Qnum b * Z.pos (Qden a).

(** The operations read over the exact rationals: no rounding, no
    infinities, no NaN.  This is not the arithmetic of the program. *)
#[export] Instance Q_double : DoubleOps Q := {|
  of_int := inject_Z;
  dadd := Qplus;
  dsub := Qminus;
  dmul := Qmult;
  ddiv := Qdiv;
  dfabs := Qabs;
  dlt := Qltb
|}.

(** Correctly rounded conversion of an integer to binary64. *)
Definition f64_of_Z (z : Z) : float :=
  SF2Prim (binary_normalize prec emax z 0 false).

(** IEEE binary64 with rounding to nearest even: the arithmetic of the
    program. *)
#[export] Instance F64_double : DoubleOps float := {|
  of_int := f64_of_Z;
  dadd := PrimFloat.add;
  dsub := PrimFloat.sub;
  dmul := PrimFloat.mul;
  ddiv := PrimFloat.div;
  dfabs := PrimFloat.abs;
  dlt := PrimFloat.ltb
|}.

(** Two more operations of C on [double]: the cast [(int)x], which
    truncates toward zero, and the comparison [a <= b]. *)
Class DoubleCast (D : Type) := {
  to_int : D -> Z;
  dle : D -> D -> bool
}.

#[export] Instance Q_cast : DoubleCast Q := {|
  to_int := fun q => Z.quot (Qnum q) (Z.pos (Qden q));
  dle := Qle_bool
|}.

(** The integer part of a finite binary64 number (0 otherwise). *)
Definition f64_to_Z (f : float) : Z :=
  match Prim2SF f with
  | S754_finite s m e =>
      let v := if 0 <=? e then Z.pos m * 2 ^ e else Z.quot (Z.pos m) (2 ^ (- e)) in
      if s then - v else v
  | _ => 0
  end.

#[export] Instance F64_cast : DoubleCast float := {|
  to_int := f64_to_Z;
  dle := PrimFloat.leb
|}.

Declare Scope double_scope.
Delimit Scope double_scope with D.
Infix "+" := dadd : double_scope.
Infix "-" := dsub : double_scope.
Infix "*" := dmul : double_scope.
Infix "/" := ddiv : double_scope.
Infix "<?" := dlt : double_scope.

(** ** Constants shared by the three programs *)

Definition MAX_THREADS : Z := 16.
Definition CYCLE_PER_US : Z := 2400.

(** Value of [RAND_MAX] in the C library the harness is built against
    (glibc); the header is not part of the repository. *)
Definition RAND_MAX : Z := 2147483647.

Inductive operation_type_t := OP_INSERT | OP_FIND | OP_UPDATE.

(** Status codes of the key-value store, from [ups/upscaledb.h] (the
    header is not part of the sources). *)
Definition UPS_SUCCESS : Z := 0.
Definition UPS_KEY_NOT_FOUND : Z := -11.
Definition UPS_DUPLICATE_KEY : Z := -12.

(** ** Program state and effects *)

(** What a program does to the outside, in order of occurrence. *)
Inductive event :=
| Printf (fmt : string)
    (* printf or perror with this format string *)
| StoreFind (thread key_id : Z)
    (* ups_db_find on the key "T<thread>_K<key_id>" *)
| StoreInsert (thread key_id : Z) (data : list Z) (overwrite : bool)
    (* ups_db_insert of that key, with or without UPS_OVERWRITE *)
| Call (name : string).
    (* any other call out of the program: lock, threads, OS *)

Section World.
Context {G : Type}.

(** The part of the state the three programs have in common, the
    program's own globals [G], and the values the environment hands
    back: successive results of [rand()], of [rdtsc()] and of calls that
    return a status. *)
Record world := {
  globals : G;
  next_key_id : Z;
  global_stop : Z;
  rand_src : nat -> Z;
  rand_pos : nat;
  tsc_src : nat -> Z;
  tsc_pos : nat;
  ext_src : nat -> Z;
  ext_pos : nat;
  log : list event
}.

Definition M (A : Type) : Type := world -> A * world.

Definition ret {A} (a : A) : M A := fun w => (a, w).

Definition bind {A B} (m : M A) (f : A -> M B) : M B :=
  fun w => let (a, w') := m w in f a w'.

Definition get_globals : M G := fun w => (globals w, w).

Definition set_globals (g : G) : M unit := fun w =>
  (tt, {| globals := g; next_key_id := next_key_id w; global_stop := global_stop w;
          rand_src := rand_src w; rand_pos := rand_pos w;
          tsc_src := tsc_src w; tsc_pos := tsc_pos w;
          ext_src := ext_src w; ext_pos := ext_pos w; log := log w |}).

Definition get_next_key : M Z := fun w => (next_key_id w, w).

Definition set_next_key (k : Z) : M unit := fun w =>
  (tt, {| globals := globals w; next_key_id := k; global_stop := global_stop w;
          rand_src := rand_src w; rand_pos := rand_pos w;
          tsc_src := tsc_src w; tsc_pos := tsc_pos w;
          ext_src := ext_src w; ext_pos := ext_pos w; log := log w |}).

Definition set_global_stop (v : Z) : M unit := fun w =>
  (tt, {| globals := globals w; next_key_id := next_key_id w; global_stop := v;
          rand_src := rand_src w; rand_pos := rand_pos w;
          tsc_src := tsc_src w; tsc_pos := tsc_pos w;
          ext_src := ext_src w; ext_pos := ext_pos w; log := log w |}).

(** [rand()]. *)
Definition rand : M Z := fun w =>
  (rand_src w (rand_pos w),
   {| globals := globals w; next_key_id := next_key_id w; global_stop := global_stop w;
      rand_src := rand_src w; rand_pos := S (rand_pos w);
      tsc_src := tsc_src w; tsc_pos := tsc_pos w;
      ext_src := ext_src w; ext_pos := ext_pos w; log := log w |}).

(** [rdtsc()]. *)
Definition rdtsc : M Z := fun w =>
  (tsc_src w (tsc_pos w),
   {| globals := globals w; next_key_id := next_key_id w; global_stop := global_stop w;
      rand_src := rand_src w; rand_pos := rand_pos w;
      tsc_src := tsc_src w; tsc_pos := S (tsc_pos w);
      ext_src := ext_src w; ext_pos := ext_pos w; log := log w |}).

(** An effect without a result. *)
Definition emit (e : event) : M unit := fun w =>
  (tt, {| globals := globals w; next_key_id := next_key_id w; global_stop := global_stop w;
          rand_src := rand_src w; rand_pos := rand_pos w;
          tsc_src := tsc_src w; tsc_pos := tsc_pos w;
          ext_src := ext_src w; ext_pos := ext_pos w; log := log w ++ [e] |}).

(** An effect whose result the environment chooses. *)
Definition ask (e : event) : M Z := fun w =>
  (ext_src w (ext_pos w),
   {| globals := globals w; next_key_id := next_key_id w; global_stop := global_stop w;
      rand_src := rand_src w; rand_pos := rand_pos w;
      tsc_src := tsc_src w; tsc_pos := tsc_pos w;
      ext_src := ext_src w; ext_pos := S (ext_pos w); log := log w ++ [e] |}).

Definition printf (fmt : string) : M unit := emit (Printf fmt).

(** The value of [errno] after a call that failed. *)
Definition errno : M Z := fun w =>
  (ext_src w (ext_pos w),
   {| globals := globals w; next_key_id := next_key_id w; global_stop := global_stop w;
      rand_src := rand_src w; rand_pos := rand_pos w;
      tsc_src := tsc_src w; tsc_pos := tsc_pos w;
      ext_src := ext_src w; ext_pos := S (ext_pos w); log := log w |}).

End World.

Arguments world : clear implicits.
Arguments M : clear implicits.

(** The state a program starts in: no key generated, stop flag down,
    nothing logged yet. *)
Definition start_world {G} (g : G) (rands tscs exts : nat -> Z) : world G :=
  {| globals := g; next_key_id := 1; global_stop := 0;
     rand_src := rands; rand_pos := 0;
     tsc_src := tscs; tsc_pos := 0;
     ext_src := exts; ext_pos := 0;
     log := [] |}.

Definition is_printf (e : event) : Prop :=
  match e with
  | Printf _ => True
  | _ => False
  end.


(** Every event [m] adds to the log satisfies [P]. *)
Definition emits {G A} (P : event -> Prop) (m : M G A) : Prop :=
  forall w, exists evs, log (snd (m w)) = log w ++ evs /\ Forall P evs.

(** The warning of [init_hierarchy]'s [default] branch. *)
Definition hierarchy_warning : event :=
  Printf "Unknown hierarchy type, using flat hierarchy\n".

Declare Scope monad_scope.
Delimit Scope monad_scope with monad.
Notation "x <- c1 ;; c2" := (bind c1 (fun x => c2))
  (at level 100, c1 at next level, right associativity) : monad_scope.
Notation "c1 ;; c2" := (bind c1 (fun _ => c2))
  (at level 100, right associativity) : monad_scope.

(** ** Computations that record their divisors *)

(** The divisor of an integer division or of a [double] division. *)
Inductive divisor (D : Type) :=
| IDiv (z : Z)
| FDiv (d : D).
Arguments IDiv {D} z.
Arguments FDiv {D} d.

Definition Dv (D A : Type) : Type := A * list (divisor D).

Definition dret {D A} (a : A) : Dv D A := (a, []).

Definition dbind {D A B} (m : Dv D A) (f : A -> Dv D B) : Dv D B :=
  let (a, l1) := m in let (b, l2) := f a in (b, l1 ++ l2).

(** [a / b] on doubles. *)
Definition fdiv {D} {DO : DoubleOps D} (a b : D) : Dv D D := (ddiv a b, [FDiv b]).

(** [a / b] on [unsigned long long]. *)
Definition udiv {D} (a b : Z) : Dv D Z := (Z.quot a b, [IDiv b]).

Declare Scope dv_scope.
Delimit Scope dv_scope with dv.
Notation "x <- c1 ;; c2" := (dbind c1 (fun x => c2))
  (at level 100, c1 at next level, right associativity) : dv_scope.

(** A loop whose body divides. *)
Fixpoint dfold {D A B} (f : A -> B -> Dv D A) (l : list B) (a : A) : Dv D A :=
  match l with
  | [] => dret a
  | b :: rest => (a' <- f a b ;; dfold f rest a')%dv
  end.

(** A divisor that is not zero, over the rationals. *)
Definition nonzero_divisor (d : divisor Q) : Prop :=
  match d with
  | IDiv z => z <> 0
  | FDiv q => ~ (q == 0)%Q
  end.

(** ** Code the programs share verbatim *)

Definition KEY_SIZE : Z := 16.
Definition DATA_SIZE : Z := 256.

(** The decimal digits of [n], least significant first; [fuel] bounds
    their number (ten are enough for an [int]). *)
Fixpoint low_digits (fuel : nat) (n : Z) : list Z :=
  match fuel with
  | O => []
  | S fuel' =>
      if n <? 10 then [n] else Z.rem n 10 :: low_digits fuel' (Z.quot n 10)
  end.

(** The digits of [n], most significant first, filled up with zeros to
    [w] characters. *)
Definition padded_digits (w : nat) (n : Z) : list Z :=
  let ds := low_digits 10 n in
  map (fun d => 48 + d) (rev (ds ++ replicate (w - length ds) 0)).

(** The conversion [%0<w>d] of [printf] on an [int]: the sign counts in
    the width. *)
Definition zero_padded (w : nat) (v : Z) : list Z :=
  if v <? 0 then 45 :: padded_digits (w - 1) (- v) else padded_digits w v.

(** [generate_key]: the characters [snprintf(key, KEY_SIZE,
    "T%02d_K%08d", thread_id, key_id)] leaves in [key] before the
    terminating NUL, at most [KEY_SIZE - 1] of them. *)
Definition generate_key (thread_id key_id : Z) : list Z :=
  firstn (Z.to_nat (KEY_SIZE - 1))
         ([84] ++ zero_padded 2 thread_id ++ [95; 75] ++ zero_padded 8 key_id).

Section Harness.
Context {G : Type}.
Local Open Scope monad_scope.

(** [for] over a list of indices. *)
Fixpoint mfor {A} (l : list A) (body : A -> M G unit) : M G unit :=
  match l with
  | [] => ret tt
  | i :: rest => body i ;; mfor rest body
  end.

(** [get_next_key_id]: atomic fetch-and-add on the [int] counter. *)
Definition get_next_key_id : M G Z :=
  k <- get_next_key ;;
  set_next_key (int32 (k + 1)) ;;
  ret k.

(** [generate_data]: [size - 1] letters 'A' + rand() % 26, then NUL. *)
Fixpoint generate_letters (n : nat) (acc : list Z) : M G (list Z) :=
  match n with
  | O => ret acc
  | S n' => r <- rand ;; generate_letters n' (acc ++ [65 + Z.rem r 26])
  end.

Definition generate_data (size : Z) : M G (list Z) :=
  letters <- generate_letters (Z.to_nat (size - 1)) [] ;;
  ret (letters ++ [0]).

(** [perform_insert], identical in the three programs.  The key that
    [generate_key] formats as "T%02d_K%08d" is carried as the pair
    (thread id, key id). *)
Definition perform_insert (thread_id : Z) : M G Z :=
  start_time <- rdtsc ;;
  key_id <- get_next_key_id ;;
  data <- generate_data DATA_SIZE ;;
  st <- ask (StoreInsert thread_id key_id data false) ;;
  end_time <- rdtsc ;;
  (if negb (st =? UPS_SUCCESS) && negb (st =? UPS_DUPLICATE_KEY)
   then printf "Thread %d: Insert failed with status %d\n"
   else ret tt) ;;
  ret (ull (end_time - start_time)).

End Harness.

(** ** Specification-side sums over an operation-count vector *)

Definition sumZ (xs : list Z) : Z := fold_right Z.add 0 xs.
Definition sum_squares (xs : list Z) : Z := sumZ (map (fun x => x * x) xs).


(** Least and greatest entry of a vector (0 on the empty vector). *)
Definition vec_min (xs : list Z) : Z :=
  match xs with
  | [] => 0
  | x :: rest => fold_right Z.min x rest
  end.

Definition vec_max (xs : list Z) : Z :=
  match xs with
  | [] => 0
  | x :: rest => fold_right Z.max x rest
  end.

Definition all_equal (xs : list Z) : Prop :=
  forall x y, In x xs -> In y xs -> x = y.

(** Sum of squared deviations from [x]. *)
Definition sq_dev (x : Z) (xs : list Z) : Z :=
  sumZ (map (fun y => (x - y) * (x - y)) xs).

(** [n * sum x^2 - (sum x)^2]. *)
Definition spread_gap (xs : list Z) : Z :=
  Z.of_nat (length xs) * sum_squares xs - sumZ xs * sumZ xs.



(** The number a list of decimal digits, least significant first,
    stands for. *)
Definition digits_value (ds : list Z) : Z :=
  fold_right (fun d acc => d + 10 * acc) 0 ds.

(** ** Notions used in the statements about a run *)

(** The keys a log inserts without [UPS_OVERWRITE], as pairs of thread
    id and key id, in the order of the log. *)
Definition fresh_inserts (l : list event) : list (Z * Z) :=
  flat_map (fun e => match e with
                     | StoreInsert thread key_id _ false => [(thread, key_id)]
                     | _ => []
                     end) l.

(** An access to the key-value store, or a line printed. *)
Definition store_or_printf (e : event) : Prop :=
  match e with
  | Call _ => False
  | _ => True
  end.

(** ** upscale_mutex.c *)

Module upscale_mutex.

(** Thread hierarchy levels ([thread_hierarchy_t]), by enumerator value:
    0 CRITICAL, 1 HIGH, 2 NORMAL, 3 LOW, 4 BACKGROUND. *)
Definition HIERARCHY_CRITICAL : Z := 0.
Definition HIERARCHY_BACKGROUND : Z := 4.

(** Lock types ([lock_type_t]), by enumerator value. *)
Definition LOCK_MUTEX : Z := 0.
Definition LOCK_SPIN : Z := 1.
Definition LOCK_RWLOCK : Z := 2.
Definition LOCK_ADAPTIVE_MUTEX : Z := 3.

(** [thread_config_t].  The handles ([env], [db], [thread], [stop_flag]),
    the CPU set and the name string are left out. *)
Record thread_config_t {D : Type} := {
  thread_id : Z;
  hierarchy_level : Z;
  system_priority : Z;
  nice_value : Z;
  insert_ratio : D;
  find_ratio : D;
  update_ratio : D;
  duration_seconds : Z;
  insert_count : Z;
  find_count : Z;
  update_count : Z;
  insert_time : Z;
  find_time : Z;
  update_time : Z;
  lock_wait_time : Z;
  total_operations : Z;
  lock_acquisitions : Z;
  lock_contentions : Z;
  max_consecutive_acquisitions : Z;
  current_consecutive : Z;
  starvation_periods : Z;
  max_starvation_time : Z;
  last_lock_time : Z;
  dominated_lower_threads : Z;
  starved_by_higher : Z
}.
Arguments thread_config_t : clear implicits.

Section Stats.
Context {D : Type} {DO : DoubleOps D}.
Local Open Scope double_scope.

(** The first [num_threads] slots of the [threads] array: the range every
    loop [for (i = 0; i < num_threads; i++)] visits. *)
Definition slots (threads : list (thread_config_t D)) (num_threads : Z) :=
  firstn (Z.to_nat num_threads) threads.

(** [threads[0].total_operations]. *)
Definition first_ops (threads : list (thread_config_t D)) : Z :=
  match threads with
  | [] => 0
  | t :: _ => total_operations t
  end.

(** Loop at lines 685-689: [total_ops], [min_ops], [max_ops]. *)
Definition scan_step (acc : Z * D * D) (t : thread_config_t D) : Z * D * D :=
  let '(total_ops, min_ops, max_ops) := acc in
  let x := total_operations t in
  (ull (total_ops + x),
   (if (of_int x <? min_ops) then of_int x else min_ops),
   (if (max_ops <? of_int x) then of_int x else max_ops)).

Definition scan_ops (threads : list (thread_config_t D)) (num_threads : Z)
  : Z * D * D :=
  fold_left scan_step (slots threads num_threads)
    (0%Z, of_int (first_ops threads), of_int (first_ops threads)).

Definition total_ops threads num_threads : Z := fst (fst (scan_ops threads num_threads)).
Definition min_ops threads num_threads : D := snd (fst (scan_ops threads num_threads)).
Definition max_ops threads num_threads : D := snd (scan_ops threads num_threads).

Definition avg_ops threads num_threads : D :=
  of_int (total_ops threads num_threads) / of_int num_threads.

(** Loop at lines 694-700: [sum_ops], [sum_ops_squared]. *)
Definition jain_step (acc : D * D) (t : thread_config_t D) : D * D :=
  let '(sum_ops, sum_ops_squared) := acc in
  let ops := of_int (total_operations t) in
  (sum_ops + ops, sum_ops_squared + ops * ops).

Definition jain_sums (threads : list (thread_config_t D)) (num_threads : Z) : D * D :=
  fold_left jain_step (slots threads num_threads) (of_int 0, of_int 0).

Definition sum_ops threads num_threads : D := fst (jain_sums threads num_threads).
Definition sum_ops_squared threads num_threads : D := snd (jain_sums threads num_threads).

(** Line 701. *)
Definition overall_fairness_index threads num_threads : D :=
  (sum_ops threads num_threads * sum_ops threads num_threads)
  / (of_int num_threads * sum_ops_squared threads num_threads).

(** Loops at lines 715-720 and the division at line 721. *)
Definition gini_inner (ti : thread_config_t D) (g : D) (row : list (thread_config_t D)) : D :=
  fold_left
    (fun g tj => g + dfabs (of_int (total_operations ti) - of_int (total_operations tj)))
    row g.

Definition gini_loops (threads : list (thread_config_t D)) (num_threads : Z) : D :=
  fold_left
    (fun g ti => gini_inner ti g (slots threads num_threads))
    (slots threads num_threads) (of_int 0).

Definition gini threads num_threads : D :=
  gini_loops threads num_threads
  / (of_int 2 * of_int num_threads * sum_ops threads num_threads).

(** The argument of the "Throughput Spread" line (lines 728-729). *)
Definition throughput_spread threads num_threads : D :=
  if (of_int 0 <? avg_ops threads num_threads)
  then ((max_ops threads num_threads - min_ops threads num_threads)
        / avg_ops threads num_threads) * of_int 100
  else of_int 0.

End Stats.

Section LevelStats.
Context {D : Type} {DO : DoubleOps D} {DC : DoubleCast D}.
Local Open Scope double_scope.

(** Lines 575-591: [total_ops_by_hierarchy] and [threads_by_hierarchy]
    after the table loop.  A level outside 0..4 would index the arrays
    out of bounds; [main] assigns levels 0..4 only. *)
Definition level_totals (threads : list (thread_config_t D)) (num_threads : Z)
  : list Z * list Z :=
  fold_left
    (fun (acc : list Z * list Z) (t : thread_config_t D) =>
       let (ops, cnt) := acc in
       let level := Z.to_nat (hierarchy_level t) in
       (<[level := ull (ops !!! level + total_operations t)]> ops,
        <[level := int32 (cnt !!! level + 1)]> cnt))
    (slots threads num_threads) (replicate 5 0%Z, replicate 5 0%Z).

(** Lines 611-622: the sums over the threads of one level. *)
Definition level_step (duration level : Z) (acc : D * D * Z) (t : thread_config_t D)
  : D * D * Z :=
  let '(sum_ops, sum_ops_squared, count) := acc in
  if hierarchy_level t =? level then
    let ops := of_int (total_operations t) / of_int duration in
    (sum_ops + ops, sum_ops_squared + ops * ops, int32 (count + 1))
  else acc.

Definition level_sums (threads : list (thread_config_t D)) (num_threads duration level : Z)
  : D * D * Z :=
  fold_left (level_step duration level) (slots threads num_threads)
            (of_int 0, of_int 0, 0%Z).

(** Lines 624-643, the column "Fairness Index" of a level. *)
Definition level_fairness_index (threads : list (thread_config_t D))
  (num_threads duration level : Z) : D :=
  let '(sum_ops, sum_ops_squared, count) := level_sums threads num_threads duration level in
  if (1 <? count)%Z
  then (sum_ops * sum_ops) / (of_int count * sum_ops_squared)
  else of_int 1.

(** Lines 607-608, the column "Avg Ops/sec" of a level. *)
Definition level_avg_ops (threads : list (thread_config_t D))
  (num_threads duration level : Z) : D :=
  let (ops, cnt) := level_totals threads num_threads in
  of_int (ops !!! Z.to_nat level)
  / of_int (int32 (cnt !!! Z.to_nat level * duration)).

(** The levels that get a row in "Hierarchy Level Performance": those
    with at least one thread (line 606). *)
Definition reported_levels (threads : list (thread_config_t D)) (num_threads : Z)
  : list Z :=
  List.filter
    (fun level => (0 <? snd (level_totals threads num_threads) !!! Z.to_nat level)%Z)
    (seqZ 0 5).

(** Lines 736-747: the line "Overall Fairness Assessment". *)
Definition overall_assessment (threads : list (thread_config_t D)) (num_threads : Z)
  : string :=
  let index := overall_fairness_index threads num_threads in
  if dle (of_int 95 / of_int 100) index then "EXCELLENT (Very Fair)\n"
  else if dle (of_int 80 / of_int 100) index then "GOOD (Mostly Fair)\n"
  else if dle (of_int 60 / of_int 100) index then "MODERATE (Some Unfairness)\n"
  else if dle (of_int 40 / of_int 100) index then "POOR (Significant Unfairness)\n"
  else "VERY POOR (Highly Unfair)\n".

End LevelStats.

(** The program's own globals: the selected lock and the bookkeeping of
    the last holder (lines 105-118). *)
Record mutex_globals := {
  current_lock_type : Z;
  last_thread_id : Z;
  last_hierarchy : Z;
  consecutive_same_thread : Z;
  consecutive_same_hierarchy : Z;
  hierarchy_switches : Z
}.

(** The initializers of those globals. *)
Definition initial_globals : mutex_globals :=
  {| current_lock_type := LOCK_MUTEX;
     last_thread_id := -1;
     last_hierarchy := HIERARCHY_BACKGROUND;
     consecutive_same_thread := 0;
     consecutive_same_hierarchy := 0;
     hierarchy_switches := 0 |}.

(** Whether [PTHREAD_MUTEX_ADAPTIVE_NP] is a preprocessor macro; in glibc
    it is an enumerator, so the [#else] branch of [init_lock] is compiled. *)
Definition ADAPTIVE_NP_IS_MACRO : bool := false.

Section Lock.
Local Open Scope monad_scope.

Definition set_current_lock_type (type : Z) : M mutex_globals unit :=
  g <- get_globals ;;
  set_globals {| current_lock_type := type;
                 last_thread_id := last_thread_id g;
                 last_hierarchy := last_hierarchy g;
                 consecutive_same_thread := consecutive_same_thread g;
                 consecutive_same_hierarchy := consecutive_same_hierarchy g;
                 hierarchy_switches := hierarchy_switches g |}.

(** [init_lock]: 0 on success, -1 on failure. *)
Definition init_lock (type : Z) : M mutex_globals Z :=
  set_current_lock_type type ;;
  if type =? LOCK_MUTEX then
    printf "Using standard pthread_mutex (UNFAIR - hierarchy should matter)\n" ;;
    ret 0
  else if type =? LOCK_SPIN then
    rc <- ask (Call "pthread_spin_init") ;;
    if negb (rc =? 0) then
      printf "pthread_spin_init" ;;
      ret (-1)
    else
      printf "Using pthread_spinlock (UNFAIR - hierarchy should matter)\n" ;;
      ret 0
  else if type =? LOCK_RWLOCK then
    printf "Using pthread_rwlock (write locks) (hierarchy should matter)\n" ;;
    ret 0
  else if type =? LOCK_ADAPTIVE_MUTEX then
    rc <- ask (Call "pthread_mutexattr_init") ;;
    if negb (rc =? 0) then
      printf "pthread_mutexattr_init" ;;
      ret (-1)
    else
      (if ADAPTIVE_NP_IS_MACRO then
         rc <- ask (Call "pthread_mutexattr_settype") ;;
         if negb (rc =? 0) then
           printf "Adaptive mutex not supported, using normal mutex\n" ;;
           emit (Call "pthread_mutexattr_settype")
         else ret tt
       else
         printf "Adaptive mutex not supported, using normal mutex\n" ;;
         emit (Call "pthread_mutexattr_settype")) ;;
      rc <- ask (Call "pthread_mutex_init") ;;
      if negb (rc =? 0) then
        printf "pthread_mutex_init" ;;
        emit (Call "pthread_mutexattr_destroy") ;;
        ret (-1)
      else
        emit (Call "pthread_mutexattr_destroy") ;;
        printf "Using adaptive pthread_mutex (hierarchy should matter)\n" ;;
        ret 0
  else
    printf "Unknown lock type\n" ;;
    ret (-1).

(** The [switch (current_lock_type)] of [acquire_lock], [release_lock] and
    [destroy_lock]: one library call per lock type, none outside 0..3. *)
Definition lock_call (mutex spin rwlock adaptive : string) : M mutex_globals unit :=
  g <- get_globals ;;
  let type := current_lock_type g in
  if type =? LOCK_MUTEX then emit (Call mutex)
  else if type =? LOCK_SPIN then emit (Call spin)
  else if type =? LOCK_RWLOCK then emit (Call rwlock)
  else if type =? LOCK_ADAPTIVE_MUTEX then emit (Call adaptive)
  else ret tt.

Definition destroy_lock : M mutex_globals unit :=
  lock_call "pthread_mutex_destroy" "pthread_spin_destroy"
            "pthread_rwlock_destroy" "pthread_mutex_destroy".

Definition release_lock : M mutex_globals unit :=
  lock_call "pthread_mutex_unlock" "pthread_spin_unlock"
            "pthread_rwlock_unlock" "pthread_mutex_unlock".

End Lock.

(** Scheduling policies, by their value in the Linux headers. *)
Definition SCHED_OTHER : Z := 0.
Definition SCHED_FIFO : Z := 1.

(** One row of the table [hierarchy_config] (lines 121-133). *)
Record hierarchy_config_t {D : Type} := {
  config_name : string;
  config_system_priority : Z;
  config_nice_value : Z;
  scheduling_policy : Z;
  work_intensity : D
}.
Arguments hierarchy_config_t : clear implicits.

(** What [acquire_lock] returns and what it leaves in the fields of
    [*config] it assigns. *)
Record acquired := {
  wait_time : Z;
  acq_max_starvation_time : Z;
  acq_starvation_periods : Z;
  acq_last_lock_time : Z;
  acq_dominated_lower_threads : Z;
  acq_starved_by_higher : Z
}.

Section Worker.
Context {D : Type} {DO : DoubleOps D}.
Local Open Scope monad_scope.

Definition acquire_lock (config : thread_config_t D) : M mutex_globals acquired :=
  start_time <- rdtsc ;;
  lock_call "pthread_mutex_lock" "pthread_spin_lock"
            "pthread_rwlock_wrlock" "pthread_mutex_lock" ;;
  end_time <- rdtsc ;;
  let current_time := end_time in
  let current_hierarchy := hierarchy_level config in
  let current_thread := thread_id config in
  let time_since_last := ull (current_time - last_lock_time config) in
  let starved := 0 <? last_lock_time config in
  g <- get_globals ;;
  let same_thread := last_thread_id g =? current_thread in
  let seen := 0 <=? last_thread_id g in
  let last_hier := last_hierarchy g in
  set_globals
    (if same_thread then
       {| current_lock_type := current_lock_type g;
          last_thread_id := last_thread_id g;
          last_hierarchy := last_hierarchy g;
          consecutive_same_thread := ull (consecutive_same_thread g + 1);
          consecutive_same_hierarchy := consecutive_same_hierarchy g;
          hierarchy_switches := hierarchy_switches g |}
     else
       {| current_lock_type := current_lock_type g;
          last_thread_id := current_thread;
          last_hierarchy := current_hierarchy;
          consecutive_same_thread := 1;
          consecutive_same_hierarchy :=
            if seen
            then (if negb (last_hier =? current_hierarchy) then 1
                  else ull (consecutive_same_hierarchy g + 1))
            else consecutive_same_hierarchy g;
          hierarchy_switches :=
            if seen && negb (last_hier =? current_hierarchy)
            then ull (hierarchy_switches g + 1)
            else hierarchy_switches g |}) ;;
  ret {| wait_time := ull (end_time - start_time);
         acq_max_starvation_time :=
           if starved && (max_starvation_time config <? time_since_last)
           then time_since_last else max_starvation_time config;
         acq_starvation_periods :=
           if starved && (100 * CYCLE_PER_US * 1000 <? time_since_last)
           then ull (starvation_periods config + 1) else starvation_periods config;
         acq_last_lock_time := current_time;
         acq_dominated_lower_threads :=
           if negb same_thread && seen && (current_hierarchy <? last_hier)
           then ull (dominated_lower_threads config + 1)
           else dominated_lower_threads config;
         acq_starved_by_higher :=
           if negb same_thread && seen && negb (current_hierarchy <? last_hier)
              && (last_hier <? current_hierarchy)
           then ull (starved_by_higher config + 1)
           else starved_by_higher config |}.

Definition perform_find (config : thread_config_t D) : M mutex_globals Z :=
  start_time <- rdtsc ;;
  k <- get_next_key ;;
  if k <=? 1 then
    ret 0
  else
    r1 <- rand ;;
    k' <- get_next_key ;;
    let key_id := int32 (1 + Z.rem r1 (int32 (k' - 1))) in
    r2 <- rand ;;
    let target_thread := Z.rem r2 MAX_THREADS in
    st <- ask (StoreFind target_thread key_id) ;;
    end_time <- rdtsc ;;
    ret (ull (end_time - start_time)).

Definition perform_update (config : thread_config_t D) : M mutex_globals Z :=
  start_time <- rdtsc ;;
  k <- get_next_key ;;
  if k <=? 1 then
    ret 0
  else
    r1 <- rand ;;
    k' <- get_next_key ;;
    let key_id := int32 (1 + Z.rem r1 (int32 (k' - 1))) in
    r2 <- rand ;;
    let target_thread := Z.rem r2 MAX_THREADS in
    new_data <- generate_data DATA_SIZE ;;
    st <- ask (StoreFind target_thread key_id) ;;
    st <- (if st =? UPS_SUCCESS
           then ask (StoreInsert target_thread key_id new_data true)
           else ret st) ;;
    end_time <- rdtsc ;;
    ret (ull (end_time - start_time)).

(** The operation the loop body picks from the draw [r = rand()]
    (lines 498-507). *)
Definition select_operation (config : thread_config_t D) (r : Z) : operation_type_t :=
  let op_rand := (of_int r / of_int RAND_MAX)%D in
  if (op_rand <? insert_ratio config)%D then OP_INSERT
  else if (op_rand <? insert_ratio config + find_ratio config)%D then OP_FIND
  else OP_UPDATE.

(** One pass through the body of [while (!*config->stop_flag)]
    (lines 497-551).  [simulate_work] only spins on a local and leaves
    no trace. *)
Definition worker_iteration (config : thread_config_t D)
  : M mutex_globals (thread_config_t D) :=
  r <- rand ;;
  let op_type := select_operation config r in
  acq <- acquire_lock config ;;
  g <- get_globals ;;
  operation_time <-
    match op_type with
    | OP_INSERT => perform_insert (thread_id config)
    | OP_FIND => perform_find config
    | OP_UPDATE => perform_update config
    end ;;
  let total := ull (total_operations config + 1) in
  release_lock ;;
  (if Z.rem total 10 =? 0 then emit (Call "sched_yield") else ret tt) ;;
  ret {|
    thread_id := thread_id config;
    hierarchy_level := hierarchy_level config;
    system_priority := system_priority config;
    nice_value := nice_value config;
    insert_ratio := insert_ratio config;
    find_ratio := find_ratio config;
    update_ratio := update_ratio config;
    duration_seconds := duration_seconds config;
    insert_count :=
      match op_type with OP_INSERT => ull (insert_count config + 1) | _ => insert_count config end;
    find_count :=
      match op_type with OP_FIND => ull (find_count config + 1) | _ => find_count config end;
    update_count :=
      match op_type with OP_UPDATE => ull (update_count config + 1) | _ => update_count config end;
    insert_time :=
      match op_type with
      | OP_INSERT => ull (insert_time config + operation_time)
      | _ => insert_time config
      end;
    find_time :=
      match op_type with
      | OP_FIND => ull (find_time config + operation_time)
      | _ => find_time config
      end;
    update_time :=
      match op_type with
      | OP_UPDATE => ull (update_time config + operation_time)
      | _ => update_time config
      end;
    lock_wait_time := ull (lock_wait_time config + wait_time acq);
    total_operations := total;
    lock_acquisitions := ull (lock_acquisitions config + 1);
    lock_contentions := lock_contentions config;
    max_consecutive_acquisitions :=
      if max_consecutive_acquisitions config <? consecutive_same_thread g
      then consecutive_same_thread g
      else max_consecutive_acquisitions config;
    current_consecutive := current_consecutive config;
    starvation_periods := acq_starvation_periods acq;
    max_starvation_time := acq_max_starvation_time acq;
    last_lock_time := acq_last_lock_time acq;
    dominated_lower_threads := acq_dominated_lower_threads acq;
    starved_by_higher := acq_starved_by_higher acq
  |}.

(** The table [hierarchy_config]. *)
Definition hierarchy_config : list (hierarchy_config_t D) :=
  [ {| config_name := "CRITICAL"; config_system_priority := 50; config_nice_value := -20;
       scheduling_policy := SCHED_FIFO; work_intensity := (of_int 1 / of_int 10)%D |};
    {| config_name := "HIGH"; config_system_priority := 30; config_nice_value := -10;
       scheduling_policy := SCHED_FIFO; work_intensity := (of_int 3 / of_int 10)%D |};
    {| config_name := "NORMAL"; config_system_priority := 0; config_nice_value := 0;
       scheduling_policy := SCHED_OTHER; work_intensity := of_int 1 |};
    {| config_name := "LOW"; config_system_priority := 0; config_nice_value := 5;
       scheduling_policy := SCHED_OTHER; work_intensity := of_int 2 |};
    {| config_name := "BACKGROUND"; config_system_priority := 0; config_nice_value := 19;
       scheduling_policy := SCHED_OTHER; work_intensity := of_int 5 |} ].

(** [work_cycles] of [simulate_work] (lines 155-156). *)
Definition work_cycles {DC : DoubleCast D} (hierarchy : Z) : Z :=
  match hierarchy_config !! Z.to_nat hierarchy with
  | Some c => to_int (of_int 1000 * work_intensity c)%D
  | None => 0
  end.

(** Whether [z] is a value of [int]. *)
Definition in_int (z : Z) : bool := (- 2 ^ 31 <=? z) && (z <? 2 ^ 31).

(** The loop [sum += i * i] of [simulate_work] on the [int] variable
    [sum]: the final value, or [None] once a product or a sum leaves the
    range of [int] (signed overflow, which C leaves undefined). *)
Fixpoint busy_sum (idx : list Z) (sum : Z) : option Z :=
  match idx with
  | [] => Some sum
  | i :: rest =>
      if in_int (i * i) && in_int (sum + i * i)
      then busy_sum rest (sum + i * i)
      else None
  end.

Definition simulate_work {DC : DoubleCast D} (hierarchy : Z) : option Z :=
  busy_sum (seqZ 0 (work_cycles hierarchy)) 0.

(** [setup_thread_hierarchy]: the status it returns and the record with
    the fields it assigns.  The CPU set it fills is not part of the
    record. *)
Definition setup_thread_hierarchy (config : thread_config_t D)
  : M mutex_globals (Z * thread_config_t D) :=
  let level := Z.to_nat (hierarchy_level config) in
  let sched_priority :=
    match hierarchy_config !! level with
    | Some c => config_system_priority c
    | None => 0
    end in
  let nice_val :=
    match hierarchy_config !! level with
    | Some c => config_nice_value c
    | None => 0
    end in
  rc <- ask (Call "pthread_setaffinity_np") ;;
  (if negb (rc =? 0) then printf "pthread_setaffinity_np" else ret tt) ;;
  rc <- ask (Call "pthread_setschedparam") ;;
  (if negb (rc =? 0) then
     printf "pthread_setschedparam (trying nice instead)" ;;
     tid <- ask (Call "gettid") ;;
     rc <- ask (Call "setpriority") ;;
     if negb (rc =? 0) then printf "setpriority" else ret tt
   else ret tt) ;;
  ret (0,
       {| thread_id := thread_id config;
          hierarchy_level := hierarchy_level config;
          system_priority := if 0 <? sched_priority then sched_priority else 0;
          nice_value := nice_val;
          insert_ratio := insert_ratio config;
          find_ratio := find_ratio config;
          update_ratio := update_ratio config;
          duration_seconds := duration_seconds config;
          insert_count := insert_count config;
          find_count := find_count config;
          update_count := update_count config;
          insert_time := insert_time config;
          find_time := find_time config;
          update_time := update_time config;
          lock_wait_time := lock_wait_time config;
          total_operations := total_operations config;
          lock_acquisitions := lock_acquisitions config;
          lock_contentions := lock_contentions config;
          max_consecutive_acquisitions := max_consecutive_acquisitions config;
          current_consecutive := current_consecutive config;
          starvation_periods := starvation_periods config;
          max_starvation_time := max_starvation_time config;
          last_lock_time := last_lock_time config;
          dominated_lower_threads := dominated_lower_threads config;
          starved_by_higher := starved_by_higher config |}).

(** [n] passes through the loop body: the loop of a thread that sees the
    stop flag raised when it tests it for the [n+1]-th time. *)
Fixpoint worker_loop (n : nat) (config : thread_config_t D)
  : M mutex_globals (thread_config_t D) :=
  match n with
  | O => ret config
  | S n' => config' <- worker_iteration config ;; worker_loop n' config'
  end.

(** [worker_thread], for a thread that makes [n] passes: the record it
    leaves to [main]. *)
Definition worker_thread (n : nat) (config : thread_config_t D)
  : M mutex_globals (thread_config_t D) :=
  r <- setup_thread_hierarchy config ;;
  (if negb (fst r =? 0)
   then printf "Warning: Thread %d failed to set hierarchy properly\n"
   else ret tt) ;;
  printf "Thread %d (%s) starting...\n" ;;
  now <- ask (Call "time") ;;
  emit (Call "srand") ;;
  printf "Thread %d (%s): sys_priority=%d, nice=%d\n" ;;
  config' <- worker_loop n (snd r) ;;
  printf "Thread %d (%s) finished: total_ops=%llu, max_consecutive=%llu, dominated=%llu, starved=%llu\n" ;;
  ret config'.

(** Passes of several workers in the order in which the lock is handed
    out: [schedule] names, pass by pass, the slot of the thread that
    runs it. *)
Fixpoint run_passes (schedule : list nat) (threads : list (thread_config_t D))
  : M mutex_globals (list (thread_config_t D)) :=
  match schedule with
  | [] => ret threads
  | i :: rest =>
      match threads !! i with
      | Some config =>
          config' <- worker_iteration config ;;
          run_passes rest (<[i := config']> threads)
      | None => run_passes rest threads
      end
  end.

End Worker.

(** The command line as [main] reads it: [argc], and the values [atoi]
    and [atof] return for [argv[1]], [argv[2]], [argv[4]], [argv[5]] and
    [argv[6]]. *)
Record args {D : Type} := {
  argc : Z;
  arg_num_threads : Z;
  arg_duration : Z;
  arg_insert_ratio : D;
  arg_find_ratio : D;
  arg_lock_type : Z
}.
Arguments args : clear implicits.

Section Main.
Context {D : Type} {DO : DoubleOps D}.
Local Open Scope monad_scope.

Definition parsed_insert_ratio (a : args D) : D :=
  if 4 <? argc a then arg_insert_ratio a else (of_int 3 / of_int 10)%D.

Definition parsed_find_ratio (a : args D) : D :=
  if 5 <? argc a then arg_find_ratio a else (of_int 6 / of_int 10)%D.

Definition parsed_update_ratio (a : args D) : D :=
  (of_int 1 - parsed_insert_ratio a - parsed_find_ratio a)%D.

Definition parsed_lock_type (a : args D) : Z :=
  if 6 <? argc a then arg_lock_type a else LOCK_MUTEX.

(** Slot [i] of the [threads] array after the loop at lines 831-863.
    [system_priority] and [nice_value] are first written by the worker
    itself, in [setup_thread_hierarchy]. *)
Definition configured_thread (ins fnd upd : D) (duration i : Z) : thread_config_t D :=
  {| thread_id := i;
     hierarchy_level := Z.rem i 5;
     system_priority := 0;
     nice_value := 0;
     insert_ratio := ins;
     find_ratio := fnd;
     update_ratio := upd;
     duration_seconds := duration;
     insert_count := 0; find_count := 0; update_count := 0;
     insert_time := 0; find_time := 0; update_time := 0;
     lock_wait_time := 0; total_operations := 0; lock_acquisitions := 0;
     lock_contentions := 0; max_consecutive_acquisitions := 0;
     current_consecutive := 0; starvation_periods := 0;
     max_starvation_time := 0; last_lock_time := 0;
     dominated_lower_threads := 0; starved_by_higher := 0 |}.

(** The [threads] array [main] hands to the workers. *)
Definition main_threads (a : args D) : list (thread_config_t D) :=
  map (configured_thread (parsed_insert_ratio a) (parsed_find_ratio a)
         (parsed_update_ratio a) (arg_duration a))
      (seqZ 0 (arg_num_threads a)).

(** The loop at lines 876-884, with its [break]: one [pthread_create]
    per slot of the [threads] array. *)
Fixpoint start_threads (threads : list (thread_config_t D)) : M mutex_globals unit :=
  match threads with
  | [] => ret tt
  | t :: rest =>
      rc <- ask (Call "pthread_create") ;;
      if rc =? 0 then
        emit (Call "usleep") ;;
        start_threads rest
      else
        printf "Failed to create thread %d\n" ;;
        set_global_stop 1
  end.

(** [main], from the parsed command line to the exit status.  The report
    printed after the join is the event [Call "print_hierarchy_stats"];
    its numbers are those of the section [Stats] above. *)
Definition main (a : args D) : M mutex_globals Z :=
  if argc a <? 4 then
    printf "Usage: %s <num_threads> <duration_seconds> <db_file> [insert_ratio] [find_ratio] [lock_type]\n" ;;
    printf "  insert_ratio: 0.0-1.0 (default 0.3)\n" ;;
    printf "  find_ratio: 0.0-1.0 (default 0.6, update_ratio = 1.0-insert-find)\n" ;;
    printf "  lock_type: 0=MUTEX, 1=SPINLOCK, 2=RWLOCK, 3=ADAPTIVE_MUTEX (default 0)\n" ;;
    printf "  Threads will be assigned to hierarchy levels automatically.\n" ;;
    ret 1
  else
    let num_threads := arg_num_threads a in
    let lock_type := parsed_lock_type a in
    if (MAX_THREADS <? num_threads) || (num_threads <? 1) then
      printf "Number of threads must be between 1 and %d\n" ;;
      ret 1
    else if (of_int 1 <? parsed_insert_ratio a + parsed_find_ratio a)%D then
      printf "insert_ratio + find_ratio must be <= 1.0\n" ;;
      ret 1
    else
      printf "Starting hierarchical lock fairness test with %d threads for %d seconds\n" ;;
      printf "Operation ratios: Insert=%.2f, Find=%.2f, Update=%.2f\n" ;;
      rc <- init_lock lock_type ;;
      if negb (rc =? 0) then
        ret 1
      else
        st <- ask (Call "ups_env_create") ;;
        if negb (st =? UPS_SUCCESS) then
          printf "Failed to create environment: %s\n" ;;
          ret 1
        else
          st <- ask (Call "ups_env_create_db") ;;
          if negb (st =? UPS_SUCCESS) then
            printf "Failed to create database: %s\n" ;;
            emit (Call "ups_env_close") ;;
            ret 1
          else
            printf "\nThread Hierarchy Assignment:\n" ;;
            mfor (seqZ 0 num_threads)
                 (fun _ => printf "Thread %2d: %s (sys_prio=%d, nice=%d)\n") ;;
            printf "\n" ;;
            start_threads (main_threads a) ;;
            printf "Running test for %d seconds...\n" ;;
            emit (Call "sleep") ;;
            set_global_stop 1 ;;
            printf "Stopping threads...\n" ;;
            mfor (seqZ 0 num_threads) (fun _ => emit (Call "pthread_join")) ;;
            emit (Call "print_hierarchy_stats") ;;
            emit (Call "ups_db_close") ;;
            emit (Call "ups_env_close") ;;
            destroy_lock ;;
            printf "\nTest completed successfully!\n" ;;
            printf "\nTo run with different lock types:\n" ;;
            printf "  0 = MUTEX (should show hierarchy effects)\n" ;;
            printf "  1 = SPINLOCK (should show hierarchy effects)\n" ;;
            printf "  2 = RWLOCK (may show hierarchy effects)\n" ;;
            printf "  3 = ADAPTIVE_MUTEX (may show hierarchy effects)\n" ;;
            ret 0.

End Main.

End upscale_mutex.

(** ** upscale_fairness_test.c *)

Module upscale_fairness_test.

(** [node_t] of the hierarchical fair lock, with the fields the harness
    writes (the lock's header is not part of the sources). *)
Record node_t := {
  id : Z;
  parent : Z;
  weight : Z;
  cs : Z;
  banned_until : Z;
  slice : Z
}.

(** [hierarchy_type_t], by enumerator value. *)
Definition HIERARCHY_FLAT : Z := 0.
Definition HIERARCHY_BALANCED : Z := 1.
Definition HIERARCHY_SKEWED : Z := 2.
Definition HIERARCHY_DEEP : Z := 3.
Definition HIERARCHY_GROUPED : Z := 4.
Definition HIERARCHY_CUSTOM : Z := 5.

(** The program's own global: the array [hierarchy] points to.  A slot
    is [None] until the program has written it. *)
Definition hierarchy_t : Type := list (option node_t).

Section Hierarchy.
Local Open Scope monad_scope.

(** [hierarchy = malloc(num_nodes * sizeof(node_t))]. *)
Definition malloc_hierarchy (num_nodes : Z) : M hierarchy_t unit :=
  set_globals (replicate (Z.to_nat num_nodes) None).

(** The six assignments to the fields of [hierarchy[i]]. *)
Definition written_node (i parent_id w now : Z) : node_t :=
  {| id := i; parent := parent_id; weight := w; cs := 0;
     banned_until := now; slice := 0 |}.

Definition write_node (i parent_id w now : Z) : M hierarchy_t unit :=
  h <- get_globals ;;
  set_globals (<[Z.to_nat i := Some (written_node i parent_id w now)]> h).

Definition init_flat_hierarchy (num_threads : Z) : M hierarchy_t unit :=
  let num_nodes := int32 (num_threads + 1) in
  malloc_hierarchy num_nodes ;;
  now <- rdtsc ;;
  write_node 0 0 0 now ;;
  mfor (seqZ 1 (num_nodes - 1)) (fun i => write_node i 0 0 now) ;;
  printf "Initialized FLAT hierarchy: %d threads under root\n".

Definition init_balanced_hierarchy (num_threads : Z) : M hierarchy_t unit :=
  let num_nodes := int32 (num_threads + 1) in
  malloc_hierarchy num_nodes ;;
  now <- rdtsc ;;
  write_node 0 0 0 now ;;
  mfor (seqZ 1 (num_nodes - 1))
       (fun i => write_node i (Z.quot (i - 1) 2) 0 now) ;;
  printf "Initialized BALANCED hierarchy: binary tree with %d nodes\n".

Definition init_skewed_hierarchy (num_threads : Z) : M hierarchy_t unit :=
  let num_nodes := int32 (num_threads + 1) in
  malloc_hierarchy num_nodes ;;
  now <- rdtsc ;;
  write_node 0 0 0 now ;;
  let mid := Z.quot num_threads 2 in
  mfor (seqZ 1 (num_nodes - 1))
       (fun i => write_node i (if i <=? mid then i - 1 else 0) 0 now) ;;
  printf "Initialized SKEWED hierarchy: %d nodes in chain, %d direct children\n".

Definition init_deep_hierarchy (num_threads : Z) : M hierarchy_t unit :=
  let num_nodes := int32 (num_threads + 1) in
  malloc_hierarchy num_nodes ;;
  now <- rdtsc ;;
  write_node 0 0 0 now ;;
  mfor (seqZ 1 (num_nodes - 1)) (fun i => write_node i (i - 1) 0 now) ;;
  printf "Initialized DEEP hierarchy: linear chain of %d nodes\n".

Definition init_grouped_hierarchy (num_threads : Z) : M hierarchy_t unit :=
  let num_groups := 4 in
  let num_nodes := int32 (int32 (num_threads + num_groups) + 1) in
  malloc_hierarchy num_nodes ;;
  now <- rdtsc ;;
  write_node 0 0 0 now ;;
  mfor (seqZ 1 num_groups) (fun g => write_node g 0 0 now) ;;
  mfor (seqZ 0 num_threads)
       (fun i => write_node (num_groups + 1 + i) (Z.rem i num_groups + 1) 1024 now) ;;
  printf "Initialized GROUPED hierarchy: %d groups, %d threads total\n".

Definition init_hierarchy (num_threads type : Z) : M hierarchy_t unit :=
  if type =? HIERARCHY_FLAT then init_flat_hierarchy num_threads
  else if type =? HIERARCHY_BALANCED then init_balanced_hierarchy num_threads
  else if type =? HIERARCHY_SKEWED then init_skewed_hierarchy num_threads
  else if type =? HIERARCHY_DEEP then init_deep_hierarchy num_threads
  else if type =? HIERARCHY_GROUPED then init_grouped_hierarchy num_threads
  else
    printf "Unknown hierarchy type, using flat hierarchy\n" ;;
    init_flat_hierarchy num_threads.

End Hierarchy.

(** [thread_config_t].  The handles ([env], [db], [thread], [stop_flag])
    are left out. *)
Record thread_config_t {D : Type} := {
  thread_id : Z;
  priority : Z;
  thread_weight : Z;            (* the field [weight] *)
  parent_node : Z;
  insert_ratio : D;
  find_ratio : D;
  update_ratio : D;
  duration_seconds : Z;
  insert_count : Z;
  find_count : Z;
  update_count : Z;
  insert_time : Z;
  find_time : Z;
  update_time : Z;
  lock_wait_time : Z;
  total_operations : Z;
  lock_acquisitions : Z;
  slice_violations : Z;
  ban_time_total : Z;
  reacquire_count : Z
}.
Arguments thread_config_t : clear implicits.

Section Worker.
Context {D : Type} {DO : DoubleOps D}.
Local Open Scope monad_scope.

Definition perform_find (config : thread_config_t D) : M hierarchy_t Z :=
  start_time <- rdtsc ;;
  k <- get_next_key ;;
  if k <=? 1 then
    printf "Error: No keys available for find operation\n" ;;
    ret 0
  else
    r1 <- rand ;;
    k' <- get_next_key ;;
    let key_id := int32 (1 + Z.rem r1 (int32 (k' - 1))) in
    r2 <- rand ;;
    let target_thread := Z.rem r2 MAX_THREADS in
    st <- ask (StoreFind target_thread key_id) ;;
    end_time <- rdtsc ;;
    (if negb (st =? UPS_SUCCESS) && negb (st =? UPS_KEY_NOT_FOUND)
     then printf "Thread %d: Find failed with status %d\n"
     else ret tt) ;;
    ret (ull (end_time - start_time)).

Definition perform_update (config : thread_config_t D) : M hierarchy_t Z :=
  start_time <- rdtsc ;;
  k <- get_next_key ;;
  if k <=? 1 then
    ret 0
  else
    r1 <- rand ;;
    k' <- get_next_key ;;
    let key_id := int32 (1 + Z.rem r1 (int32 (k' - 1))) in
    r2 <- rand ;;
    let target_thread := Z.rem r2 MAX_THREADS in
    new_data <- generate_data DATA_SIZE ;;
    st <- ask (StoreFind target_thread key_id) ;;
    st <- (if st =? UPS_SUCCESS
           then ask (StoreInsert target_thread key_id new_data true)
           else ret st) ;;
    end_time <- rdtsc ;;
    (if negb (st =? UPS_SUCCESS) && negb (st =? UPS_KEY_NOT_FOUND)
     then printf "Thread %d: Update failed with status %d\n"
     else ret tt) ;;
    ret (ull (end_time - start_time)).

(** The operation the loop body picks from the draw [r = rand()]
    (lines 232-241). *)
Definition select_operation (config : thread_config_t D) (r : Z) : operation_type_t :=
  let op_rand := (of_int r / of_int RAND_MAX)%D in
  if (op_rand <? insert_ratio config)%D then OP_INSERT
  else if (op_rand <? insert_ratio config + find_ratio config)%D then OP_FIND
  else OP_UPDATE.

(** One pass through the body of [while (!*config->stop_flag)]
    (lines 231-286); the result is the thread's record after the pass. *)
Definition worker_iteration (config : thread_config_t D)
  : M hierarchy_t (thread_config_t D) :=
  r <- rand ;;
  let op_type := select_operation config r in
  lock_start <- rdtsc ;;
  emit (Call "hfairlock_acquire") ;;
  lock_end <- rdtsc ;;
  operation_time <-
    match op_type with
    | OP_INSERT => perform_insert (thread_id config)
    | OP_FIND => perform_find config
    | OP_UPDATE => perform_update config
    end ;;
  let total := ull (total_operations config + 1) in
  slice_end <- ask (Call "hfairlock_release") ;;
  current_time <- rdtsc ;;
  (if Z.rem total 100 =? 0 then emit (Call "usleep") else ret tt) ;;
  ret {|
    thread_id := thread_id config;
    priority := priority config;
    thread_weight := thread_weight config;
    parent_node := parent_node config;
    insert_ratio := insert_ratio config;
    find_ratio := find_ratio config;
    update_ratio := update_ratio config;
    duration_seconds := duration_seconds config;
    insert_count :=
      match op_type with OP_INSERT => ull (insert_count config + 1) | _ => insert_count config end;
    find_count :=
      match op_type with OP_FIND => ull (find_count config + 1) | _ => find_count config end;
    update_count :=
      match op_type with OP_UPDATE => ull (update_count config + 1) | _ => update_count config end;
    insert_time :=
      match op_type with
      | OP_INSERT => ull (insert_time config + operation_time)
      | _ => insert_time config
      end;
    find_time :=
      match op_type with
      | OP_FIND => ull (find_time config + operation_time)
      | _ => find_time config
      end;
    update_time :=
      match op_type with
      | OP_UPDATE => ull (update_time config + operation_time)
      | _ => update_time config
      end;
    lock_wait_time := ull (lock_wait_time config + ull (lock_end - lock_start));
    total_operations := total;
    lock_acquisitions := ull (lock_acquisitions config + 1);
    slice_violations :=
      if slice_end <? current_time
      then ull (slice_violations config + 1)
      else slice_violations config;
    ban_time_total := ban_time_total config;
    reacquire_count := reacquire_count config
  |}.

(** [n] passes through the loop body: the loop of a thread that sees the
    stop flag raised when it tests it for the [n+1]-th time. *)
Fixpoint worker_loop (n : nat) (config : thread_config_t D)
  : M hierarchy_t (thread_config_t D) :=
  match n with
  | O => ret config
  | S n' => config' <- worker_iteration config ;; worker_loop n' config'
  end.

(** Values of [errno] that [worker_thread] tolerates, from the Linux
    headers. *)
Definition EPERM : Z := 1.
Definition EACCES : Z := 13.

(** Line 218: the weight handed to [hfairlock_thread_init]. *)
Definition priority_adjusted_weight (config : thread_config_t D) : Z :=
  int32 (thread_weight config * int32 (20 + priority config)).

(** [worker_thread], for a thread that makes [n] passes: the record it
    leaves to [main]. *)
Definition worker_thread (n : nat) (config : thread_config_t D)
  : M hierarchy_t (thread_config_t D) :=
  tid <- ask (Call "gettid") ;;
  rc <- ask (Call "setpriority") ;;
  e <- (if negb (rc =? 0) then errno else ret 0) ;;
  if negb (rc =? 0) && negb (e =? EPERM) && negb (e =? EACCES) then
    printf "setpriority" ;;
    ret config
  else
    emit (Call "hfairlock_thread_init") ;;
    now <- ask (Call "time") ;;
    emit (Call "srand") ;;
    printf "Thread %d started: priority=%d, weight=%d, parent=%d\n" ;;
    config' <- worker_loop n config ;;
    printf "Thread %d finished: total_ops=%llu, inserts=%llu, finds=%llu, updates=%llu\n" ;;
    ret config'.

(** Passes of several workers in the order in which the lock is handed
    out: [schedule] names, pass by pass, the slot of the thread that
    runs it. *)
Fixpoint run_passes (schedule : list nat) (threads : list (thread_config_t D))
  : M hierarchy_t (list (thread_config_t D)) :=
  match schedule with
  | [] => ret threads
  | i :: rest =>
      match threads !! i with
      | Some config =>
          config' <- worker_iteration config ;;
          run_passes rest (<[i := config']> threads)
      | None => run_passes rest threads
      end
  end.

End Worker.

(** One row of the per-thread table of [print_fairness_stats]. *)
Record thread_line {D : Type} := {
  ops_per_sec : D;
  lock_wait_ms : D;
  avg_wait_us : D
}.
Arguments thread_line : clear implicits.

(** The numbers [print_fairness_stats] prints.  [throughput_variation]
    is [None] when the line reads "N/A (insufficient operations)". *)
Record fairness_report {D : Type} := {
  table : list (thread_line D);
  total_ops_per_sec : D;
  total_lock_wait_ms : D;
  report_min_ops : D;
  report_max_ops : D;
  report_avg_ops : D;
  fairness_index : D;
  throughput_variation : option D
}.
Arguments fairness_report : clear implicits.

Section Stats.
Context {D : Type} {DO : DoubleOps D}.
Local Open Scope dv_scope.

(** The first [num_threads] slots of the [threads] array. *)
Definition slots (threads : list (thread_config_t D)) (num_threads : Z) :=
  firstn (Z.to_nat num_threads) threads.

(** [threads[0].total_operations]. *)
Definition first_ops (threads : list (thread_config_t D)) : Z :=
  match threads with
  | [] => 0
  | t :: _ => total_operations t
  end.

(** Body of the loop at lines 590-605. *)
Definition table_step (duration : Z)
  (acc : list (thread_line D) * Z * Z * Z) (t : thread_config_t D)
  : Dv D (list (thread_line D) * Z * Z * Z) :=
  let '(lines, total_ops, total_lock_wait, total_lock_acquisitions) := acc in
  ops <- fdiv (of_int (total_operations t)) (of_int duration) ;;
  wait_ms <- fdiv (of_int (lock_wait_time t)) (of_int (CYCLE_PER_US * 1000)) ;;
  wait_us <- (if 0 <? lock_acquisitions t
              then fdiv (of_int (lock_wait_time t))
                        (of_int (ull (lock_acquisitions t * CYCLE_PER_US)))
              else dret (of_int 0)) ;;
  dret (lines ++ [{| ops_per_sec := ops; lock_wait_ms := wait_ms; avg_wait_us := wait_us |}],
        ull (total_ops + total_operations t),
        ull (total_lock_wait + lock_wait_time t),
        ull (total_lock_acquisitions + lock_acquisitions t)).

(** Body of the loop at lines 617-620. *)
Definition minmax_step (acc : D * D) (t : thread_config_t D) : D * D :=
  let '(min_ops, max_ops) := acc in
  let x := of_int (total_operations t) in
  ((if (x <? min_ops)%D then x else min_ops),
   (if (max_ops <? x)%D then x else max_ops)).

(** Lines 613-636: the fairness metrics, from the total of the table. *)
Definition fairness_metrics (threads : list (thread_config_t D))
  (num_threads total_ops : Z)
  : Dv D (D * D * D * D * option D) :=
  let first := of_int (first_ops threads) in
  avg_ops <- fdiv (of_int total_ops) (of_int num_threads) ;;
  let '(min_ops, max_ops) :=
    fold_left minmax_step (skipn 1 (slots threads num_threads)) (first, first) in
  index <- (if 0 <? total_ops
            then
              den <- udiv (ull (total_ops * total_ops)) (ull num_threads) ;;
              fdiv (avg_ops * avg_ops * of_int num_threads)%D (of_int den)
            else dret (of_int 0)) ;;
  variation <- (if (of_int 0 <? avg_ops)%D
                then
                  q <- fdiv (max_ops - min_ops)%D avg_ops ;;
                  dret (Some (q * of_int 100)%D)
                else dret None) ;;
  dret (min_ops, max_ops, avg_ops, index, variation).

Definition print_fairness_stats (threads : list (thread_config_t D))
  (num_threads duration : Z) : Dv D (fairness_report D) :=
  acc <- dfold (table_step duration) (slots threads num_threads) ([], 0, 0, 0) ;;
  let '(lines, total_ops, total_lock_wait, _) := acc in
  total_rate <- fdiv (of_int total_ops) (of_int duration) ;;
  total_wait <- fdiv (of_int total_lock_wait) (of_int (CYCLE_PER_US * 1000)) ;;
  m <- fairness_metrics threads num_threads total_ops ;;
  let '(min_ops, max_ops, avg_ops, index, variation) := m in
  dret {| table := lines;
          total_ops_per_sec := total_rate;
          total_lock_wait_ms := total_wait;
          report_min_ops := min_ops;
          report_max_ops := max_ops;
          report_avg_ops := avg_ops;
          fairness_index := index;
          throughput_variation := variation |}.

End Stats.

(** The command line as [main] reads it: [argc], and the values [atoi]
    and [atof] return for [argv[1]], [argv[2]], [argv[4]], [argv[5]] and
    [argv[6]].  A field is read only when [argc] says the argument is
    there. *)
Record args {D : Type} := {
  argc : Z;
  arg_num_threads : Z;
  arg_duration : Z;
  arg_insert_ratio : D;
  arg_find_ratio : D;
  arg_type : Z
}.
Arguments args : clear implicits.

Section Main.
Context {D : Type} {DO : DoubleOps D}.
Local Open Scope monad_scope.

Definition parsed_insert_ratio (a : args D) : D :=
  if 4 <? argc a then arg_insert_ratio a else (of_int 3 / of_int 10)%D.

Definition parsed_find_ratio (a : args D) : D :=
  if 5 <? argc a then arg_find_ratio a else (of_int 6 / of_int 10)%D.

Definition parsed_update_ratio (a : args D) : D :=
  (of_int 1 - parsed_insert_ratio a - parsed_find_ratio a)%D.

(** Lines 654-662. *)
Definition parsed_hierarchy_type (a : args D) : Z :=
  if (6 <? argc a) && (0 <=? arg_type a) && (arg_type a <=? 4)
  then arg_type a
  else HIERARCHY_FLAT.

(** Slot [i] of the [threads] array once [configure_threads_for_hierarchy]
    and the loop at lines 710-733 have run. *)
Definition configured_thread (type num_threads : Z) (ins fnd upd : D)
  (duration i : Z) : thread_config_t D :=
  let half := Z.quot num_threads 2 in
  let group := Z.rem i 4 in
  {| thread_id := i;
     priority :=
       if type =? HIERARCHY_FLAT then -10 + Z.rem i 20
       else if type =? HIERARCHY_BALANCED then -5 + Z.rem i 10
       else if type =? HIERARCHY_SKEWED then (if i <? half then -10 + i else 0)
       else if type =? HIERARCHY_DEEP then -15 + i
       else if type =? HIERARCHY_GROUPED then -10 + group * 5
       else 0;
     thread_weight :=
       if type =? HIERARCHY_FLAT then Z.shiftr 1024 (Z.rem i 4)
       else if type =? HIERARCHY_BALANCED then 512 + Z.rem i 3 * 256
       else if type =? HIERARCHY_SKEWED then (if i <? half then Z.shiftr 2048 i else 1024)
       else if type =? HIERARCHY_DEEP then 1024 + i * 128
       else if type =? HIERARCHY_GROUPED then Z.shiftr 1024 group
       else 1024;
     parent_node :=
       if type =? HIERARCHY_GROUPED then 4 + 1 + i else i + 1;
     insert_ratio := ins;
     find_ratio := fnd;
     update_ratio := upd;
     duration_seconds := duration;
     insert_count := 0; find_count := 0; update_count := 0;
     insert_time := 0; find_time := 0; update_time := 0;
     lock_wait_time := 0; total_operations := 0; lock_acquisitions := 0;
     slice_violations := 0; ban_time_total := 0; reacquire_count := 0 |}.

(** The [threads] array [main] hands to the workers. *)
Definition main_threads (a : args D) : list (thread_config_t D) :=
  map (configured_thread (parsed_hierarchy_type a) (arg_num_threads a)
         (parsed_insert_ratio a) (parsed_find_ratio a) (parsed_update_ratio a)
         (arg_duration a))
      (seqZ 0 (arg_num_threads a)).

Definition print_hierarchy_structure (num_nodes type : Z) : M hierarchy_t unit :=
  printf "\n=== HIERARCHY STRUCTURE ===\n" ;;
  printf "Type: %s\n" ;;
  printf "Node | Parent | Weight | Description\n" ;;
  printf "-----|--------|--------|------------\n" ;;
  mfor (seqZ 0 num_nodes) (fun i =>
    h <- get_globals ;;
    let node_id := match h !! Z.to_nat i with Some (Some nd) => id nd | _ => 0 end in
    printf "%4d | %6d | %6d | " ;;
    if node_id =? 0 then printf "Root node\n"
    else if (type =? HIERARCHY_GROUPED) && (node_id <=? 4) then printf "Group %d\n"
    else printf "Thread node\n") ;;
  printf "\n".

(** The loop at lines 740-746, with its [break]: one [pthread_create]
    per slot of the [threads] array. *)
Fixpoint start_threads (threads : list (thread_config_t D)) : M hierarchy_t unit :=
  match threads with
  | [] => ret tt
  | t :: rest =>
      rc <- ask (Call "pthread_create") ;;
      if rc =? 0 then start_threads rest
      else
        printf "Failed to create thread %d\n" ;;
        set_global_stop 1
  end.

(** [main], from the parsed command line to the exit status.  The report
    printed after the join is the event [Call "print_fairness_stats"];
    its numbers are those of [print_fairness_stats] above. *)
Definition main (a : args D) : M hierarchy_t Z :=
  if argc a <? 4 then
    printf "Usage: %s <num_threads> <duration_seconds> <db_file> [insert_ratio] [find_ratio] [hierarchy_type]\n" ;;
    printf "  insert_ratio: 0.0-1.0 (default 0.3)\n" ;;
    printf "  find_ratio: 0.0-1.0 (default 0.6, update_ratio = 1.0-insert-find)\n" ;;
    printf "  hierarchy_type: 0=FLAT, 1=BALANCED, 2=SKEWED, 3=DEEP, 4=GROUPED (default 0)\n" ;;
    ret 1
  else
    let num_threads := arg_num_threads a in
    let hierarchy_type := parsed_hierarchy_type a in
    if (MAX_THREADS <? num_threads) || (num_threads <? 1) then
      printf "Number of threads must be between 1 and %d\n" ;;
      ret 1
    else if (of_int 1 <? parsed_insert_ratio a + parsed_find_ratio a)%D then
      printf "insert_ratio + find_ratio must be <= 1.0\n" ;;
      ret 1
    else
      printf "Starting fairness test with %d threads for %d seconds\n" ;;
      printf "Operation ratios: Insert=%.2f, Find=%.2f, Update=%.2f\n" ;;
      init_hierarchy num_threads hierarchy_type ;;
      rc <- ask (Call "hfairlock_init") ;;
      if negb (rc =? 0) then
        printf "Failed to initialize global fairlock\n" ;;
        ret 1
      else
        st <- ask (Call "ups_env_create") ;;
        if negb (st =? UPS_SUCCESS) then
          printf "Failed to create environment: %s\n" ;;
          ret 1
        else
          st <- ask (Call "ups_env_create_db") ;;
          if negb (st =? UPS_SUCCESS) then
            printf "Failed to create database: %s\n" ;;
            emit (Call "ups_env_close") ;;
            ret 1
          else
            let total_nodes :=
              if hierarchy_type =? HIERARCHY_GROUPED
              then int32 (num_threads + 5) else int32 (num_threads + 1) in
            print_hierarchy_structure total_nodes hierarchy_type ;;
            start_threads (main_threads a) ;;
            emit (Call "sleep") ;;
            set_global_stop 1 ;;
            printf "Stopping threads...\n" ;;
            mfor (seqZ 0 num_threads) (fun _ => emit (Call "pthread_join")) ;;
            emit (Call "print_fairness_stats") ;;
            emit (Call "ups_db_close") ;;
            emit (Call "ups_env_close") ;;
            emit (Call "hfairlock_destroy") ;;
            emit (Call "free") ;;
            printf "Test completed successfully!\n" ;;
            ret 0.

End Main.

End upscale_fairness_test.

(** ** upscale_fairness_cgroups.c: the report *)

Module upscale_fairness_cgroups.

Definition MAX_CGROUPS : Z := 8.

(** [cgroup_config_t]; [type] holds the enumerator value of
    [cgroup_type_t] (0 ROOT, 1 SYSTEM, 2 USER, 3 REALTIME, 4 BATCH,
    5 INTERACTIVE). *)
Record cgroup_config_t := {
  cgroup_name : string;
  cgroup_type_of : Z;
  cgroup_weight : Z;
  cpu_shares : Z;
  memory_limit_mb : Z;
  io_weight : Z;
  rt_priority : Z;
  nice_value : Z;
  throttle_quota : Z;
  max_threads : Z
}.

(** The table [init_cgroup_configs] fills, entries 0..5. *)
Definition cgroups : list cgroup_config_t :=
  [ {| cgroup_name := "root"; cgroup_type_of := 0; cgroup_weight := 1024;
       cpu_shares := 1024; memory_limit_mb := 0; io_weight := 1000;
       rt_priority := 0; nice_value := 0; throttle_quota := 0;
       max_threads := MAX_THREADS |};
    {| cgroup_name := "system"; cgroup_type_of := 1; cgroup_weight := 2048;
       cpu_shares := 2048; memory_limit_mb := 512; io_weight := 1000;
       rt_priority := 10; nice_value := -10; throttle_quota := 0;
       max_threads := 4 |};
    {| cgroup_name := "realtime"; cgroup_type_of := 3; cgroup_weight := 4096;
       cpu_shares := 4096; memory_limit_mb := 256; io_weight := 1000;
       rt_priority := 20; nice_value := -20; throttle_quota := 0;
       max_threads := 2 |};
    {| cgroup_name := "interactive"; cgroup_type_of := 5; cgroup_weight := 1536;
       cpu_shares := 1536; memory_limit_mb := 1024; io_weight := 800;
       rt_priority := 0; nice_value := -5; throttle_quota := 0;
       max_threads := 6 |};
    {| cgroup_name := "user"; cgroup_type_of := 2; cgroup_weight := 1024;
       cpu_shares := 1024; memory_limit_mb := 2048; io_weight := 500;
       rt_priority := 0; nice_value := 0; throttle_quota := 0;
       max_threads := 8 |};
    {| cgroup_name := "batch"; cgroup_type_of := 4; cgroup_weight := 512;
       cpu_shares := 512; memory_limit_mb := 4096; io_weight := 200;
       rt_priority := 0; nice_value := 10; throttle_quota := 50;
       max_threads := 4 |} ].

Definition num_cgroups : Z := 6.

(** [thread_config_t], without the handles. *)
Record thread_config_t {D : Type} := {
  thread_id : Z;
  priority : Z;
  thread_weight : Z;            (* the field [weight] *)
  parent_node : Z;
  cgroup_id : Z;
  cgroup_type : Z;
  insert_ratio : D;
  find_ratio : D;
  update_ratio : D;
  duration_seconds : Z;
  insert_count : Z;
  find_count : Z;
  update_count : Z;
  insert_time : Z;
  find_time : Z;
  update_time : Z;
  lock_wait_time : Z;
  total_operations : Z;
  lock_acquisitions : Z;
  slice_violations : Z;
  ban_time_total : Z;
  reacquire_count : Z;
  cgroup_preemptions : Z;
  cgroup_throttle_time : Z
}.
Arguments thread_config_t : clear implicits.

(** The cgroup of thread [i] in [configure_threads_for_cgroups]. *)
Definition cgroup_of_thread (i : Z) : Z :=
  if i <? 2 then 2
  else if i <? 4 then 1
  else if i <? 8 then 3
  else if i <? 12 then 4
  else 5.

(** One row of the per-thread table, one row of the cgroup summary, one
    line of the cgroup fairness analysis. *)
Record thread_line {D : Type} := {
  ops_per_sec : D;
  lock_wait_ms : D;
  avg_wait_us : D;
  throttle_ms : D
}.
Arguments thread_line : clear implicits.

Record summary_line {D : Type} := {
  summary_avg_ops : D;
  summary_ops_per_sec : D;
  summary_throttle_ms : D
}.
Arguments summary_line : clear implicits.

Record share_line {D : Type} := {
  expected_share : D;
  actual_share : D;
  fairness_ratio : D
}.
Arguments share_line : clear implicits.

Record cgroups_report {D : Type} := {
  table : list (thread_line D);
  summary : list (summary_line D);
  fairness_index : D;
  throughput_variation : option D;
  shares : list (share_line D)
}.
Arguments cgroups_report : clear implicits.

(** The accumulators of the table loop: the three totals and the three
    per-cgroup arrays. *)
Record totals := {
  total_ops : Z;
  total_lock_wait : Z;
  total_lock_acquisitions : Z;
  cgroup_ops : list Z;
  cgroup_threads : list Z;
  cgroup_throttle : list Z
}.

Section Stats.
Context {D : Type} {DO : DoubleOps D}.
Local Open Scope dv_scope.

Definition slots (threads : list (thread_config_t D)) (num_threads : Z) :=
  firstn (Z.to_nat num_threads) threads.

Definition first_ops (threads : list (thread_config_t D)) : Z :=
  match threads with
  | [] => 0
  | t :: _ => total_operations t
  end.

(** [a[k] += v] on an array of [unsigned long long]. *)
Definition bump (a : list Z) (k v : Z) : list Z :=
  <[Z.to_nat k := ull (a !!! Z.to_nat k + v)]> a.

(** Body of the per-thread loop. *)
Definition table_step (duration : Z) (acc : list (thread_line D) * totals)
  (t : thread_config_t D) : Dv D (list (thread_line D) * totals) :=
  let (lines, tot) := acc in
  ops <- fdiv (of_int (total_operations t)) (of_int duration) ;;
  wait_ms <- fdiv (of_int (lock_wait_time t)) (of_int (CYCLE_PER_US * 1000)) ;;
  wait_us <- (if 0 <? lock_acquisitions t
              then fdiv (of_int (lock_wait_time t))
                        (of_int (ull (lock_acquisitions t * CYCLE_PER_US)))
              else dret (of_int 0)) ;;
  thr_ms <- fdiv (of_int (cgroup_throttle_time t)) (of_int (CYCLE_PER_US * 1000)) ;;
  dret (lines ++ [{| ops_per_sec := ops; lock_wait_ms := wait_ms;
                     avg_wait_us := wait_us; throttle_ms := thr_ms |}],
        {| total_ops := ull (total_ops tot + total_operations t);
           total_lock_wait := ull (total_lock_wait tot + lock_wait_time t);
           total_lock_acquisitions :=
             ull (total_lock_acquisitions tot + lock_acquisitions t);
           cgroup_ops := bump (cgroup_ops tot) (cgroup_id t) (total_operations t);
           cgroup_threads := bump (cgroup_threads tot) (cgroup_id t) 1;
           cgroup_throttle :=
             bump (cgroup_throttle tot) (cgroup_id t) (cgroup_throttle_time t) |}).

(** Body of the "CGROUP PERFORMANCE SUMMARY" loop. *)
Definition summary_step (duration : Z) (tot : totals)
  (lines : list (summary_line D)) (i : Z) : Dv D (list (summary_line D)) :=
  if 0 <? cgroup_threads tot !!! Z.to_nat i then
    avg <- fdiv (of_int (cgroup_ops tot !!! Z.to_nat i))
                (of_int (cgroup_threads tot !!! Z.to_nat i)) ;;
    rate <- fdiv (of_int (cgroup_ops tot !!! Z.to_nat i)) (of_int duration) ;;
    thr <- fdiv (of_int (cgroup_throttle tot !!! Z.to_nat i))
                (of_int (CYCLE_PER_US * 1000)) ;;
    dret (lines ++ [{| summary_avg_ops := avg; summary_ops_per_sec := rate;
                       summary_throttle_ms := thr |}])
  else dret lines.

Definition minmax_step (acc : D * D) (t : thread_config_t D) : D * D :=
  let '(min_ops, max_ops) := acc in
  let x := of_int (total_operations t) in
  ((if (x <? min_ops)%D then x else min_ops),
   (if (max_ops <? x)%D then x else max_ops)).

(** The metrics block, the same text as in [upscale_fairness_test.c]. *)
Definition fairness_metrics (threads : list (thread_config_t D))
  (num_threads total : Z) : Dv D (D * option D) :=
  let first := of_int (first_ops threads) in
  avg_ops <- fdiv (of_int total) (of_int num_threads) ;;
  let '(min_ops, max_ops) :=
    fold_left minmax_step (skipn 1 (slots threads num_threads)) (first, first) in
  index <- (if 0 <? total
            then
              den <- udiv (ull (total * total)) (ull num_threads) ;;
              fdiv (avg_ops * avg_ops * of_int num_threads)%D (of_int den)
            else dret (of_int 0)) ;;
  variation <- (if (of_int 0 <? avg_ops)%D
                then
                  q <- fdiv (max_ops - min_ops)%D avg_ops ;;
                  dret (Some (q * of_int 100)%D)
                else dret None) ;;
  dret (index, variation).

(** Body of the "CGroup Fairness Analysis" loop. *)
Definition share_step (tot : totals) (lines : list (share_line D)) (i : Z)
  : Dv D (list (share_line D)) :=
  if 0 <? cgroup_threads tot !!! Z.to_nat i then
    let shares_i :=
      match cgroups !! Z.to_nat i with
      | Some c => cpu_shares c
      | None => 0
      end in
    expected <- fdiv (of_int shares_i) (of_int 1024) ;;
    actual <- fdiv (of_int (cgroup_ops tot !!! Z.to_nat i)) (of_int (total_ops tot)) ;;
    ratio <- fdiv actual expected ;;
    dret (lines ++ [{| expected_share := expected; actual_share := actual;
                       fairness_ratio := ratio |}])
  else dret lines.

Definition print_cgroups_fairness_stats (threads : list (thread_config_t D))
  (num_threads duration : Z) : Dv D (cgroups_report D) :=
  let zeros := replicate (Z.to_nat MAX_CGROUPS) 0 in
  acc <- dfold (table_step duration) (slots threads num_threads)
           ([], {| total_ops := 0; total_lock_wait := 0; total_lock_acquisitions := 0;
                   cgroup_ops := zeros; cgroup_threads := zeros;
                   cgroup_throttle := zeros |}) ;;
  let (lines, tot) := acc in
  total_rate <- fdiv (of_int (total_ops tot)) (of_int duration) ;;
  total_wait <- fdiv (of_int (total_lock_wait tot)) (of_int (CYCLE_PER_US * 1000)) ;;
  sums <- dfold (summary_step duration tot) (seqZ 1 (num_cgroups - 1)) [] ;;
  m <- fairness_metrics threads num_threads (total_ops tot) ;;
  shr <- dfold (share_step tot) (seqZ 1 (num_cgroups - 1)) [] ;;
  dret {| table := lines; summary := sums;
          fairness_index := fst m; throughput_variation := snd m;
          shares := shr |}.

End Stats.

(** The program's own globals: the array [hierarchy] points to and the
    field [thread_count] of the eight entries of [cgroups]. *)
Record cgroups_globals := {
  hierarchy : list (option upscale_fairness_test.node_t);
  thread_count : list Z
}.

Section Setup.
Context {D : Type} {DO : DoubleOps D} {DC : DoubleCast D}.
Local Open Scope monad_scope.

Definition weight_of_cgroup (i : Z) : Z :=
  match cgroups !! Z.to_nat i with
  | Some c => cgroup_weight c
  | None => 0
  end.

(** [init_cgroup_configs]: the table itself is the constant [cgroups]. *)
Definition init_cgroup_configs : M cgroups_globals unit :=
  g <- get_globals ;;
  set_globals {| hierarchy := hierarchy g;
                 thread_count := replicate (Z.to_nat MAX_CGROUPS) 0 |} ;;
  printf "Initialized %d CGroups:\n" ;;
  mfor (seqZ 0 num_cgroups)
       (fun _ => printf "  %s: weight=%d, cpu_shares=%d, max_threads=%d, nice=%d\n").

(** The six assignments to the fields of [hierarchy[node_idx]]. *)
Definition write_node (node_idx parent_id w now : Z) : M cgroups_globals unit :=
  g <- get_globals ;;
  set_globals
    {| hierarchy :=
         <[Z.to_nat node_idx :=
             Some (upscale_fairness_test.written_node node_idx parent_id w now)]>
           (hierarchy g);
       thread_count := thread_count g |}.

(** [cgroups[cgroup_idx].thread_count++]. *)
Definition count_thread (cgroup_idx : Z) : M cgroups_globals unit :=
  g <- get_globals ;;
  set_globals
    {| hierarchy := hierarchy g;
       thread_count :=
         <[Z.to_nat cgroup_idx :=
             int32 (thread_count g !!! Z.to_nat cgroup_idx + 1)]> (thread_count g) |}.

(** The loop at lines 502-510; the result is [node_idx] after it. *)
Fixpoint cgroup_nodes_loop (idx : list Z) (node_idx now : Z) : M cgroups_globals Z :=
  match idx with
  | [] => ret node_idx
  | i :: rest =>
      write_node node_idx 0 (weight_of_cgroup i) now ;;
      cgroup_nodes_loop rest (int32 (node_idx + 1)) now
  end.

(** The loop at lines 513-539. *)
Fixpoint thread_nodes_loop (idx : list Z) (node_idx now : Z) : M cgroups_globals Z :=
  match idx with
  | [] => ret node_idx
  | i :: rest =>
      let cgroup_idx := cgroup_of_thread i in
      write_node node_idx cgroup_idx 1024 now ;;
      count_thread cgroup_idx ;;
      thread_nodes_loop rest (int32 (node_idx + 1)) now
  end.

Definition init_cgroups_hierarchy (num_threads : Z) : M cgroups_globals unit :=
  let cgroup_nodes := num_cgroups - 1 in
  let total_nodes := int32 (int32 (1 + cgroup_nodes) + num_threads) in
  g <- get_globals ;;
  set_globals {| hierarchy := replicate (Z.to_nat total_nodes) None;
                 thread_count := thread_count g |} ;;
  now <- rdtsc ;;
  write_node 0 0 (weight_of_cgroup 0) now ;;
  node_idx <- cgroup_nodes_loop (seqZ 1 (num_cgroups - 1)) 1 now ;;
  node_idx <- thread_nodes_loop (seqZ 0 num_threads) node_idx now ;;
  printf "Initialized CGroups hierarchy: %d total nodes (%d cgroups, %d threads)\n".

(** Slot [i] of the [threads] array once [configure_threads_for_cgroups]
    and the loop at lines 787-812 have run. *)
Definition configured_thread (ins fnd upd : D) (duration i : Z) : thread_config_t D :=
  let cgroup_idx := cgroup_of_thread i in
  {| thread_id := i;
     priority :=
       match cgroups !! Z.to_nat cgroup_idx with
       | Some c => nice_value c
       | None => 0
       end;
     thread_weight :=
       if i <? 2 then 2048 else if i <? 4 then 1536 else if i <? 8 then 1280
       else if i <? 12 then 1024 else 512;
     parent_node := int32 (int32 (num_cgroups - 1 + 1) + i);
     cgroup_id := cgroup_idx;
     cgroup_type :=
       match cgroups !! Z.to_nat cgroup_idx with
       | Some c => cgroup_type_of c
       | None => 0
       end;
     insert_ratio := ins;
     find_ratio := fnd;
     update_ratio := upd;
     duration_seconds := duration;
     insert_count := 0; find_count := 0; update_count := 0;
     insert_time := 0; find_time := 0; update_time := 0;
     lock_wait_time := 0; total_operations := 0; lock_acquisitions := 0;
     slice_violations := 0; ban_time_total := 0; reacquire_count := 0;
     cgroup_preemptions := 0; cgroup_throttle_time := 0 |}.

(** Line 377: the weight handed to [hfairlock_thread_init]. *)
Definition cgroup_adjusted_weight (config : thread_config_t D) : Z :=
  to_int (of_int (weight_of_cgroup (cgroup_id config))
          * (of_int (thread_weight config) / of_int 1024))%D.

End Setup.

End upscale_fairness_cgroups.

(** ** Records of joined workers, for evaluation at concrete inputs *)

Section Fixtures.
Context {D : Type} {DO : DoubleOps D}.

(** Slot [i] of [upscale_mutex]'s array for the default mix, after a run
    in which the thread completed [ops] operations, all of them finds. *)
Definition mutex_joined (i ops : Z) : upscale_mutex.thread_config_t D :=
  let c := upscale_mutex.configured_thread
             (of_int 3 / of_int 10)%D (of_int 6 / of_int 10)%D
             (of_int 1 - of_int 3 / of_int 10 - of_int 6 / of_int 10)%D 10 i in
  {| upscale_mutex.thread_id := upscale_mutex.thread_id c;
     upscale_mutex.hierarchy_level := upscale_mutex.hierarchy_level c;
     upscale_mutex.system_priority := upscale_mutex.system_priority c;
     upscale_mutex.nice_value := upscale_mutex.nice_value c;
     upscale_mutex.insert_ratio := upscale_mutex.insert_ratio c;
     upscale_mutex.find_ratio := upscale_mutex.find_ratio c;
     upscale_mutex.update_ratio := upscale_mutex.update_ratio c;
     upscale_mutex.duration_seconds := upscale_mutex.duration_seconds c;
     upscale_mutex.insert_count := 0;
     upscale_mutex.find_count := ops;
     upscale_mutex.update_count := 0;
     upscale_mutex.insert_time := 0;
     upscale_mutex.find_time := 0;
     upscale_mutex.update_time := 0;
     upscale_mutex.lock_wait_time := 0;
     upscale_mutex.total_operations := ops;
     upscale_mutex.lock_acquisitions := ops;
     upscale_mutex.lock_contentions := 0;
     upscale_mutex.max_consecutive_acquisitions := 0;
     upscale_mutex.current_consecutive := 0;
     upscale_mutex.starvation_periods := 0;
     upscale_mutex.max_starvation_time := 0;
     upscale_mutex.last_lock_time := 0;
     upscale_mutex.dominated_lower_threads := 0;
     upscale_mutex.starved_by_higher := 0 |}.

Definition mutex_run (counts : list Z) : list (upscale_mutex.thread_config_t D) :=
  imap (fun i ops => mutex_joined (Z.of_nat i) ops) counts.

(** The same for [upscale_fairness_test], flat hierarchy. *)
Definition fairness_joined (i ops : Z) : upscale_fairness_test.thread_config_t D :=
  let c := upscale_fairness_test.configured_thread
             upscale_fairness_test.HIERARCHY_FLAT 4
             (of_int 3 / of_int 10)%D (of_int 6 / of_int 10)%D
             (of_int 1 - of_int 3 / of_int 10 - of_int 6 / of_int 10)%D 10 i in
  {| upscale_fairness_test.thread_id := upscale_fairness_test.thread_id c;
     upscale_fairness_test.priority := upscale_fairness_test.priority c;
     upscale_fairness_test.thread_weight := upscale_fairness_test.thread_weight c;
     upscale_fairness_test.parent_node := upscale_fairness_test.parent_node c;
     upscale_fairness_test.insert_ratio := upscale_fairness_test.insert_ratio c;
     upscale_fairness_test.find_ratio := upscale_fairness_test.find_ratio c;
     upscale_fairness_test.update_ratio := upscale_fairness_test.update_ratio c;
     upscale_fairness_test.duration_seconds := upscale_fairness_test.duration_seconds c;
     upscale_fairness_test.insert_count := 0;
     upscale_fairness_test.find_count := ops;
     upscale_fairness_test.update_count := 0;
     upscale_fairness_test.insert_time := 0;
     upscale_fairness_test.find_time := 0;
     upscale_fairness_test.update_time := 0;
     upscale_fairness_test.lock_wait_time := 0;
     upscale_fairness_test.total_operations := ops;
     upscale_fairness_test.lock_acquisitions := ops;
     upscale_fairness_test.slice_violations := 0;
     upscale_fairness_test.ban_time_total := 0;
     upscale_fairness_test.reacquire_count := 0 |}.

Definition fairness_run (counts : list Z)
  : list (upscale_fairness_test.thread_config_t D) :=
  imap (fun i ops => fairness_joined (Z.of_nat i) ops) counts.

(** The same for [upscale_fairness_cgroups]: thread [i] in the cgroup
    [configure_threads_for_cgroups] puts it in. *)
Definition cgroups_joined (i ops : Z) : upscale_fairness_cgroups.thread_config_t D :=
  let g := upscale_fairness_cgroups.cgroup_of_thread i in
  {| upscale_fairness_cgroups.thread_id := i;
     upscale_fairness_cgroups.priority :=
       match upscale_fairness_cgroups.cgroups !! Z.to_nat g with
       | Some c => upscale_fairness_cgroups.nice_value c
       | None => 0
       end;
     upscale_fairness_cgroups.thread_weight :=
       if i <? 2 then 2048 else if i <? 4 then 1536 else if i <? 8 then 1280
       else if i <? 12 then 1024 else 512;
     upscale_fairness_cgroups.parent_node :=
       upscale_fairness_cgroups.num_cgroups - 1 + 1 + i;
     upscale_fairness_cgroups.cgroup_id := g;
     upscale_fairness_cgroups.cgroup_type :=
       match upscale_fairness_cgroups.cgroups !! Z.to_nat g with
       | Some c => upscale_fairness_cgroups.cgroup_type_of c
       | None => 0
       end;
     upscale_fairness_cgroups.insert_ratio := (of_int 3 / of_int 10)%D;
     upscale_fairness_cgroups.find_ratio := (of_int 6 / of_int 10)%D;
     upscale_fairness_cgroups.update_ratio :=
       (of_int 1 - of_int 3 / of_int 10 - of_int 6 / of_int 10)%D;
     upscale_fairness_cgroups.duration_seconds := 10;
     upscale_fairness_cgroups.insert_count := 0;
     upscale_fairness_cgroups.find_count := ops;
     upscale_fairness_cgroups.update_count := 0;
     upscale_fairness_cgroups.insert_time := 0;
     upscale_fairness_cgroups.find_time := 0;
     upscale_fairness_cgroups.update_time := 0;
     upscale_fairness_cgroups.lock_wait_time := 0;
     upscale_fairness_cgroups.total_operations := ops;
     upscale_fairness_cgroups.lock_acquisitions := ops;
     upscale_fairness_cgroups.slice_violations := 0;
     upscale_fairness_cgroups.ban_time_total := 0;
     upscale_fairness_cgroups.reacquire_count := 0;
     upscale_fairness_cgroups.cgroup_preemptions := 0;
     upscale_fairness_cgroups.cgroup_throttle_time := 0 |}.

Definition cgroups_run (counts : list Z)
  : list (upscale_fairness_cgroups.thread_config_t D) :=
  imap (fun i ops => cgroups_joined (Z.of_nat i) ops) counts.



(** Four threads, ten seconds, the default mix, and a selector that
    names no variant. *)
Definition unknown_lock_args : upscale_mutex.args D :=
  {| upscale_mutex.argc := 7;
     upscale_mutex.arg_num_threads := 4;
     upscale_mutex.arg_duration := 10;
     upscale_mutex.arg_insert_ratio := (of_int 3 / of_int 10)%D;
     upscale_mutex.arg_find_ratio := (of_int 6 / of_int 10)%D;
     upscale_mutex.arg_lock_type := 7 |}.

Definition unknown_topology_args : upscale_fairness_test.args D :=
  {| upscale_fairness_test.argc := 7;
     upscale_fairness_test.arg_num_threads := 4;
     upscale_fairness_test.arg_duration := 10;
     upscale_fairness_test.arg_insert_ratio := (of_int 3 / of_int 10)%D;
     upscale_fairness_test.arg_find_ratio := (of_int 6 / of_int 10)%D;
     upscale_fairness_test.arg_type := 9 |}.

(** The same command line with the selector 0 (FLAT). *)
Definition flat_topology_args : upscale_fairness_test.args D :=
  {| upscale_fairness_test.argc := 7;
     upscale_fairness_test.arg_num_threads := 4;
     upscale_fairness_test.arg_duration := 10;
     upscale_fairness_test.arg_insert_ratio := (of_int 3 / of_int 10)%D;
     upscale_fairness_test.arg_find_ratio := (of_int 6 / of_int 10)%D;
     upscale_fairness_test.arg_type := 0 |}.



(** The mix 0.8 / 0.2: the values [atof] returns for "0.8" and "0.2". *)
Definition boundary_mix_mutex : upscale_mutex.args D :=
  {| upscale_mutex.argc := 6;
     upscale_mutex.arg_num_threads := 4;
     upscale_mutex.arg_duration := 10;
     upscale_mutex.arg_insert_ratio := (of_int 8 / of_int 10)%D;
     upscale_mutex.arg_find_ratio := (of_int 2 / of_int 10)%D;
     upscale_mutex.arg_lock_type := 0 |}.

Definition boundary_mix_fairness : upscale_fairness_test.args D :=
  {| upscale_fairness_test.argc := 6;
     upscale_fairness_test.arg_num_threads := 4;
     upscale_fairness_test.arg_duration := 10;
     upscale_fairness_test.arg_insert_ratio := (of_int 8 / of_int 10)%D;
     upscale_fairness_test.arg_find_ratio := (of_int 2 / of_int 10)%D;
     upscale_fairness_test.arg_type := 0 |}.

End Fixtures.

(** An environment in which every call succeeds and [rand] and [rdtsc]
    return 0. *)
Definition all_zero : nat -> Z := fun _ => 0.

Definition mutex_start : world upscale_mutex.mutex_globals :=
  start_world upscale_mutex.initial_globals all_zero all_zero all_zero.

Definition fairness_start : world upscale_fairness_test.hierarchy_t :=
  start_world [] all_zero all_zero all_zero.

(** * Properties *)

(** ** Sums over operation counts *)

Lemma sumZ_app xs ys : sumZ (xs ++ ys) = sumZ xs + sumZ ys.
Proof. induction xs as [|x xs IH]; simpl; lia. Qed.


Lemma sq_dev_nonneg x xs : 0 <= sq_dev x xs.
Proof.
  unfold sq_dev. induction xs as [|y xs IH]; cbn [map sumZ fold_right]; [lia|].
  pose proof (Z.square_nonneg (x - y)). unfold sumZ in IH. lia.
Qed.

Lemma sq_dev_expand x xs :
  sq_dev x xs = Z.of_nat (length xs) * (x * x) - 2 * x * sumZ xs + sum_squares xs.
Proof.
  unfold sq_dev, sum_squares. induction xs as [|y xs IH].
  - simpl. lia.
  - cbn [map sumZ fold_right length]. fold (sumZ (map (fun y => (x - y) * (x - y)) xs)).
    fold (sumZ xs). fold (sumZ (map (fun x => x * x) xs)).
    rewrite IH. rewrite Nat2Z.inj_succ. ring.
Qed.

Lemma sq_dev_zero x xs : sq_dev x xs = 0 -> forall y, In y xs -> y = x.
Proof.
  unfold sq_dev. induction xs as [|z xs IH]; cbn [map sumZ fold_right];
    intros H y Hy; [destruct Hy|].
  pose proof (sq_dev_nonneg x xs) as Hn. unfold sq_dev, sumZ in Hn.
  pose proof (Z.square_nonneg (x - z)) as Hs.
  unfold sumZ in IH.
  destruct Hy as [Hy|Hy].
  - subst z. assert (Hz : (x - y) * (x - y) = 0) by lia.
    apply Z.mul_eq_0 in Hz. lia.
  - apply IH; [lia | exact Hy].
Qed.

Lemma spread_gap_cons x xs : spread_gap (x :: xs) = spread_gap xs + sq_dev x xs.
Proof.
  unfold spread_gap. rewrite sq_dev_expand.
  unfold sum_squares. cbn [map sumZ fold_right length].
  fold (sumZ xs). fold (sumZ (map (fun x => x * x) xs)).
  rewrite Nat2Z.inj_succ. ring.
Qed.

Lemma spread_gap_nonneg xs : 0 <= spread_gap xs.
Proof.
  induction xs as [|x xs IH].
  - unfold spread_gap. simpl. lia.
  - rewrite spread_gap_cons. pose proof (sq_dev_nonneg x xs). lia.
Qed.

Lemma spread_gap_zero_iff xs : spread_gap xs = 0 <-> all_equal xs.
Proof.
  induction xs as [|x xs IH].
  - split; [intros _ a b []|reflexivity].
  - rewrite spread_gap_cons.
    pose proof (sq_dev_nonneg x xs) as H1. pose proof (spread_gap_nonneg xs) as H2.
    split.
    + intros H. assert (Hd : sq_dev x xs = 0) by lia.
      pose proof (sq_dev_zero _ _ Hd) as Hx.
      intros a b [<-|Ha] [<-|Hb]; auto.
      * symmetry; auto.
      * rewrite (Hx _ Ha), (Hx _ Hb). reflexivity.
    + intros H.
      assert (Hxs : all_equal xs) by (intros a b Ha Hb; apply H; right; assumption).
      apply IH in Hxs.
      assert (Hd : sq_dev x xs = 0).
      { unfold sq_dev. clear -H. induction xs as [|y xs IH];
          cbn [map sumZ fold_right]; [reflexivity|].
        assert (y = x) by (apply H; simpl; auto). subst y.
        unfold sumZ in IH. rewrite IH; [lia|].
        intros a b Ha Hb. apply H; simpl in *; tauto. }
      lia.
Qed.

Lemma sum_squares_pos xs :
  Exists (fun x => 0 < x) xs -> 0 < sum_squares xs.
Proof.
  unfold sum_squares. induction xs as [|x xs IH]; intros H; inversion H; subst;
    cbn [map sumZ fold_right]; fold (sumZ (map (fun x => x * x) xs)).
  - assert (0 <= sumZ (map (fun x => x * x) xs)).
    { clear. induction xs as [|y ys IHy]; cbn [map sumZ fold_right]; [lia|].
      pose proof (Z.square_nonneg y). unfold sumZ in IHy. lia. }
    nia.
  - specialize (IH H1). pose proof (Z.square_nonneg x). lia.
Qed.











Lemma Qltb_lt a b : Qltb a b = true <-> (a < b)%Q.
Proof. unfold Qltb, Qlt. apply Z.ltb_lt. Qed.

Lemma Qltb_inject a b : Qltb (inject_Z a) (inject_Z b) = (a <? b).
Proof. unfold Qltb, inject_Z. simpl. rewrite !Z.mul_1_r. reflexivity. Qed.

Lemma fold_min_seed a b l :
  fold_right Z.min (Z.min a b) l = Z.min a (fold_right Z.min b l).
Proof. induction l as [|x l IH]; simpl; [reflexivity|]. rewrite IH. lia. Qed.

Lemma fold_max_seed a b l :
  fold_right Z.max (Z.max a b) l = Z.max a (fold_right Z.max b l).
Proof. induction l as [|x l IH]; simpl; [reflexivity|]. rewrite IH. lia. Qed.



Lemma min_loop xs m :
  fold_left (fun m x => if x <? m then x else m) xs m = fold_right Z.min m xs.
Proof.
  revert m. induction xs as [|x xs IH]; intros m; simpl; [reflexivity|].
  rewrite IH. replace (if x <? m then x else m) with (Z.min x m)
    by (destruct (Z.ltb_spec x m); lia).
  apply fold_min_seed.
Qed.

Lemma max_loop xs m :
  fold_left (fun m x => if m <? x then x else m) xs m = fold_right Z.max m xs.
Proof.
  revert m. induction xs as [|x xs IH]; intros m; simpl; [reflexivity|].
  rewrite IH. replace (if m <? x then x else m) with (Z.max x m)
    by (destruct (Z.ltb_spec m x); lia).
  apply fold_max_seed.
Qed.

Lemma vec_min_spec xs :
  xs <> [] -> In (vec_min xs) xs /\ forall x, In x xs -> vec_min xs <= x.
Proof.
  destruct xs as [|x0 rest]; [congruence|]. intros _. unfold vec_min.
  induction rest as [|y rest IH]; simpl.
  - split; [auto|]. intros x [<-|[]]. lia.
  - destruct IH as [Hin Hle]. simpl in Hin. split.
    + destruct (Z.min_spec y (fold_right Z.min x0 rest)) as [[_ ->]|[_ ->]]; tauto.
    + intros x [<-|[<-|Hx]].
      * specialize (Hle x0 (or_introl eq_refl)). lia.
      * lia.
      * specialize (Hle x (or_intror Hx)). lia.
Qed.

Lemma vec_max_spec xs :
  xs <> [] -> In (vec_max xs) xs /\ forall x, In x xs -> x <= vec_max xs.
Proof.
  destruct xs as [|x0 rest]; [congruence|]. intros _. unfold vec_max.
  induction rest as [|y rest IH]; simpl.
  - split; [auto|]. intros x [<-|[]]. lia.
  - destruct IH as [Hin Hle]. simpl in Hin. split.
    + destruct (Z.max_spec y (fold_right Z.max x0 rest)) as [[_ ->]|[_ ->]]; tauto.
    + intros x [<-|[<-|Hx]].
      * specialize (Hle x0 (or_introl eq_refl)). lia.
      * lia.
      * specialize (Hle x (or_intror Hx)). lia.
Qed.

(** The [unsigned long long] accumulator of a summing loop. *)
Lemma wrap_sum_loop xs a :
  0 <= a < ULL_MOD ->
  fold_left (fun acc x => ull (acc + x)) xs a = (a + sumZ xs) mod ULL_MOD.
Proof.
  revert a. induction xs as [|x xs IH]; intros a Ha; simpl.
  - rewrite Z.add_0_r. symmetry. apply Z.mod_small. exact Ha.
  - rewrite IH.
    + unfold ull. rewrite Zplus_mod_idemp_l. f_equal. lia.
    + unfold ull. apply Z.mod_pos_bound. reflexivity.
Qed.

Lemma wrap_sum_exact xs :
  0 <= sumZ xs < ULL_MOD ->
  fold_left (fun acc x => ull (acc + x)) xs 0 = sumZ xs.
Proof.
  intros H. rewrite wrap_sum_loop by (unfold ULL_MOD; lia).
  apply Z.mod_small. exact H.
Qed.

(** ** Running monadic code *)

Lemma bind_run {G A B} (m : M G A) (f : A -> M G B) (w : world G) :
  bind m f w = f (fst (m w)) (snd (m w)).
Proof. unfold bind. destruct (m w). reflexivity. Qed.

Ltac run_bind := repeat (rewrite bind_run; cbv beta).

Section Emits.
Context {G : Type} (P : event -> Prop).

Lemma emits_silent {A} (m : M G A) :
  (forall w, log (snd (m w)) = log w) -> emits P m.
Proof. intros H w. exists []. rewrite H, app_nil_r. split; [reflexivity|constructor]. Qed.

Lemma emits_ret {A} (a : A) : emits P (ret (G:=G) a).
Proof. apply emits_silent. reflexivity. Qed.

Lemma emits_bind {A B} (m : M G A) (f : A -> M G B) :
  emits P m -> (forall a, emits P (f a)) -> emits P (bind m f).
Proof.
  intros Hm Hf w. rewrite bind_run.
  destruct (Hm w) as (e1 & H1 & HP1).
  destruct (Hf (fst (m w)) (snd (m w))) as (e2 & H2 & HP2).
  exists (e1 ++ e2). rewrite H2, H1, app_assoc. split; [reflexivity|].
  apply Forall_app. split; assumption.
Qed.

Lemma emits_emit (e : event) : P e -> emits P (emit (G:=G) e).
Proof. intros He w. exists [e]. split; [reflexivity|]. repeat constructor. exact He. Qed.

Lemma emits_ask (e : event) : P e -> emits P (ask (G:=G) e).
Proof. intros He w. exists [e]. split; [reflexivity|]. repeat constructor. exact He. Qed.

Lemma emits_printf (s : string) : P (Printf s) -> emits P (printf (G:=G) s).
Proof. apply emits_emit. Qed.

Lemma emits_rand : emits P (rand (G:=G)).
Proof. apply emits_silent. reflexivity. Qed.

Lemma emits_rdtsc : emits P (rdtsc (G:=G)).
Proof. apply emits_silent. reflexivity. Qed.

Lemma emits_get_globals : emits P (get_globals (G:=G)).
Proof. apply emits_silent. reflexivity. Qed.

Lemma emits_set_globals g : emits P (set_globals (G:=G) g).
Proof. apply emits_silent. reflexivity. Qed.

Lemma emits_get_next_key : emits P (get_next_key (G:=G)).
Proof. apply emits_silent. reflexivity. Qed.

Lemma emits_set_next_key k : emits P (set_next_key (G:=G) k).
Proof. apply emits_silent. reflexivity. Qed.

Lemma emits_set_global_stop v : emits P (set_global_stop (G:=G) v).
Proof. apply emits_silent. reflexivity. Qed.

Lemma emits_mfor {A} (l : list A) (body : A -> M G unit) :
  (forall i, emits P (body i)) -> emits P (mfor l body).
Proof.
  intros H. induction l as [|i l IH]; cbn [mfor].
  - apply emits_ret.
  - apply emits_bind; [apply H | intros _; exact IH].
Qed.

End Emits.

(** Breaks a computation down to its primitive effects; [side] closes
    the conditions [P e] on the events met. *)
Ltac emits_step side :=
  lazymatch goal with
  | |- emits _ (ret _) => apply emits_ret
  | |- emits _ rand => apply emits_rand
  | |- emits _ rdtsc => apply emits_rdtsc
  | |- emits _ get_globals => apply emits_get_globals
  | |- emits _ (set_globals _) => apply emits_set_globals
  | |- emits _ get_next_key => apply emits_get_next_key
  | |- emits _ (set_next_key _) => apply emits_set_next_key
  | |- emits _ (set_global_stop _) => apply emits_set_global_stop
  | |- emits _ (printf _) => apply emits_printf; side
  | |- emits _ (emit _) => apply emits_emit; side
  | |- emits _ (ask _) => apply emits_ask; side
  | |- emits _ (mfor _ _) => apply emits_mfor; intros ?
  | |- emits _ (bind _ _) => apply emits_bind; [|intros ?]
  | |- emits _ (if ?c then _ else _) => destruct c
  | |- emits _ (match ?x with _ => _ end) => destruct x
  end.

Ltac emits_tac side := repeat emits_step side.
(** ** The state after a primitive effect *)

Section Frame.
Context {G : Type}.

Lemma fst_ret {A} (a : A) (w : world G) : fst (ret a w) = a.
Proof. reflexivity. Qed.

Lemma snd_ret {A} (a : A) (w : world G) : snd (ret a w) = w.
Proof. reflexivity. Qed.

Lemma fst_get_globals (w : world G) : fst (get_globals w) = globals w.
Proof. reflexivity. Qed.

Lemma snd_get_globals (w : world G) : snd (get_globals w) = w.
Proof. reflexivity. Qed.

Lemma fst_get_next_key (w : world G) : fst (get_next_key w) = next_key_id w.
Proof. reflexivity. Qed.

Lemma snd_get_next_key (w : world G) : snd (get_next_key w) = w.
Proof. reflexivity. Qed.

Lemma fst_rand (w : world G) : fst (rand w) = rand_src w (rand_pos w).
Proof. reflexivity. Qed.

Lemma fst_ask (e : event) (w : world G) : fst (ask e w) = ext_src w (ext_pos w).
Proof. reflexivity. Qed.

Lemma fst_errno (w : world G) : fst (errno w) = ext_src w (ext_pos w).
Proof. reflexivity. Qed.

Lemma log_rand (w : world G) : log (snd (rand w)) = log w.
Proof. reflexivity. Qed.

Lemma next_key_id_rand (w : world G) : next_key_id (snd (rand w)) = next_key_id w.
Proof. reflexivity. Qed.

Lemma globals_rand (w : world G) : globals (snd (rand w)) = globals w.
Proof. reflexivity. Qed.

Lemma global_stop_rand (w : world G) : global_stop (snd (rand w)) = global_stop w.
Proof. reflexivity. Qed.

Lemma rand_pos_rand (w : world G) : rand_pos (snd (rand w)) = S (rand_pos w).
Proof. reflexivity. Qed.

Lemma rand_src_rand (w : world G) : rand_src (snd (rand w)) = rand_src w.
Proof. reflexivity. Qed.

Lemma ext_pos_rand (w : world G) : ext_pos (snd (rand w)) = ext_pos w.
Proof. reflexivity. Qed.

Lemma ext_src_rand (w : world G) : ext_src (snd (rand w)) = ext_src w.
Proof. reflexivity. Qed.

Lemma log_rdtsc (w : world G) : log (snd (rdtsc w)) = log w.
Proof. reflexivity. Qed.

Lemma next_key_id_rdtsc (w : world G) : next_key_id (snd (rdtsc w)) = next_key_id w.
Proof. reflexivity. Qed.

Lemma globals_rdtsc (w : world G) : globals (snd (rdtsc w)) = globals w.
Proof. reflexivity. Qed.

Lemma global_stop_rdtsc (w : world G) : global_stop (snd (rdtsc w)) = global_stop w.
Proof. reflexivity. Qed.

Lemma rand_pos_rdtsc (w : world G) : rand_pos (snd (rdtsc w)) = rand_pos w.
Proof. reflexivity. Qed.

Lemma rand_src_rdtsc (w : world G) : rand_src (snd (rdtsc w)) = rand_src w.
Proof. reflexivity. Qed.

Lemma ext_pos_rdtsc (w : world G) : ext_pos (snd (rdtsc w)) = ext_pos w.
Proof. reflexivity. Qed.

Lemma ext_src_rdtsc (w : world G) : ext_src (snd (rdtsc w)) = ext_src w.
Proof. reflexivity. Qed.

Lemma log_emit (e : event) (w : world G) : log (snd (emit e w)) = log w ++ [e].
Proof. reflexivity. Qed.

Lemma next_key_id_emit (e : event) (w : world G) : next_key_id (snd (emit e w)) = next_key_id w.
Proof. reflexivity. Qed.

Lemma globals_emit (e : event) (w : world G) : globals (snd (emit e w)) = globals w.
Proof. reflexivity. Qed.

Lemma global_stop_emit (e : event) (w : world G) : global_stop (snd (emit e w)) = global_stop w.
Proof. reflexivity. Qed.

Lemma rand_pos_emit (e : event) (w : world G) : rand_pos (snd (emit e w)) = rand_pos w.
Proof. reflexivity. Qed.

Lemma rand_src_emit (e : event) (w : world G) : rand_src (snd (emit e w)) = rand_src w.
Proof. reflexivity. Qed.

Lemma ext_pos_emit (e : event) (w : world G) : ext_pos (snd (emit e w)) = ext_pos w.
Proof. reflexivity. Qed.

Lemma ext_src_emit (e : event) (w : world G) : ext_src (snd (emit e w)) = ext_src w.
Proof. reflexivity. Qed.

Lemma log_ask (e : event) (w : world G) : log (snd (ask e w)) = log w ++ [e].
Proof. reflexivity. Qed.

Lemma next_key_id_ask (e : event) (w : world G) : next_key_id (snd (ask e w)) = next_key_id w.
Proof. reflexivity. Qed.

Lemma globals_ask (e : event) (w : world G) : globals (snd (ask e w)) = globals w.
Proof. reflexivity. Qed.

Lemma global_stop_ask (e : event) (w : world G) : global_stop (snd (ask e w)) = global_stop w.
Proof. reflexivity. Qed.

Lemma rand_pos_ask (e : event) (w : world G) : rand_pos (snd (ask e w)) = rand_pos w.
Proof. reflexivity. Qed.

Lemma rand_src_ask (e : event) (w : world G) : rand_src (snd (ask e w)) = rand_src w.
Proof. reflexivity. Qed.

Lemma ext_pos_ask (e : event) (w : world G) : ext_pos (snd (ask e w)) = S (ext_pos w).
Proof. reflexivity. Qed.

Lemma ext_src_ask (e : event) (w : world G) : ext_src (snd (ask e w)) = ext_src w.
Proof. reflexivity. Qed.

Lemma log_printf (s : string) (w : world G) : log (snd (printf s w)) = log w ++ [Printf s].
Proof. reflexivity. Qed.

Lemma next_key_id_printf (s : string) (w : world G) : next_key_id (snd (printf s w)) = next_key_id w.
Proof. reflexivity. Qed.

Lemma globals_printf (s : string) (w : world G) : globals (snd (printf s w)) = globals w.
Proof. reflexivity. Qed.

Lemma global_stop_printf (s : string) (w : world G) : global_stop (snd (printf s w)) = global_stop w.
Proof. reflexivity. Qed.

Lemma rand_pos_printf (s : string) (w : world G) : rand_pos (snd (printf s w)) = rand_pos w.
Proof. reflexivity. Qed.

Lemma rand_src_printf (s : string) (w : world G) : rand_src (snd (printf s w)) = rand_src w.
Proof. reflexivity. Qed.

Lemma ext_pos_printf (s : string) (w : world G) : ext_pos (snd (printf s w)) = ext_pos w.
Proof. reflexivity. Qed.

Lemma ext_src_printf (s : string) (w : world G) : ext_src (snd (printf s w)) = ext_src w.
Proof. reflexivity. Qed.

Lemma log_errno (w : world G) : log (snd (errno w)) = log w.
Proof. reflexivity. Qed.

Lemma next_key_id_errno (w : world G) : next_key_id (snd (errno w)) = next_key_id w.
Proof. reflexivity. Qed.

Lemma globals_errno (w : world G) : globals (snd (errno w)) = globals w.
Proof. reflexivity. Qed.

Lemma global_stop_errno (w : world G) : global_stop (snd (errno w)) = global_stop w.
Proof. reflexivity. Qed.

Lemma rand_pos_errno (w : world G) : rand_pos (snd (errno w)) = rand_pos w.
Proof. reflexivity. Qed.

Lemma rand_src_errno (w : world G) : rand_src (snd (errno w)) = rand_src w.
Proof. reflexivity. Qed.

Lemma ext_pos_errno (w : world G) : ext_pos (snd (errno w)) = S (ext_pos w).
Proof. reflexivity. Qed.

Lemma ext_src_errno (w : world G) : ext_src (snd (errno w)) = ext_src w.
Proof. reflexivity. Qed.

Lemma log_set_globals (g : G) (w : world G) : log (snd (set_globals g w)) = log w.
Proof. reflexivity. Qed.

Lemma next_key_id_set_globals (g : G) (w : world G) : next_key_id (snd (set_globals g w)) = next_key_id w.
Proof. reflexivity. Qed.

Lemma globals_set_globals (g : G) (w : world G) : globals (snd (set_globals g w)) = g.
Proof. reflexivity. Qed.

Lemma global_stop_set_globals (g : G) (w : world G) : global_stop (snd (set_globals g w)) = global_stop w.
Proof. reflexivity. Qed.

Lemma rand_pos_set_globals (g : G) (w : world G) : rand_pos (snd (set_globals g w)) = rand_pos w.
Proof. reflexivity. Qed.

Lemma rand_src_set_globals (g : G) (w : world G) : rand_src (snd (set_globals g w)) = rand_src w.
Proof. reflexivity. Qed.

Lemma ext_pos_set_globals (g : G) (w : world G) : ext_pos (snd (set_globals g w)) = ext_pos w.
Proof. reflexivity. Qed.

Lemma ext_src_set_globals (g : G) (w : world G) : ext_src (snd (set_globals g w)) = ext_src w.
Proof. reflexivity. Qed.

Lemma log_set_next_key (k : Z) (w : world G) : log (snd (set_next_key k w)) = log w.
Proof. reflexivity. Qed.

Lemma next_key_id_set_next_key (k : Z) (w : world G) : next_key_id (snd (set_next_key k w)) = k.
Proof. reflexivity. Qed.

Lemma globals_set_next_key (k : Z) (w : world G) : globals (snd (set_next_key k w)) = globals w.
Proof. reflexivity. Qed.

Lemma global_stop_set_next_key (k : Z) (w : world G) : global_stop (snd (set_next_key k w)) = global_stop w.
Proof. reflexivity. Qed.

Lemma rand_pos_set_next_key (k : Z) (w : world G) : rand_pos (snd (set_next_key k w)) = rand_pos w.
Proof. reflexivity. Qed.

Lemma rand_src_set_next_key (k : Z) (w : world G) : rand_src (snd (set_next_key k w)) = rand_src w.
Proof. reflexivity. Qed.

Lemma ext_pos_set_next_key (k : Z) (w : world G) : ext_pos (snd (set_next_key k w)) = ext_pos w.
Proof. reflexivity. Qed.

Lemma ext_src_set_next_key (k : Z) (w : world G) : ext_src (snd (set_next_key k w)) = ext_src w.
Proof. reflexivity. Qed.

Lemma log_set_global_stop (v : Z) (w : world G) : log (snd (set_global_stop v w)) = log w.
Proof. reflexivity. Qed.

Lemma next_key_id_set_global_stop (v : Z) (w : world G) : next_key_id (snd (set_global_stop v w)) = next_key_id w.
Proof. reflexivity. Qed.

Lemma globals_set_global_stop (v : Z) (w : world G) : globals (snd (set_global_stop v w)) = globals w.
Proof. reflexivity. Qed.

Lemma global_stop_set_global_stop (v : Z) (w : world G) : global_stop (snd (set_global_stop v w)) = v.
Proof. reflexivity. Qed.

Lemma rand_pos_set_global_stop (v : Z) (w : world G) : rand_pos (snd (set_global_stop v w)) = rand_pos w.
Proof. reflexivity. Qed.

Lemma rand_src_set_global_stop (v : Z) (w : world G) : rand_src (snd (set_global_stop v w)) = rand_src w.
Proof. reflexivity. Qed.

Lemma ext_pos_set_global_stop (v : Z) (w : world G) : ext_pos (snd (set_global_stop v w)) = ext_pos w.
Proof. reflexivity. Qed.

Lemma ext_src_set_global_stop (v : Z) (w : world G) : ext_src (snd (set_global_stop v w)) = ext_src w.
Proof. reflexivity. Qed.

End Frame.

(** Pushes the projections of the state through the primitive effects. *)
Ltac frame_step :=
  match goal with
  | |- context [fst (ret ?a ?w)] => rewrite (fst_ret a w)
  | |- context [snd (ret ?a ?w)] => rewrite (snd_ret a w)
  | |- context [fst (get_globals ?w)] => rewrite (fst_get_globals w)
  | |- context [snd (get_globals ?w)] => rewrite (snd_get_globals w)
  | |- context [fst (get_next_key ?w)] => rewrite (fst_get_next_key w)
  | |- context [snd (get_next_key ?w)] => rewrite (snd_get_next_key w)
  | |- context [fst (rand ?w)] => rewrite (fst_rand w)
  | |- context [fst (ask ?e ?w)] => rewrite (fst_ask e w)
  | |- context [fst (errno ?w)] => rewrite (fst_errno w)
  | |- context [log (snd (rand ?w))] => rewrite (log_rand w)
  | |- context [next_key_id (snd (rand ?w))] => rewrite (next_key_id_rand w)
  | |- context [globals (snd (rand ?w))] => rewrite (globals_rand w)
  | |- context [global_stop (snd (rand ?w))] => rewrite (global_stop_rand w)
  | |- context [rand_pos (snd (rand ?w))] => rewrite (rand_pos_rand w)
  | |- context [rand_src (snd (rand ?w))] => rewrite (rand_src_rand w)
  | |- context [ext_pos (snd (rand ?w))] => rewrite (ext_pos_rand w)
  | |- context [ext_src (snd (rand ?w))] => rewrite (ext_src_rand w)
  | |- context [log (snd (rdtsc ?w))] => rewrite (log_rdtsc w)
  | |- context [next_key_id (snd (rdtsc ?w))] => rewrite (next_key_id_rdtsc w)
  | |- context [globals (snd (rdtsc ?w))] => rewrite (globals_rdtsc w)
  | |- context [global_stop (snd (rdtsc ?w))] => rewrite (global_stop_rdtsc w)
  | |- context [rand_pos (snd (rdtsc ?w))] => rewrite (rand_pos_rdtsc w)
  | |- context [rand_src (snd (rdtsc ?w))] => rewrite (rand_src_rdtsc w)
  | |- context [ext_pos (snd (rdtsc ?w))] => rewrite (ext_pos_rdtsc w)
  | |- context [ext_src (snd (rdtsc ?w))] => rewrite (ext_src_rdtsc w)
  | |- context [log (snd (emit ?e ?w))] => rewrite (log_emit e w)
  | |- context [next_key_id (snd (emit ?e ?w))] => rewrite (next_key_id_emit e w)
  | |- context [globals (snd (emit ?e ?w))] => rewrite (globals_emit e w)
  | |- context [global_stop (snd (emit ?e ?w))] => rewrite (global_stop_emit e w)
  | |- context [rand_pos (snd (emit ?e ?w))] => rewrite (rand_pos_emit e w)
  | |- context [rand_src (snd (emit ?e ?w))] => rewrite (rand_src_emit e w)
  | |- context [ext_pos (snd (emit ?e ?w))] => rewrite (ext_pos_emit e w)
  | |- context [ext_src (snd (emit ?e ?w))] => rewrite (ext_src_emit e w)
  | |- context [log (snd (ask ?e ?w))] => rewrite (log_ask e w)
  | |- context [next_key_id (snd (ask ?e ?w))] => rewrite (next_key_id_ask e w)
  | |- context [globals (snd (ask ?e ?w))] => rewrite (globals_ask e w)
  | |- context [global_stop (snd (ask ?e ?w))] => rewrite (global_stop_ask e w)
  | |- context [rand_pos (snd (ask ?e ?w))] => rewrite (rand_pos_ask e w)
  | |- context [rand_src (snd (ask ?e ?w))] => rewrite (rand_src_ask e w)
  | |- context [ext_pos (snd (ask ?e ?w))] => rewrite (ext_pos_ask e w)
  | |- context [ext_src (snd (ask ?e ?w))] => rewrite (ext_src_ask e w)
  | |- context [log (snd (printf ?s ?w))] => rewrite (log_printf s w)
  | |- context [next_key_id (snd (printf ?s ?w))] => rewrite (next_key_id_printf s w)
  | |- context [globals (snd (printf ?s ?w))] => rewrite (globals_printf s w)
  | |- context [global_stop (snd (printf ?s ?w))] => rewrite (global_stop_printf s w)
  | |- context [rand_pos (snd (printf ?s ?w))] => rewrite (rand_pos_printf s w)
  | |- context [rand_src (snd (printf ?s ?w))] => rewrite (rand_src_printf s w)
  | |- context [ext_pos (snd (printf ?s ?w))] => rewrite (ext_pos_printf s w)
  | |- context [ext_src (snd (printf ?s ?w))] => rewrite (ext_src_printf s w)
  | |- context [log (snd (errno ?w))] => rewrite (log_errno w)
  | |- context [next_key_id (snd (errno ?w))] => rewrite (next_key_id_errno w)
  | |- context [globals (snd (errno ?w))] => rewrite (globals_errno w)
  | |- context [global_stop (snd (errno ?w))] => rewrite (global_stop_errno w)
  | |- context [rand_pos (snd (errno ?w))] => rewrite (rand_pos_errno w)
  | |- context [rand_src (snd (errno ?w))] => rewrite (rand_src_errno w)
  | |- context [ext_pos (snd (errno ?w))] => rewrite (ext_pos_errno w)
  | |- context [ext_src (snd (errno ?w))] => rewrite (ext_src_errno w)
  | |- context [log (snd (set_globals ?g ?w))] => rewrite (log_set_globals g w)
  | |- context [next_key_id (snd (set_globals ?g ?w))] => rewrite (next_key_id_set_globals g w)
  | |- context [globals (snd (set_globals ?g ?w))] => rewrite (globals_set_globals g w)
  | |- context [global_stop (snd (set_globals ?g ?w))] => rewrite (global_stop_set_globals g w)
  | |- context [rand_pos (snd (set_globals ?g ?w))] => rewrite (rand_pos_set_globals g w)
  | |- context [rand_src (snd (set_globals ?g ?w))] => rewrite (rand_src_set_globals g w)
  | |- context [ext_pos (snd (set_globals ?g ?w))] => rewrite (ext_pos_set_globals g w)
  | |- context [ext_src (snd (set_globals ?g ?w))] => rewrite (ext_src_set_globals g w)
  | |- context [log (snd (set_next_key ?k ?w))] => rewrite (log_set_next_key k w)
  | |- context [next_key_id (snd (set_next_key ?k ?w))] => rewrite (next_key_id_set_next_key k w)
  | |- context [globals (snd (set_next_key ?k ?w))] => rewrite (globals_set_next_key k w)
  | |- context [global_stop (snd (set_next_key ?k ?w))] => rewrite (global_stop_set_next_key k w)
  | |- context [rand_pos (snd (set_next_key ?k ?w))] => rewrite (rand_pos_set_next_key k w)
  | |- context [rand_src (snd (set_next_key ?k ?w))] => rewrite (rand_src_set_next_key k w)
  | |- context [ext_pos (snd (set_next_key ?k ?w))] => rewrite (ext_pos_set_next_key k w)
  | |- context [ext_src (snd (set_next_key ?k ?w))] => rewrite (ext_src_set_next_key k w)
  | |- context [log (snd (set_global_stop ?v ?w))] => rewrite (log_set_global_stop v w)
  | |- context [next_key_id (snd (set_global_stop ?v ?w))] => rewrite (next_key_id_set_global_stop v w)
  | |- context [globals (snd (set_global_stop ?v ?w))] => rewrite (globals_set_global_stop v w)
  | |- context [global_stop (snd (set_global_stop ?v ?w))] => rewrite (global_stop_set_global_stop v w)
  | |- context [rand_pos (snd (set_global_stop ?v ?w))] => rewrite (rand_pos_set_global_stop v w)
  | |- context [rand_src (snd (set_global_stop ?v ?w))] => rewrite (rand_src_set_global_stop v w)
  | |- context [ext_pos (snd (set_global_stop ?v ?w))] => rewrite (ext_pos_set_global_stop v w)
  | |- context [ext_src (snd (set_global_stop ?v ?w))] => rewrite (ext_src_set_global_stop v w)
  end.

Ltac frame := repeat frame_step.


(** ** The metrics of [print_hierarchy_stats] over the rationals *)

Module MutexFacts.
Import upscale_mutex.

Lemma jain_fold (l : list (thread_config_t Q)) (a b : Q) :
  (fst (fold_left jain_step l (a, b)) == a + inject_Z (sumZ (map total_operations l)))%Q /\
  (snd (fold_left jain_step l (a, b)) == b + inject_Z (sum_squares (map total_operations l)))%Q.
Proof.
  revert a b. induction l as [|t l IH]; intros a b.
  - simpl. split; rewrite Qplus_0_r; reflexivity.
  - simpl fold_left. unfold jain_step at 2. 
    destruct (IH (a + of_int (total_operations t))%D (b + of_int (total_operations t) * of_int (total_operations t))%D) as [H1 H2].
    split.
    + rewrite H1. simpl. rewrite inject_Z_plus. ring.
    + rewrite H2. unfold sum_squares. simpl. rewrite inject_Z_plus, inject_Z_mult. ring.
Qed.

Lemma mutex_slots_all {D} (threads : list (thread_config_t D)) :
  slots threads (Z.of_nat (length threads)) = threads.
Proof. unfold slots. rewrite Nat2Z.id. apply firstn_all. Qed.

Lemma sum_ops_Q (threads : list (thread_config_t Q)) :
  (sum_ops threads (Z.of_nat (length threads))
   == inject_Z (sumZ (map total_operations threads)))%Q.
Proof.
  unfold sum_ops, jain_sums. rewrite mutex_slots_all.
  destruct (jain_fold threads (of_int 0) (of_int 0)) as [H _].
  rewrite H. simpl. apply Qplus_0_l.
Qed.

Lemma sum_ops_squared_Q (threads : list (thread_config_t Q)) :
  (sum_ops_squared threads (Z.of_nat (length threads))
   == inject_Z (sum_squares (map total_operations threads)))%Q.
Proof.
  unfold sum_ops_squared, jain_sums. rewrite mutex_slots_all.
  destruct (jain_fold threads (of_int 0) (of_int 0)) as [_ H].
  rewrite H. simpl. apply Qplus_0_l.
Qed.

Lemma overall_fairness_index_Q (threads : list (thread_config_t Q)) :
  let xs := map total_operations threads in
  let n := Z.of_nat (length threads) in
  (overall_fairness_index threads n
   == inject_Z (sumZ xs * sumZ xs) / inject_Z (n * sum_squares xs))%Q.
Proof.
  intros xs n. subst xs n. unfold overall_fairness_index.
  cbn [dmul ddiv of_int Q_double].
  rewrite sum_ops_Q, sum_ops_squared_Q.
  rewrite !inject_Z_mult. reflexivity.
Qed.








End MutexFacts.

(** ** The index in the arithmetic of the program *)

Module JainFacts.
Section Generic.
Context {D : Type} {DO : DoubleOps D}.



End Generic.
End JainFacts.


(** ** The report of [print_fairness_stats] *)

Module FairnessFacts.
Import upscale_fairness_test.

Lemma fairness_slots_all {D} (threads : list (thread_config_t D)) :
  slots threads (Z.of_nat (length threads)) = threads.
Proof. unfold slots. rewrite Nat2Z.id. apply firstn_all. Qed.

Section Generic.
Context {D : Type} {DO : DoubleOps D}.

Lemma table_step_shape duration (t : thread_config_t D) lines a b c :
  exists row divs,
    table_step duration (lines, a, b, c) t
    = ((lines ++ [row],
        ull (a + total_operations t),
        ull (b + lock_wait_time t),
        ull (c + lock_acquisitions t)), divs).
Proof.
  unfold table_step, fdiv. destruct (0 <? lock_acquisitions t);
    cbn [dbind dret]; eexists; eexists; reflexivity.
Qed.

(** What the table loop leaves in its accumulators. *)
Lemma table_fold_totals duration (l : list (thread_config_t D)) lines a b c :
  exists lines' c',
    fst (dfold (table_step duration) l (lines, a, b, c))
    = (lines',
       fold_left (fun acc x => ull (acc + x)) (map total_operations l) a,
       fold_left (fun acc x => ull (acc + x)) (map lock_wait_time l) b,
       c').
Proof.
  revert lines a b c. induction l as [|t l IH]; intros lines a b c.
  - exists lines, c. reflexivity.
  - cbn [dfold map fold_left].
    destruct (table_step_shape duration t lines a b c) as (row & divs & ->).
    unfold dbind.
    destruct (IH (lines ++ [row]) (ull (a + total_operations t))
                 (ull (b + lock_wait_time t)) (ull (c + lock_acquisitions t)))
      as (lines' & c' & Heq).
    destruct (dfold (table_step duration) l _) as [r lg].
    cbn [fst] in *. exists lines', c'. exact Heq.
Qed.

(** Every divisor of the table loop satisfies [P] as soon as the
    divisors of each row do. *)
Lemma table_fold_divisors (P : divisor D -> Prop) duration
  (l : list (thread_config_t D)) acc :
  (forall t acc', In t l -> Forall P (snd (table_step duration acc' t))) ->
  Forall P (snd (dfold (table_step duration) l acc)).
Proof.
  revert acc. induction l as [|t l IH]; intros acc H.
  - constructor.
  - cbn [dfold]. unfold dbind.
    pose proof (H t acc (or_introl eq_refl)) as Hrow.
    destruct (table_step duration acc t) as [acc1 l1].
    specialize (IH acc1 (fun t' a' Hin => H t' a' (or_intror Hin))).
    destruct (dfold (table_step duration) l acc1) as [acc2 l2].
    cbn [snd] in *. apply Forall_app. split; assumption.
Qed.

(** [print_fairness_stats] is the table loop, the two divisions of the
    "Total:" line, and the metrics computed from the table's total. *)
Lemma print_fairness_stats_split (threads : list (thread_config_t D)) n duration :
  let T := fold_left (fun acc x => ull (acc + x))
             (map total_operations (slots threads n)) 0 in
  let m := fairness_metrics threads n T in
  let r := print_fairness_stats threads n duration in
  fairness_index (fst r) = snd (fst (fst m))
  /\ throughput_variation (fst r) = snd (fst m)
  /\ report_avg_ops (fst r) = snd (fst (fst (fst m)))
  /\ snd r = snd (dfold (table_step duration) (slots threads n) ([], 0, 0, 0))
             ++ [FDiv (of_int duration); FDiv (of_int (CYCLE_PER_US * 1000))]
             ++ snd m.
Proof.
  intros T m r. subst T m r. unfold print_fairness_stats.
  destruct (table_fold_totals duration (slots threads n) [] 0 0 0) as (lines' & c' & Heq).
  destruct (dfold (table_step duration) (slots threads n) ([], 0, 0, 0)) as [acc lg].
  cbn [fst snd] in *. subst acc. unfold dbind at 1. unfold fdiv, dbind.
  destruct (fairness_metrics threads n _) as [[[[[mn mx] av] ix] var] lm].
  cbn [fst snd dret]. rewrite app_nil_r.
  repeat split.
Qed.

End Generic.

Lemma minmax_fold (l : list (thread_config_t Q)) m M :
  fold_left minmax_step l (inject_Z m, inject_Z M) =
  (inject_Z (fold_left (fun m x => if x <? m then x else m) (map total_operations l) m),
   inject_Z (fold_left (fun m x => if m <? x then x else m) (map total_operations l) M)).
Proof.
  revert m M. induction l as [|t l IH]; intros m M; [reflexivity|].
  cbn [fold_left map]. unfold minmax_step at 2. cbn [dlt of_int Q_double].
  rewrite !Qltb_inject.
  destruct (total_operations t <? m), (M <? total_operations t); apply IH.
Qed.

(** The metrics block over the rationals. *)
Lemma fairness_metrics_Q (threads : list (thread_config_t Q)) T :
  let xs := map total_operations threads in
  let n := Z.of_nat (length threads) in
  let avg := (inject_Z T / inject_Z n)%Q in
  fairness_metrics threads n T =
  ((inject_Z (vec_min xs), inject_Z (vec_max xs), avg,
    (if 0 <? T
     then (avg * avg * inject_Z n / inject_Z (Z.quot (ull (T * T)) (ull n)))%Q
     else 0%Q),
    (if Qltb 0 avg
     then Some ((inject_Z (vec_max xs) - inject_Z (vec_min xs)) / avg * inject_Z 100)%Q
     else None)),
   [FDiv (inject_Z n)]
   ++ (if 0 <? T
       then [IDiv (ull n); FDiv (inject_Z (Z.quot (ull (T * T)) (ull n)))]
       else [])
   ++ (if Qltb 0 avg then [FDiv avg] else [])).
Proof.
  intros xs n avg. unfold fairness_metrics. subst n. rewrite fairness_slots_all.
  change (of_int (first_ops threads)) with (inject_Z (first_ops threads)).
  rewrite minmax_fold, min_loop, max_loop.
  assert (Hmin : fold_right Z.min (first_ops threads)
                   (map total_operations (skipn 1 threads)) = vec_min xs).
  { subst xs. destruct threads; reflexivity. }
  assert (Hmax : fold_right Z.max (first_ops threads)
                   (map total_operations (skipn 1 threads)) = vec_max xs).
  { subst xs. destruct threads; reflexivity. }
  rewrite Hmin, Hmax. unfold fdiv, udiv. cbn [dbind dret of_int ddiv dmul dsub dlt Q_double].
  fold avg. change (inject_Z 0) with 0%Q.
  destruct (0 <? T), (Qltb 0 avg); reflexivity.
Qed.

Lemma fairness_index_Q (threads : list (thread_config_t Q)) duration :
  let xs := map total_operations threads in
  let n := Z.of_nat (length threads) in
  0 <= sumZ xs < ULL_MOD ->
  let r := fst (print_fairness_stats threads n duration) in
  let avg := (inject_Z (sumZ xs) / inject_Z n)%Q in
  fairness_index r
  = (if 0 <? sumZ xs
     then (avg * avg * inject_Z n
           / inject_Z (Z.quot (ull (sumZ xs * sumZ xs)) (ull n)))%Q
     else 0%Q)
  /\ throughput_variation r
     = (if Qltb 0 avg
        then Some ((inject_Z (vec_max xs) - inject_Z (vec_min xs)) / avg * inject_Z 100)%Q
        else None).
Proof.
  intros xs n Hsum r avg. subst r n.
  destruct (print_fairness_stats_split threads (Z.of_nat (length threads)) duration)
    as (Hix & Hvar & _ & _).
  rewrite Hix, Hvar. rewrite fairness_slots_all. fold xs.
  rewrite wrap_sum_exact by exact Hsum.
  rewrite fairness_metrics_Q. cbn [fst snd]. fold xs. fold avg. split; reflexivity.
Qed.

(** When the number of threads divides the square of the total, the
    "Fairness Index" of [print_fairness_stats] is 1 whatever the
    distribution of the operations over the threads. *)
Lemma fairness_index_degenerate
  (threads : list (thread_config_t Q)) duration :
  let xs := map total_operations threads in
  let n := Z.of_nat (length threads) in
  0 < sumZ xs -> sumZ xs * sumZ xs < ULL_MOD -> (sumZ xs * sumZ xs) mod n = 0 ->
  (fairness_index
     (fst (print_fairness_stats threads n duration)) == 1)%Q.
Proof.
  intros xs n Hpos Hsq Hdiv.
  assert (Hn : 0 < n).
  { subst n xs. destruct threads; [simpl in Hpos; lia | simpl; lia]. }
  assert (HT : 0 <= sumZ xs < ULL_MOD) by (unfold ULL_MOD in *; nia).
  destruct (fairness_index_Q threads duration HT) as [Hix _].
  unfold n. rewrite Hix. fold xs. fold n.
  apply Z.ltb_lt in Hpos as Hpos'. rewrite Hpos'.
  apply Z.div_exact in Hdiv; [|lia].
  set (q := sumZ xs * sumZ xs / n) in *.
  assert (Hq : 0 < q) by nia.
  assert (Hnn : n < ULL_MOD) by nia.
  unfold ull. rewrite !Z.mod_small by lia.
  rewrite Z.quot_div_nonneg by nia. fold q.
  assert (Hq' : ~ (inject_Z q == 0)%Q).
  { change 0%Q with (inject_Z 0). rewrite inject_Z_injective. lia. }
  assert (Hn' : ~ (inject_Z n == 0)%Q).
  { change 0%Q with (inject_Z 0). rewrite inject_Z_injective. lia. }
  assert (HTT : (inject_Z (sumZ xs) * inject_Z (sumZ xs) == inject_Z n * inject_Z q)%Q).
  { rewrite <- !inject_Z_mult. rewrite Hdiv. reflexivity. }
  transitivity ((inject_Z (sumZ xs) * inject_Z (sumZ xs)) / (inject_Z n * inject_Z q))%Q.
  - field. split; assumption.
  - rewrite HTT. field. split; assumption.
Qed.

End FairnessFacts.

(** ** Hierarchy construction *)

Lemma lookup_map {A B} (f : A -> B) (l : list A) (i : nat) :
  map f l !! i = option_map f (l !! i).
Proof.
  revert i. induction l as [|a l IH]; intros [|i]; cbn; auto.
Qed.

Module HierarchyFacts.
Import upscale_fairness_test.

(** A loop of node writes touches the array and nothing else. *)
Lemma mfor_write_nodes (f : Z -> Z) wt now (idx : list Z) (w : world hierarchy_t) :
  let w' := snd (mfor idx (fun i => write_node i (f i) wt now) w) in
  globals w' = fold_left (fun h i => <[Z.to_nat i := Some (written_node i (f i) wt now)]> h)
                 idx (globals w)
  /\ log w' = log w /\ tsc_pos w' = tsc_pos w /\ tsc_src w' = tsc_src w.
Proof.
  revert w. induction idx as [|i idx IH]; intros w; cbn [mfor].
  - repeat split.
  - rewrite bind_run. cbn [fold_left].
    specialize (IH (snd (write_node i (f i) wt now w))).
    cbn zeta in IH. destruct IH as (Hg & Hl & Hp & Hs).
    cbn zeta. rewrite Hg, Hl, Hp, Hs. repeat split.
Qed.

(** Writing the slots [first .. first + k - 1] of an array whose slots
    from [first] on are unwritten. *)
Lemma write_loop_result (g : Z -> node_t) (k : nat) (first : Z) (done : hierarchy_t) (rest : nat) :
  0 <= first -> Z.to_nat first = length done -> (k <= rest)%nat ->
  fold_left (fun h i => <[Z.to_nat i := Some (g i)]> h) (seqZ first (Z.of_nat k))
            (done ++ replicate rest None)
  = done ++ map (fun i => Some (g i)) (seqZ first (Z.of_nat k)) ++ replicate (rest - k) None.
Proof.
  revert first done rest. induction k as [|k IH]; intros first done rest Hf Hlen Hk.
  - simpl. rewrite Nat.sub_0_r. reflexivity.
  - rewrite Nat2Z.inj_succ, seqZ_cons by lia.
    cbn [fold_left map]. replace (Z.pred (Z.succ (Z.of_nat k))) with (Z.of_nat k) by lia.
    destruct rest as [|rest]; [lia|].
    cbn [replicate].
    rewrite insert_app_r_alt by lia. rewrite Hlen, Nat.sub_diag. cbn [insert list_insert].
    replace (done ++ Some (g first) :: replicate rest None)
      with ((done ++ [Some (g first)]) ++ replicate rest None)
      by (rewrite <- app_assoc; reflexivity).
    rewrite IH; [|lia| |lia].
    + rewrite <- app_assoc. reflexivity.
    + rewrite length_app. simpl. rewrite <- Hlen. lia.
Qed.

Lemma int32_small z : - 2 ^ 31 <= z < 2 ^ 31 -> int32 z = z.
Proof. intros H. unfold int32, INT_MOD. rewrite Z.mod_small; lia. Qed.

(** The array a chain of writes "root, then slots 1..n" builds. *)
Lemma rooted_array (f : Z -> Z) (n : Z) (now : Z) (w0 : world hierarchy_t) :
  0 <= n ->
  globals w0 = <[0%nat := Some (written_node 0 0 0 now)]> (replicate (Z.to_nat (n + 1)) None) ->
  globals (snd (mfor (seqZ 1 n) (fun i => write_node i (f i) 0 now) w0))
  = Some (written_node 0 0 0 now)
    :: map (fun i => Some (written_node i (f i) 0 now)) (seqZ 1 n).
Proof.
  intros Hn Hg.
  destruct (mfor_write_nodes f 0 now (seqZ 1 n) w0) as (-> & _).
  rewrite Hg. replace (Z.to_nat (n + 1)) with (S (Z.to_nat n)) by lia.
  cbn [replicate insert list_insert].
  pose proof (write_loop_result (fun i => written_node i (f i) 0 now) (Z.to_nat n) 1
                [Some (written_node 0 0 0 now)] (Z.to_nat n)) as H.
  rewrite Z2Nat.id in H by lia. cbn [app] in H.
  specialize (H ltac:(lia) eq_refl (Nat.le_refl _)).
  refine (eq_trans H _). rewrite Nat.sub_diag. cbn [replicate].
  rewrite app_nil_r. reflexivity.
Qed.

Lemma balanced_array (n : Z) (w : world hierarchy_t) :
  1 <= n <= MAX_THREADS ->
  let now := tsc_src w (tsc_pos w) in
  globals (snd (init_balanced_hierarchy n w))
  = Some (written_node 0 0 0 now)
    :: map (fun i => Some (written_node i (Z.quot (i - 1) 2) 0 now)) (seqZ 1 n).
Proof.
  intros Hn now. unfold MAX_THREADS in Hn. unfold init_balanced_hierarchy.
  rewrite int32_small by lia. replace (n + 1 - 1) with n by lia.
  rewrite !bind_run. cbn [snd fst printf emit globals].
  apply rooted_array; [lia|]. reflexivity.
Qed.

Lemma rooted_array_lookup (g : Z -> node_t) (root : node_t) (n i : Z) :
  1 <= i <= n ->
  (Some root :: map (fun i => Some (g i)) (seqZ 1 n)) !! Z.to_nat i = Some (Some (g i)).
Proof.
  intros Hi. replace (Z.to_nat i) with (S (Z.to_nat (i - 1))) by lia.
  change (map (fun i => Some (g i)) (seqZ 1 n) !! Z.to_nat (i - 1) = Some (Some (g i))).
  rewrite lookup_map.
  rewrite (proj2 (lookup_seqZ 1 n (Z.to_nat (i - 1)) i)) by lia.
  reflexivity.
Qed.

End HierarchyFacts.

(** ** The ratio check of [main], in the arithmetic of the program *)

Module RatioFacts.
Section Generic.
Context {D : Type} {DO : DoubleOps D}.



(** The mix [main] hands to every thread. *)
Lemma mutex_thread_ratios (a : upscale_mutex.args D) (t : upscale_mutex.thread_config_t D) :
  In t (upscale_mutex.main_threads a) ->
  upscale_mutex.insert_ratio t = upscale_mutex.parsed_insert_ratio a
  /\ upscale_mutex.find_ratio t = upscale_mutex.parsed_find_ratio a
  /\ upscale_mutex.update_ratio t
     = (of_int 1 - upscale_mutex.parsed_insert_ratio a - upscale_mutex.parsed_find_ratio a)%D.
Proof.
  unfold upscale_mutex.main_threads. rewrite in_map_iff. intros (i & <- & _).
  repeat split.
Qed.

Lemma fairness_thread_ratios (a : upscale_fairness_test.args D)
  (t : upscale_fairness_test.thread_config_t D) :
  In t (upscale_fairness_test.main_threads a) ->
  upscale_fairness_test.insert_ratio t = upscale_fairness_test.parsed_insert_ratio a
  /\ upscale_fairness_test.find_ratio t = upscale_fairness_test.parsed_find_ratio a
  /\ upscale_fairness_test.update_ratio t
     = (of_int 1 - upscale_fairness_test.parsed_insert_ratio a
        - upscale_fairness_test.parsed_find_ratio a)%D.
Proof.
  unfold upscale_fairness_test.main_threads. rewrite in_map_iff. intros (i & <- & _).
  repeat split.
Qed.

End Generic.
End RatioFacts.

(** ** Selectors outside their range *)

Module SelectorFacts.
Import upscale_fairness_test.

Section Generic.
Context {D : Type} {DO : DoubleOps D}.

Lemma parsed_hierarchy_type_range (a : args D) : 0 <= parsed_hierarchy_type a <= 4.
Proof.
  unfold parsed_hierarchy_type, HIERARCHY_FLAT.
  destruct (6 <? argc a); cbn [andb]; [|lia].
  destruct (Z.leb_spec 0 (arg_type a)); cbn [andb]; [|lia].
  destruct (Z.leb_spec (arg_type a) 4); lia.
Qed.

Lemma parsed_hierarchy_type_fallback (a : args D) :
  ~ (0 <= arg_type a <= 4) -> parsed_hierarchy_type a = HIERARCHY_FLAT.
Proof.
  intros H. unfold parsed_hierarchy_type.
  destruct (6 <? argc a); cbn [andb]; [|reflexivity].
  destruct (Z.leb_spec 0 (arg_type a)); cbn [andb]; [|reflexivity].
  destruct (Z.leb_spec (arg_type a) 4); [lia|reflexivity].
Qed.

(** Outside 0..4 [init_hierarchy] warns and builds the flat hierarchy. *)
Lemma init_hierarchy_default (n type : Z) :
  ~ (0 <= type <= 4) ->
  init_hierarchy n type
  = bind (printf "Unknown hierarchy type, using flat hierarchy\n")
         (fun _ => init_flat_hierarchy n).
Proof.
  intros H. unfold init_hierarchy, HIERARCHY_FLAT, HIERARCHY_BALANCED,
    HIERARCHY_SKEWED, HIERARCHY_DEEP, HIERARCHY_GROUPED.
  repeat match goal with
         | |- context [?x =? ?y] => destruct (Z.eqb_spec x y); [lia|]
         end.
  reflexivity.
Qed.

(** Within 0..4 it prints one "Initialized ..." line and no warning. *)
Lemma init_hierarchy_emits (n type : Z) :
  0 <= type <= 4 ->
  emits (fun e => e <> hierarchy_warning) (init_hierarchy n type).
Proof.
  intros H. unfold init_hierarchy, HIERARCHY_FLAT, HIERARCHY_BALANCED,
    HIERARCHY_SKEWED, HIERARCHY_DEEP, HIERARCHY_GROUPED.
  repeat match goal with
         | |- context [?x =? ?y] => destruct (Z.eqb_spec x y)
         end; try lia;
  unfold init_flat_hierarchy, init_balanced_hierarchy, init_skewed_hierarchy,
    init_deep_hierarchy, init_grouped_hierarchy, malloc_hierarchy, write_node;
  emits_tac ltac:(discriminate).
Qed.

Lemma start_threads_emits P (threads : list (thread_config_t D)) :
  P (Call "pthread_create") -> P (Printf "Failed to create thread %d\n") ->
  emits P (start_threads threads).
Proof.
  intros H1 H2. induction threads as [|t rest IH]; cbn [start_threads].
  - apply emits_ret.
  - apply emits_bind; [apply emits_ask; exact H1|]. intros rc.
    destruct (rc =? 0); [exact IH|].
    emits_tac ltac:(exact H2).
Qed.

(** [main] never prints the warning. *)
Lemma main_never_warns (a : args D) :
  emits (fun e => e <> hierarchy_warning) (main a).
Proof.
  unfold main.
  repeat first
    [ apply init_hierarchy_emits; apply parsed_hierarchy_type_range
    | apply start_threads_emits; discriminate
    | progress unfold print_hierarchy_structure
    | emits_step ltac:(discriminate) ].
Qed.

End Generic.


Lemma fairness_main_selector_ignored {D} {DO : DoubleOps D}
  (a : upscale_fairness_test.args D) :
  ~ (0 <= upscale_fairness_test.arg_type a <= 4) ->
  upscale_fairness_test.main a
  = upscale_fairness_test.main
      {| upscale_fairness_test.argc := upscale_fairness_test.argc a;
         upscale_fairness_test.arg_num_threads := upscale_fairness_test.arg_num_threads a;
         upscale_fairness_test.arg_duration := upscale_fairness_test.arg_duration a;
         upscale_fairness_test.arg_insert_ratio := upscale_fairness_test.arg_insert_ratio a;
         upscale_fairness_test.arg_find_ratio := upscale_fairness_test.arg_find_ratio a;
         upscale_fairness_test.arg_type := upscale_fairness_test.HIERARCHY_FLAT |}.
Proof.
  intros H. unfold upscale_fairness_test.main, upscale_fairness_test.main_threads.
  rewrite (SelectorFacts.parsed_hierarchy_type_fallback a H).
  unfold upscale_fairness_test.parsed_insert_ratio, upscale_fairness_test.parsed_find_ratio,
    upscale_fairness_test.parsed_update_ratio, upscale_fairness_test.parsed_hierarchy_type,
    upscale_fairness_test.parsed_insert_ratio, upscale_fairness_test.parsed_find_ratio.
  cbn [upscale_fairness_test.argc upscale_fairness_test.arg_num_threads
       upscale_fairness_test.arg_duration upscale_fairness_test.arg_insert_ratio
       upscale_fairness_test.arg_find_ratio upscale_fairness_test.arg_type].
  change (0 <=? upscale_fairness_test.HIERARCHY_FLAT) with true.
  change (upscale_fairness_test.HIERARCHY_FLAT <=? 4) with true.
  rewrite !andb_true_r.
  destruct (6 <? upscale_fairness_test.argc a); reflexivity.
Qed.

Lemma mutex_main_unknown_lock (a : upscale_mutex.args Q)
  (w : world upscale_mutex.mutex_globals) :
  6 < upscale_mutex.argc a ->
  1 <= upscale_mutex.arg_num_threads a <= MAX_THREADS ->
  ~ (1 < upscale_mutex.parsed_insert_ratio a + upscale_mutex.parsed_find_ratio a)%Q ->
  ~ (0 <= upscale_mutex.arg_lock_type a <= 3) ->
  let r := upscale_mutex.main a w in
  fst r = 1
  /\ log (snd r)
     = log w ++
       [Printf "Starting hierarchical lock fairness test with %d threads for %d seconds\n";
        Printf "Operation ratios: Insert=%.2f, Find=%.2f, Update=%.2f\n";
        Printf "Unknown lock type\n"].
Proof.
  intros Hargc Hn Hratio Htype r. subst r. unfold upscale_mutex.main.
  replace (upscale_mutex.argc a <? 4) with false by (symmetry; apply Z.ltb_ge; lia).
  replace ((MAX_THREADS <? upscale_mutex.arg_num_threads a)
           || (upscale_mutex.arg_num_threads a <? 1)) with false
    by (symmetry; apply orb_false_iff; split; apply Z.ltb_ge; lia).
  rewrite <- Qltb_lt in Hratio. apply not_true_is_false in Hratio.
  cbn [dlt dadd of_int Q_double]. change (inject_Z 1) with 1%Q. rewrite Hratio.
  unfold upscale_mutex.parsed_lock_type.
  replace (6 <? upscale_mutex.argc a) with true by (symmetry; apply Z.ltb_lt; lia).
  unfold upscale_mutex.init_lock, upscale_mutex.LOCK_MUTEX, upscale_mutex.LOCK_SPIN,
    upscale_mutex.LOCK_RWLOCK, upscale_mutex.LOCK_ADAPTIVE_MUTEX.
  repeat match goal with
         | |- context [upscale_mutex.arg_lock_type a =? ?y] =>
             destruct (Z.eqb_spec (upscale_mutex.arg_lock_type a) y); [lia|]
         end.
  cbn. rewrite <- !app_assoc. split; reflexivity.
Qed.


End SelectorFacts.

(** ** The worker loop *)

Module FairnessWorker.
Import upscale_fairness_test.

Section Generic.
Context {D : Type} {DO : DoubleOps D}.

(** The counters after one pass through the loop body. *)
Lemma worker_iteration_counts (config : thread_config_t D) (w : world hierarchy_t) :
  let op := select_operation config (rand_src w (rand_pos w)) in
  let config' := fst (worker_iteration config w) in
  insert_count config'
    = match op with OP_INSERT => ull (insert_count config + 1) | _ => insert_count config end
  /\ find_count config'
    = match op with OP_FIND => ull (find_count config + 1) | _ => find_count config end
  /\ update_count config'
    = match op with OP_UPDATE => ull (update_count config + 1) | _ => update_count config end
  /\ total_operations config' = ull (total_operations config + 1)
  /\ lock_acquisitions config' = ull (lock_acquisitions config + 1).
Proof.
  intros op config'. subst op config'. unfold worker_iteration. run_bind.
  cbn [fst ret insert_count find_count update_count total_operations lock_acquisitions].
  repeat split.
Qed.

End Generic.

End FairnessWorker.

Module EmptyKeyspace.

Section Generic.
Context {D : Type} {DO : DoubleOps D}.

Lemma fairness_perform_find_empty (config : upscale_fairness_test.thread_config_t D)
  (w : world upscale_fairness_test.hierarchy_t) :
  next_key_id w <= 1 ->
  let r := upscale_fairness_test.perform_find config w in
  fst r = 0
  /\ log (snd r) = log w ++ [Printf "Error: No keys available for find operation\n"]
  /\ next_key_id (snd r) = next_key_id w
  /\ ext_pos (snd r) = ext_pos w.
Proof.
  intros Hk. apply Z.leb_le in Hk. unfold upscale_fairness_test.perform_find.
  cbv zeta. run_bind. cbn [fst snd rdtsc get_next_key next_key_id]. rewrite Hk.
  repeat split.
Qed.

Lemma fairness_perform_update_empty (config : upscale_fairness_test.thread_config_t D)
  (w : world upscale_fairness_test.hierarchy_t) :
  next_key_id w <= 1 ->
  let r := upscale_fairness_test.perform_update config w in
  fst r = 0 /\ log (snd r) = log w /\ next_key_id (snd r) = next_key_id w
  /\ ext_pos (snd r) = ext_pos w.
Proof.
  intros Hk. apply Z.leb_le in Hk. unfold upscale_fairness_test.perform_update.
  cbv zeta. run_bind. cbn [fst snd rdtsc get_next_key next_key_id]. rewrite Hk.
  repeat split.
Qed.

Lemma mutex_perform_find_empty (config : upscale_mutex.thread_config_t D)
  (w : world upscale_mutex.mutex_globals) :
  next_key_id w <= 1 ->
  let r := upscale_mutex.perform_find config w in
  fst r = 0 /\ log (snd r) = log w /\ next_key_id (snd r) = next_key_id w
  /\ ext_pos (snd r) = ext_pos w.
Proof.
  intros Hk. apply Z.leb_le in Hk. unfold upscale_mutex.perform_find.
  cbv zeta. run_bind. cbn [fst snd rdtsc get_next_key next_key_id]. rewrite Hk.
  repeat split.
Qed.

Lemma mutex_perform_update_empty (config : upscale_mutex.thread_config_t D)
  (w : world upscale_mutex.mutex_globals) :
  next_key_id w <= 1 ->
  let r := upscale_mutex.perform_update config w in
  fst r = 0 /\ log (snd r) = log w /\ next_key_id (snd r) = next_key_id w
  /\ ext_pos (snd r) = ext_pos w.
Proof.
  intros Hk. apply Z.leb_le in Hk. unfold upscale_mutex.perform_update.
  cbv zeta. run_bind. cbn [fst snd rdtsc get_next_key next_key_id]. rewrite Hk.
  repeat split.
Qed.

(** A pass of [upscale_fairness_test]'s loop that picks a find or an
    update on the empty keyspace: the operation is counted, with a
    duration of zero, and the store is not called. *)
Lemma fairness_iteration_empty (config : upscale_fairness_test.thread_config_t D)
  (w : world upscale_fairness_test.hierarchy_t) :
  next_key_id w <= 1 ->
  let op := upscale_fairness_test.select_operation config (rand_src w (rand_pos w)) in
  let r := upscale_fairness_test.worker_iteration config w in
  (op = OP_FIND ->
     upscale_fairness_test.find_count (fst r)
       = ull (upscale_fairness_test.find_count config + 1)
     /\ upscale_fairness_test.find_time (fst r)
       = ull (upscale_fairness_test.find_time config + 0))
  /\ (op = OP_UPDATE ->
     upscale_fairness_test.update_count (fst r)
       = ull (upscale_fairness_test.update_count config + 1)
     /\ upscale_fairness_test.update_time (fst r)
       = ull (upscale_fairness_test.update_time config + 0))
  /\ upscale_fairness_test.total_operations (fst r)
     = ull (upscale_fairness_test.total_operations config + 1).
Proof.
  intros Hk op r. subst op r. unfold upscale_fairness_test.worker_iteration. run_bind.
  cbn [fst ret upscale_fairness_test.find_count upscale_fairness_test.find_time
       upscale_fairness_test.update_count upscale_fairness_test.update_time
       upscale_fairness_test.total_operations].
  cbn [fst snd rand rdtsc emit rand_src rand_pos].
  split; [|split]; [intros -> | intros -> | reflexivity].
  - split; [reflexivity|]. f_equal. f_equal.
    apply fairness_perform_find_empty. exact Hk.
  - split; [reflexivity|]. f_equal. f_equal.
    apply fairness_perform_update_empty. exact Hk.
Qed.

End Generic.

End EmptyKeyspace.

Module MutexWorker.
Import upscale_mutex.

Section Generic.
Context {D : Type} {DO : DoubleOps D}.

Lemma lock_call_state (s1 s2 s3 s4 : string) (w : world mutex_globals) :
  let w' := snd (lock_call s1 s2 s3 s4 w) in
  next_key_id w' = next_key_id w /\ rand_pos w' = rand_pos w
  /\ rand_src w' = rand_src w /\ ext_pos w' = ext_pos w
  /\ forall e, In e (log w') -> In e (log w) \/ exists s, e = Call s.
Proof.
  unfold lock_call. run_bind. cbn [fst snd get_globals].
  repeat match goal with |- context [if ?c then _ else _] => destruct c end;
    cbn; repeat split; intros e He; try (left; exact He);
    apply in_app_or in He; destruct He as [He|[<-|[]]]; eauto.
Qed.

Lemma acquire_lock_state (config : thread_config_t D) (w : world mutex_globals) :
  let w' := snd (acquire_lock config w) in
  next_key_id w' = next_key_id w /\ rand_pos w' = rand_pos w
  /\ rand_src w' = rand_src w /\ ext_pos w' = ext_pos w.
Proof.
  unfold acquire_lock. cbv zeta. run_bind.
  cbn [fst snd rdtsc get_globals set_globals ret next_key_id rand_pos rand_src ext_pos].
  match goal with
  | |- context [lock_call ?a ?b ?c ?d ?w0] =>
      destruct (lock_call_state a b c d w0) as (H1 & H2 & H3 & H4 & _)
  end.
  cbn zeta in *. rewrite H1, H2, H3, H4. repeat split.
Qed.

(** The counters after one pass through the loop body. *)
Lemma mutex_iteration_counts (config : thread_config_t D) (w : world mutex_globals) :
  let op := select_operation config (rand_src w (rand_pos w)) in
  let config' := fst (worker_iteration config w) in
  insert_count config'
    = match op with OP_INSERT => ull (insert_count config + 1) | _ => insert_count config end
  /\ find_count config'
    = match op with OP_FIND => ull (find_count config + 1) | _ => find_count config end
  /\ update_count config'
    = match op with OP_UPDATE => ull (update_count config + 1) | _ => update_count config end
  /\ total_operations config' = ull (total_operations config + 1)
  /\ lock_acquisitions config' = ull (lock_acquisitions config + 1).
Proof.
  intros op config'. subst op config'. unfold worker_iteration. run_bind.
  cbn [fst ret insert_count find_count update_count total_operations lock_acquisitions].
  repeat split.
Qed.

(** A pass of [upscale_mutex]'s loop that picks a find or an update on
    the empty keyspace: the operation is counted, with a duration of
    zero. *)
Lemma mutex_iteration_empty (config : thread_config_t D) (w : world mutex_globals) :
  next_key_id w <= 1 ->
  let op := select_operation config (rand_src w (rand_pos w)) in
  let r := worker_iteration config w in
  (op = OP_FIND ->
     find_count (fst r) = ull (find_count config + 1)
     /\ find_time (fst r) = ull (find_time config + 0))
  /\ (op = OP_UPDATE ->
     update_count (fst r) = ull (update_count config + 1)
     /\ update_time (fst r) = ull (update_time config + 0))
  /\ total_operations (fst r) = ull (total_operations config + 1).
Proof.
  intros Hk op r. subst op r. unfold worker_iteration. run_bind.
  cbn [fst ret find_count find_time update_count update_time total_operations].
  cbn [fst snd rand get_globals rand_src rand_pos].
  match goal with
  | |- context [acquire_lock config ?w0] =>
      destruct (acquire_lock_state config w0) as (Hnk & _);
      set (w1 := snd (acquire_lock config w0)) in *
  end.
  cbn [next_key_id] in Hnk.
  assert (Hk1 : next_key_id w1 <= 1) by (rewrite Hnk; exact Hk).
  split; [|split]; [intros -> | intros -> | reflexivity].
  - split; [reflexivity|]. f_equal. f_equal.
    apply EmptyKeyspace.mutex_perform_find_empty. exact Hk1.
  - split; [reflexivity|]. f_equal. f_equal.
    apply EmptyKeyspace.mutex_perform_update_empty. exact Hk1.
Qed.

End Generic.

End MutexWorker.

Module WorkerLoop.
Import upscale_fairness_test.

Section Generic.
Context {D : Type} {DO : DoubleOps D}.

(** The loop keeps the two per-thread counters in step. *)
Lemma worker_loop_acquisitions (n : nat) (config : thread_config_t D)
  (w : world hierarchy_t) :
  lock_acquisitions config = total_operations config ->
  lock_acquisitions (fst (worker_loop n config w))
  = total_operations (fst (worker_loop n config w)).
Proof.
  revert config w. induction n as [|n IH]; intros config w H; cbn [worker_loop].
  - exact H.
  - rewrite bind_run. apply IH.
    destruct (FairnessWorker.worker_iteration_counts config w) as (_ & _ & _ & Ht & Ha).
    cbv zeta in Ht, Ha. rewrite Ht, Ha, H. reflexivity.
Qed.

(** In particular for a thread [main] configured, after any number of
    passes. *)
Lemma joined_thread_counters (type num_threads : Z) (ins fnd upd : D)
  (duration i : Z) (n : nat) (w : world hierarchy_t) :
  let t := fst (worker_loop n
                  (configured_thread type num_threads ins fnd upd duration i) w) in
  lock_acquisitions t = total_operations t.
Proof. apply worker_loop_acquisitions. reflexivity. Qed.

End Generic.

End WorkerLoop.

(** ** The report on a run without operations *)

Module ZeroTotal.
Import upscale_fairness_test FairnessFacts.

Lemma inject_Z_nonzero z : z <> 0 -> ~ (inject_Z z == 0)%Q.
Proof. intros H. change 0%Q with (inject_Z 0). rewrite inject_Z_injective. exact H. Qed.

Lemma sumZ_zero xs : Forall (fun x => x = 0) xs -> sumZ xs = 0.
Proof.
  induction 1 as [|x xs Hx _ IH]; cbn [sumZ fold_right]; [reflexivity|].
  unfold sumZ in IH. lia.
Qed.

(** The divisors of one table row of an idle thread. *)
Lemma idle_row_divisors duration (t : thread_config_t Q) acc :
  lock_acquisitions t = 0 ->
  snd (table_step duration acc t)
  = [FDiv (inject_Z duration); FDiv (inject_Z (CYCLE_PER_US * 1000))].
Proof.
  intros Hacq. destruct acc as [[[lines a] b] c].
  unfold table_step, fdiv. rewrite Hacq. reflexivity.
Qed.

End ZeroTotal.

(** ** The report of [print_cgroups_fairness_stats] at concrete runs *)

(** Its "Fairness Index" is that of [print_fairness_stats]: 1 on the
    counts [0, 40]. *)
Lemma cgroups_fairness_index_value :
  (upscale_fairness_cgroups.fairness_index
     (fst (upscale_fairness_cgroups.print_cgroups_fairness_stats
             (cgroups_run (D:=Q) [0%Z; 40%Z]) 2%Z 10%Z)) == 1)%Q
  /\ upscale_fairness_cgroups.fairness_index
       (fst (upscale_fairness_cgroups.print_cgroups_fairness_stats
               (cgroups_run (D:=float) [0; 40]) 2 10)) = 1%float.
Proof. split; vm_compute; reflexivity. Qed.

(** On three idle threads and a duration of ten seconds the index is 0
    and the variation "N/A", but the cgroup fairness analysis divides
    the operations of each populated cgroup by the total, which is 0; in
    binary64 the share it prints is not a number. *)
Lemma cgroups_zero_total_divides_by_zero :
  let r := upscale_fairness_cgroups.print_cgroups_fairness_stats
             (cgroups_run (D:=Q) [0; 0; 0]) 3 10 in
  upscale_fairness_cgroups.fairness_index (fst r) = 0%Q
  /\ upscale_fairness_cgroups.throughput_variation (fst r) = None
  /\ In (FDiv 0%Q) (snd r)
  /\ ~ Forall nonzero_divisor (snd r)
  /\ (exists line rest,
        upscale_fairness_cgroups.shares
          (fst (upscale_fairness_cgroups.print_cgroups_fairness_stats
                  (cgroups_run (D:=float) [0; 0; 0]) 3 10)) = line :: rest
        /\ PrimFloat.is_nan (upscale_fairness_cgroups.actual_share line) = true).
Proof.
  intros r.
  assert (Hin : In (FDiv 0%Q) (snd r)) by (vm_compute; tauto).
  split; [reflexivity|]. split; [reflexivity|]. split; [exact Hin|]. split.
  - intros HF. rewrite List.Forall_forall in HF. apply (HF _ Hin). reflexivity.
  - eexists. eexists. split; vm_compute; reflexivity.
Qed.

(** ** The claims *)






(** The coefficient in binary64 on the two vectors of the claim. *)
Lemma gini_coefficient_binary64 :
  upscale_mutex.gini (mutex_run (D:=float) [10; 10; 10; 10]) 4 = 0%float
  /\ upscale_mutex.gini (mutex_run (D:=float) [0; 0; 0; 40]) 4 = 0.75%float.
Proof. split; vm_compute; reflexivity. Qed.

(** C2.  The "Fairness Index" of [print_fairness_stats] is not Jain's
    index.  Whenever the thread count divides the square of the total
    (and the square fits 64 bits), [print_fairness_stats] reports 1,
    while Jain's index of [print_hierarchy_stats] on the same counts is
    below 1 unless all counts are equal. *)
Theorem fairness_index_is_not_jain (xs : list Z) :
  let n := Z.of_nat (length xs) in
  Forall (fun x => 0 <= x) xs ->
  0 < sumZ xs ->
  sumZ xs * sumZ xs < ULL_MOD ->
  (sumZ xs * sumZ xs) mod n = 0 ->
  ~ all_equal xs ->
  forall (ft : list (upscale_fairness_test.thread_config_t Q))
         (mt : list (upscale_mutex.thread_config_t Q)) (duration : Z),
    map upscale_fairness_test.total_operations ft = xs ->
    map upscale_mutex.total_operations mt = xs ->
    (upscale_fairness_test.fairness_index
       (fst (upscale_fairness_test.print_fairness_stats ft n duration)) == 1)%Q
    /\ (upscale_mutex.overall_fairness_index mt n < 1)%Q.
Proof.
  intros n Hnn Hpos Hsq Hdiv Hneq ft mt duration Hft Hmt.
  assert (Hlf : n = Z.of_nat (length ft)) by (subst n xs; rewrite length_map; reflexivity).
  assert (Hlm : n = Z.of_nat (length mt))
    by (subst n; rewrite <- Hmt, length_map; reflexivity).
  split.
  - rewrite Hlf. apply FairnessFacts.fairness_index_degenerate; rewrite ?Hft, <- ?Hlf; assumption.
  - rewrite Hlm, MutexFacts.overall_fairness_index_Q, Hmt, <- Hlm.
    assert (Hn : 0 < n) by (subst n; destruct xs; [simpl in Hpos; lia | simpl; lia]).
    assert (Hex : Exists (fun x => 0 < x) xs).
    { clear - Hnn Hpos. induction Hnn as [|x l Hx Hl IH]; [simpl in Hpos; lia|].
      destruct (Z.eq_dec x 0) as [->|Hx0]; [right; apply IH; exact Hpos | left; lia]. }
    pose proof (sum_squares_pos xs Hex) as HS2.
    pose proof (spread_gap_nonneg xs) as Hgap.
    rewrite <- spread_gap_zero_iff in Hneq. unfold spread_gap in Hgap, Hneq. fold n in Hgap, Hneq.
    apply Qlt_shift_div_r.
    + change 0%Q with (inject_Z 0). rewrite <- Zlt_Qlt. nia.
    + rewrite Qmult_1_l. rewrite <- Zlt_Qlt. lia.
Qed.

(** Two threads, one of which did all 40 operations. *)
Lemma fairness_index_is_not_jain_witness :
  let xs := [0; 40] in
  (Forall (fun x => 0 <= x) xs /\ 0 < sumZ xs /\ sumZ xs * sumZ xs < ULL_MOD
   /\ (sumZ xs * sumZ xs) mod 2 = 0 /\ ~ all_equal xs)
  /\ (upscale_fairness_test.fairness_index
        (fst (upscale_fairness_test.print_fairness_stats (fairness_run (D:=Q) xs) 2%Z 10%Z))
      == 1)%Q
  /\ (upscale_mutex.overall_fairness_index (mutex_run (D:=Q) xs) 2%Z < 1)%Q.
Proof.
  intros xs.
  assert (H1 : Forall (fun x => 0 <= x) xs) by (repeat constructor; lia).
  assert (H2 : 0 < sumZ xs) by (simpl; lia).
  assert (H3 : sumZ xs * sumZ xs < ULL_MOD) by (unfold ULL_MOD; simpl; lia).
  assert (H4 : (sumZ xs * sumZ xs) mod Z.of_nat (length xs) = 0) by reflexivity.
  assert (H5 : ~ all_equal xs).
  { intros H. specialize (H 0 40 (or_introl eq_refl) (or_intror (or_introl eq_refl))).
    discriminate H. }
  split; [repeat split; assumption|].
  exact (fairness_index_is_not_jain xs H1 H2 H3 H4 H5
           (fairness_run xs) (mutex_run xs) 10 eq_refl eq_refl).
Defined.

(** The two indices on those counts, over the rationals and in
    binary64. *)
Lemma fairness_index_vs_jain_values :
  (upscale_fairness_test.fairness_index
     (fst (upscale_fairness_test.print_fairness_stats
             (fairness_run (D:=Q) [0%Z; 40%Z]) 2%Z 10%Z)) == 1)%Q
  /\ (upscale_mutex.overall_fairness_index (mutex_run (D:=Q) [0%Z; 40%Z]) 2%Z == 1 # 2)%Q
  /\ upscale_fairness_test.fairness_index
       (fst (upscale_fairness_test.print_fairness_stats
               (fairness_run (D:=float) [0; 40]) 2 10)) = 1%float
  /\ upscale_mutex.overall_fairness_index (mutex_run (D:=float) [0; 40]) 2 = 0.5%float.
Proof. repeat split; vm_compute; reflexivity. Qed.



(** The two lines in binary64 on a run with max 120, min 80, mean 100. *)
Lemma throughput_spread_binary64 :
  upscale_mutex.throughput_spread (mutex_run (D:=float) [80; 100; 120]) 3 = 40%float
  /\ upscale_fairness_test.throughput_variation
       (fst (upscale_fairness_test.print_fairness_stats
               (fairness_run (D:=float) [80; 100; 120]) 3 10)) = Some 40%float.
Proof. split; vm_compute; reflexivity. Qed.

(** C7.  For a thread count between 1 and 16, [init_balanced_hierarchy]
    leaves an array of [threadCount + 1] nodes in which node 0 is its
    own parent and every node [i] from 1 to [threadCount] has parent
    [floor((i-1)/2)]; for seven threads node 3 has parent 1 and node 6
    has parent 2. *)
Theorem balanced_hierarchy_parents (n : Z) (w : world upscale_fairness_test.hierarchy_t) :
  1 <= n <= MAX_THREADS ->
  let h := globals (snd (upscale_fairness_test.init_balanced_hierarchy n w)) in
  Z.of_nat (length h) = n + 1
  /\ (exists root, h !! 0%nat = Some (Some root) /\ upscale_fairness_test.id root = 0 /\ upscale_fairness_test.parent root = 0)
  /\ (forall i, 1 <= i <= n ->
        exists nd, h !! Z.to_nat i = Some (Some nd) /\ upscale_fairness_test.id nd = i
             /\ upscale_fairness_test.parent nd = (i - 1) / 2)
  /\ (n = 7 ->
        exists nd3 nd6,
          h !! 3%nat = Some (Some nd3) /\ upscale_fairness_test.parent nd3 = 1
          /\ h !! 6%nat = Some (Some nd6) /\ upscale_fairness_test.parent nd6 = 2).
Proof.
  intros Hn h. subst h. rewrite HierarchyFacts.balanced_array by exact Hn.
  unfold MAX_THREADS in Hn.
  split; [|split; [|split]].
  - cbn [length]. rewrite length_map, length_seqZ. lia.
  - eexists. split; [reflexivity|]. split; reflexivity.
  - intros i Hi. eexists. split; [apply HierarchyFacts.rooted_array_lookup; exact Hi|].
    split; [reflexivity|]. cbn [upscale_fairness_test.parent upscale_fairness_test.written_node].
    apply Z.quot_div_nonneg; lia.
  - intros ->. eexists. eexists. repeat split.
Qed.

Lemma balanced_hierarchy_witness :
  1 <= 7 <= MAX_THREADS
  /\ exists nd3 nd6,
       globals (snd (upscale_fairness_test.init_balanced_hierarchy 7 fairness_start)) !! 3%nat
       = Some (Some nd3)
       /\ upscale_fairness_test.parent nd3 = 1
       /\ globals (snd (upscale_fairness_test.init_balanced_hierarchy 7 fairness_start)) !! 6%nat
          = Some (Some nd6)
       /\ upscale_fairness_test.parent nd6 = 2.
Proof.
  assert (H : 1 <= 7 <= MAX_THREADS) by (unfold MAX_THREADS; lia).
  split; [exact H|].
  exact (proj2 (proj2 (proj2 (balanced_hierarchy_parents 7 fairness_start H))) eq_refl).
Defined.




(** C6, as the code has it.  In [upscale_fairness_test] a hierarchy
    selector outside 0..4 leaves [main] running exactly as with the
    selector 0 (FLAT), and [main] never prints the warning;
    [init_hierarchy] itself, called with such a selector, prints the
    warning and builds the flat hierarchy.  In [upscale_mutex] a lock
    selector outside 0..3 on an otherwise valid command line makes
    [main] return 1 after "Unknown lock type", before the store is
    opened or a thread is created. *)
Theorem unknown_selector_behaviour :
  (forall (a : upscale_fairness_test.args Q),
     ~ (0 <= upscale_fairness_test.arg_type a <= 4) ->
     upscale_fairness_test.main a
     = upscale_fairness_test.main
         {| upscale_fairness_test.argc := upscale_fairness_test.argc a;
            upscale_fairness_test.arg_num_threads := upscale_fairness_test.arg_num_threads a;
            upscale_fairness_test.arg_duration := upscale_fairness_test.arg_duration a;
            upscale_fairness_test.arg_insert_ratio := upscale_fairness_test.arg_insert_ratio a;
            upscale_fairness_test.arg_find_ratio := upscale_fairness_test.arg_find_ratio a;
            upscale_fairness_test.arg_type := upscale_fairness_test.HIERARCHY_FLAT |})
  /\ (forall (a : upscale_fairness_test.args Q),
     emits (fun e => e <> hierarchy_warning) (upscale_fairness_test.main a))
  /\ (forall n type : Z,
     ~ (0 <= type <= 4) ->
     upscale_fairness_test.init_hierarchy n type
     = bind (printf "Unknown hierarchy type, using flat hierarchy\n")
            (fun _ => upscale_fairness_test.init_flat_hierarchy n))
  /\ (forall (a : upscale_mutex.args Q) (w : world upscale_mutex.mutex_globals),
     6 < upscale_mutex.argc a ->
     1 <= upscale_mutex.arg_num_threads a <= MAX_THREADS ->
     ~ (1 < upscale_mutex.parsed_insert_ratio a + upscale_mutex.parsed_find_ratio a)%Q ->
     ~ (0 <= upscale_mutex.arg_lock_type a <= 3) ->
     let r := upscale_mutex.main a w in
     fst r = 1
     /\ log (snd r)
        = log w ++
          [Printf "Starting hierarchical lock fairness test with %d threads for %d seconds\n";
           Printf "Operation ratios: Insert=%.2f, Find=%.2f, Update=%.2f\n";
           Printf "Unknown lock type\n"]).
Proof.
  split; [exact (fun a => SelectorFacts.fairness_main_selector_ignored a)|].
  split; [exact (fun a => SelectorFacts.main_never_warns a)|].
  split; [exact SelectorFacts.init_hierarchy_default|].
  exact SelectorFacts.mutex_main_unknown_lock.
Qed.

Lemma unknown_selector_witness :
  ~ (0 <= upscale_mutex.arg_lock_type (unknown_lock_args (D:=Q)) <= 3)
  /\ fst (upscale_mutex.main (unknown_lock_args (D:=Q)) mutex_start) = 1
  /\ ~ (0 <= upscale_fairness_test.arg_type (unknown_topology_args (D:=Q)) <= 4)
  /\ upscale_fairness_test.main (unknown_topology_args (D:=Q))
     = upscale_fairness_test.main (flat_topology_args (D:=Q)).
Proof.
  assert (H1 : ~ (0 <= upscale_mutex.arg_lock_type (unknown_lock_args (D:=Q)) <= 3))
    by (simpl; lia).
  assert (H2 : ~ (0 <= upscale_fairness_test.arg_type (unknown_topology_args (D:=Q)) <= 4))
    by (simpl; lia).
  split; [exact H1|]. split; [|split; [exact H2|]].
  - refine (proj1 (proj2 (proj2 (proj2 unknown_selector_behaviour))
                     unknown_lock_args mutex_start _ _ _ H1)).
    + simpl; lia.
    + unfold MAX_THREADS; simpl; lia.
    + intros H; vm_compute in H; discriminate H.
  - exact (proj1 unknown_selector_behaviour unknown_topology_args H2).
Defined.

(** C6, as stated, fails: with the lock selector 7 [upscale_mutex] exits
    with status 1 and creates no thread; with the hierarchy selector 9
    [upscale_fairness_test] runs to the end without the warning. *)
Lemma unknown_selector_counterexample :
  fst (upscale_mutex.main (unknown_lock_args (D:=Q)) mutex_start) = 1
  /\ ~ In (Call "pthread_create")
          (log (snd (upscale_mutex.main (unknown_lock_args (D:=Q)) mutex_start)))
  /\ fst (upscale_fairness_test.main (unknown_topology_args (D:=Q)) fairness_start) = 0
  /\ ~ In hierarchy_warning
          (log (snd (upscale_fairness_test.main (unknown_topology_args (D:=Q)) fairness_start))).
Proof.
  split; [vm_compute; reflexivity|].
  split; [vm_compute; intuition discriminate|].
  split; [vm_compute; reflexivity|].
  vm_compute. intuition discriminate.
Qed.

(** C8.  In the worker loop of either program, with the draw
    [r = rand() / RAND_MAX], the pass performs and counts an insert if
    [r < insert_ratio], else a find if [r < insert_ratio + find_ratio],
    else an update.  The division, the sum and the comparisons are the
    program's own operations on [double]; the statement holds for
    every arithmetic put in their place, binary64 included. *)
Theorem operation_selection (D : Type) (DO : DoubleOps D) :
  (forall (config : upscale_mutex.thread_config_t D) (w : world upscale_mutex.mutex_globals),
     let draw := rand_src w (rand_pos w) in
     let r := (of_int draw / of_int RAND_MAX)%D in
     let op := upscale_mutex.select_operation config draw in
     let config' := fst (upscale_mutex.worker_iteration config w) in
     ((r <? upscale_mutex.insert_ratio config)%D = true ->
        op = OP_INSERT
        /\ upscale_mutex.insert_count config' = ull (upscale_mutex.insert_count config + 1)
        /\ upscale_mutex.find_count config' = upscale_mutex.find_count config
        /\ upscale_mutex.update_count config' = upscale_mutex.update_count config)
     /\ ((r <? upscale_mutex.insert_ratio config)%D = false ->
         (r <? upscale_mutex.insert_ratio config + upscale_mutex.find_ratio config)%D = true ->
        op = OP_FIND
        /\ upscale_mutex.insert_count config' = upscale_mutex.insert_count config
        /\ upscale_mutex.find_count config' = ull (upscale_mutex.find_count config + 1)
        /\ upscale_mutex.update_count config' = upscale_mutex.update_count config)
     /\ ((r <? upscale_mutex.insert_ratio config)%D = false ->
         (r <? upscale_mutex.insert_ratio config + upscale_mutex.find_ratio config)%D = false ->
        op = OP_UPDATE
        /\ upscale_mutex.insert_count config' = upscale_mutex.insert_count config
        /\ upscale_mutex.find_count config' = upscale_mutex.find_count config
        /\ upscale_mutex.update_count config' = ull (upscale_mutex.update_count config + 1)))
  /\ (forall (config : upscale_fairness_test.thread_config_t D)
            (w : world upscale_fairness_test.hierarchy_t),
     let draw := rand_src w (rand_pos w) in
     let r := (of_int draw / of_int RAND_MAX)%D in
     let op := upscale_fairness_test.select_operation config draw in
     let config' := fst (upscale_fairness_test.worker_iteration config w) in
     ((r <? upscale_fairness_test.insert_ratio config)%D = true ->
        op = OP_INSERT
        /\ upscale_fairness_test.insert_count config'
           = ull (upscale_fairness_test.insert_count config + 1)
        /\ upscale_fairness_test.find_count config' = upscale_fairness_test.find_count config
        /\ upscale_fairness_test.update_count config'
           = upscale_fairness_test.update_count config)
     /\ ((r <? upscale_fairness_test.insert_ratio config)%D = false ->
         (r <? upscale_fairness_test.insert_ratio config
               + upscale_fairness_test.find_ratio config)%D = true ->
        op = OP_FIND
        /\ upscale_fairness_test.insert_count config'
           = upscale_fairness_test.insert_count config
        /\ upscale_fairness_test.find_count config'
           = ull (upscale_fairness_test.find_count config + 1)
        /\ upscale_fairness_test.update_count config'
           = upscale_fairness_test.update_count config)
     /\ ((r <? upscale_fairness_test.insert_ratio config)%D = false ->
         (r <? upscale_fairness_test.insert_ratio config
               + upscale_fairness_test.find_ratio config)%D = false ->
        op = OP_UPDATE
        /\ upscale_fairness_test.insert_count config'
           = upscale_fairness_test.insert_count config
        /\ upscale_fairness_test.find_count config' = upscale_fairness_test.find_count config
        /\ upscale_fairness_test.update_count config'
           = ull (upscale_fairness_test.update_count config + 1))).
Proof.
  split; intros config w draw r op config'.
  - destruct (MutexWorker.mutex_iteration_counts config w) as (Ci & Cf & Cu & _).
    cbv zeta in Ci, Cf, Cu. fold draw in Ci, Cf, Cu. fold config' in Ci, Cf, Cu.
    fold op in Ci, Cf, Cu.
    assert (Hop : op = if (r <? upscale_mutex.insert_ratio config)%D then OP_INSERT
                       else if (r <? upscale_mutex.insert_ratio config
                                     + upscale_mutex.find_ratio config)%D then OP_FIND
                       else OP_UPDATE) by reflexivity.
    split; [|split].
    + intros H. rewrite H in Hop. rewrite Hop in *. auto.
    + intros H1 H2. rewrite H1, H2 in Hop. rewrite Hop in *. auto.
    + intros H1 H2. rewrite H1, H2 in Hop. rewrite Hop in *. auto.
  - destruct (FairnessWorker.worker_iteration_counts config w) as (Ci & Cf & Cu & _).
    cbv zeta in Ci, Cf, Cu. fold draw in Ci, Cf, Cu. fold config' in Ci, Cf, Cu.
    fold op in Ci, Cf, Cu.
    assert (Hop : op = if (r <? upscale_fairness_test.insert_ratio config)%D then OP_INSERT
                       else if (r <? upscale_fairness_test.insert_ratio config
                                     + upscale_fairness_test.find_ratio config)%D then OP_FIND
                       else OP_UPDATE) by reflexivity.
    split; [|split].
    + intros H. rewrite H in Hop. rewrite Hop in *. auto.
    + intros H1 H2. rewrite H1, H2 in Hop. rewrite Hop in *. auto.
    + intros H1 H2. rewrite H1, H2 in Hop. rewrite Hop in *. auto.
Qed.

(** The first pass of thread 0 of a run of [upscale_fairness_test] with
    the default mix, in binary64, on the draw 0: an insert. *)
Lemma operation_selection_witness :
  let config := fairness_joined (D:=float) 0 0 in
  ((of_int (rand_src fairness_start (rand_pos fairness_start)) / of_int RAND_MAX
    <? upscale_fairness_test.insert_ratio config)%D = true)
  /\ upscale_fairness_test.select_operation config
       (rand_src fairness_start (rand_pos fairness_start)) = OP_INSERT
  /\ upscale_fairness_test.insert_count
       (fst (upscale_fairness_test.worker_iteration config fairness_start)) = ull (0 + 1).
Proof.
  intros config.
  assert (H : (of_int (rand_src fairness_start (rand_pos fairness_start)) / of_int RAND_MAX
               <? upscale_fairness_test.insert_ratio config)%D = true)
    by (vm_compute; reflexivity).
  split; [exact H|].
  destruct (proj1 (proj2 (operation_selection float F64_double) config fairness_start) H)
    as (Hop & Hc & _).
  split; [exact Hop | exact Hc].
Defined.

(** The selection in binary64.  Default mix 0.3 / 0.6: the draws 0,
    [RAND_MAX / 2] and [RAND_MAX] give an insert, a find and an update.
    Mix 0.8 / 0.2: the draw [RAND_MAX] gives an update, the sum of the
    two ratios being rounded to 1.0. *)
Lemma operation_selection_binary64 :
  upscale_fairness_test.select_operation (fairness_joined (D:=float) 0 0) 0 = OP_INSERT
  /\ upscale_fairness_test.select_operation (fairness_joined (D:=float) 0 0)
       (Z.quot RAND_MAX 2) = OP_FIND
  /\ upscale_fairness_test.select_operation (fairness_joined (D:=float) 0 0)
       RAND_MAX = OP_UPDATE
  /\ upscale_mutex.select_operation (mutex_joined (D:=float) 0 0) 0 = OP_INSERT
  /\ upscale_mutex.select_operation (mutex_joined (D:=float) 0 0)
       (Z.quot RAND_MAX 2) = OP_FIND
  /\ upscale_mutex.select_operation (mutex_joined (D:=float) 0 0) RAND_MAX = OP_UPDATE
  /\ (forall t, In t (upscale_mutex.main_threads (boundary_mix_mutex (D:=float))) ->
        upscale_mutex.select_operation t RAND_MAX = OP_UPDATE)
  /\ (forall t, In t (upscale_fairness_test.main_threads (boundary_mix_fairness (D:=float))) ->
        upscale_fairness_test.select_operation t RAND_MAX = OP_UPDATE).
Proof.
  repeat split; try (vm_compute; reflexivity).
  - intros t Ht. unfold upscale_mutex.select_operation.
    destruct (RatioFacts.mutex_thread_ratios _ t Ht) as (-> & -> & _).
    vm_compute. reflexivity.
  - intros t Ht. unfold upscale_fairness_test.select_operation.
    destruct (RatioFacts.fairness_thread_ratios _ t Ht) as (-> & -> & _).
    vm_compute. reflexivity.
Qed.

(** C9, evaluated on the code.  With no key generated yet
    ([next_key_id <= 1]) the finds and updates of both programs return a
    zero duration without calling the store, and the loop counts the
    operation.  [perform_update] of both programs and [perform_find] of
    [upscale_mutex] leave the log as it is; [perform_find] of
    [upscale_fairness_test] first prints an "Error:" line. *)
Theorem empty_keyspace_operations
  (cm : upscale_mutex.thread_config_t Q) (wm : world upscale_mutex.mutex_globals)
  (cf : upscale_fairness_test.thread_config_t Q)
  (wf : world upscale_fairness_test.hierarchy_t) :
  next_key_id wm <= 1 -> next_key_id wf <= 1 ->
  (upscale_mutex.perform_find cm wm = (0, snd (rdtsc wm))
   /\ upscale_mutex.perform_update cm wm = (0, snd (rdtsc wm))
   /\ upscale_fairness_test.perform_update cf wf = (0, snd (rdtsc wf)))
  /\ (upscale_fairness_test.perform_find cf wf
      = (0, snd (printf "Error: No keys available for find operation\n" (snd (rdtsc wf))))
      /\ log (snd (upscale_fairness_test.perform_find cf wf))
         = log wf ++ [Printf "Error: No keys available for find operation\n"])
  /\ (let op := upscale_mutex.select_operation cm (rand_src wm (rand_pos wm)) in
      let r := upscale_mutex.worker_iteration cm wm in
      (op = OP_FIND ->
         upscale_mutex.find_count (fst r) = ull (upscale_mutex.find_count cm + 1)
         /\ upscale_mutex.find_time (fst r) = ull (upscale_mutex.find_time cm + 0))
      /\ (op = OP_UPDATE ->
         upscale_mutex.update_count (fst r) = ull (upscale_mutex.update_count cm + 1)
         /\ upscale_mutex.update_time (fst r) = ull (upscale_mutex.update_time cm + 0))
      /\ upscale_mutex.total_operations (fst r)
         = ull (upscale_mutex.total_operations cm + 1))
  /\ (let op := upscale_fairness_test.select_operation cf (rand_src wf (rand_pos wf)) in
      let r := upscale_fairness_test.worker_iteration cf wf in
      (op = OP_FIND ->
         upscale_fairness_test.find_count (fst r)
           = ull (upscale_fairness_test.find_count cf + 1)
         /\ upscale_fairness_test.find_time (fst r)
           = ull (upscale_fairness_test.find_time cf + 0))
      /\ (op = OP_UPDATE ->
         upscale_fairness_test.update_count (fst r)
           = ull (upscale_fairness_test.update_count cf + 1)
         /\ upscale_fairness_test.update_time (fst r)
           = ull (upscale_fairness_test.update_time cf + 0))
      /\ upscale_fairness_test.total_operations (fst r)
         = ull (upscale_fairness_test.total_operations cf + 1)).
Proof.
  intros Hm Hf.
  assert (Hm' : (next_key_id wm <=? 1) = true) by (apply Z.leb_le; exact Hm).
  assert (Hf' : (next_key_id wf <=? 1) = true) by (apply Z.leb_le; exact Hf).
  split; [|split; [|split]].
  - unfold upscale_mutex.perform_find, upscale_mutex.perform_update,
      upscale_fairness_test.perform_update. cbv zeta. run_bind.
    cbn [fst snd rdtsc get_next_key next_key_id]. rewrite Hm', Hf'.
    repeat split.
  - unfold upscale_fairness_test.perform_find. cbv zeta. run_bind.
    cbn [fst snd rdtsc get_next_key next_key_id]. rewrite Hf'.
    split; reflexivity.
  - apply MutexWorker.mutex_iteration_empty. exact Hm.
  - apply EmptyKeyspace.fairness_iteration_empty. exact Hf.
Qed.

(** A pure-find worker of [upscale_fairness_test] at the start of a run. *)
Lemma empty_keyspace_witness :
  next_key_id mutex_start <= 1 /\ next_key_id fairness_start <= 1
  /\ log (snd (upscale_fairness_test.perform_find (fairness_joined (D:=Q) 0 0) fairness_start))
     = [Printf "Error: No keys available for find operation\n"]
  /\ log (snd (upscale_mutex.perform_find (mutex_joined (D:=Q) 0 0) mutex_start)) = [].
Proof.
  assert (H1 : next_key_id mutex_start <= 1) by (simpl; lia).
  assert (H2 : next_key_id fairness_start <= 1) by (simpl; lia).
  split; [exact H1|]. split; [exact H2|].
  destruct (empty_keyspace_operations (mutex_joined 0 0) mutex_start
              (fairness_joined 0 0) fairness_start H1 H2)
    as ((Hmf & _ & _) & (_ & Hlog) & _).
  split; [exact Hlog|]. rewrite Hmf. reflexivity.
Defined.

(** C10, as the code has it.  For the records a run leaves (each
    thread's lock acquisitions equal to its operations) with no
    operation performed, [print_fairness_stats] reports the Fairness
    Index 0 and "N/A" for the Throughput Variation; its metrics block
    divides once, by the thread count; the function as a whole divides
    by zero exactly when [duration] is 0. *)
Theorem zero_total_report
  (threads : list (upscale_fairness_test.thread_config_t Q)) (duration : Z) :
  let n := Z.of_nat (length threads) in
  let r := upscale_fairness_test.print_fairness_stats threads n duration in
  threads <> [] ->
  Forall (fun t => upscale_fairness_test.total_operations t = 0) threads ->
  Forall (fun t => upscale_fairness_test.lock_acquisitions t
                   = upscale_fairness_test.total_operations t) threads ->
  upscale_fairness_test.fairness_index (fst r) = 0%Q
  /\ upscale_fairness_test.throughput_variation (fst r) = None
  /\ snd (upscale_fairness_test.fairness_metrics threads n 0) = [FDiv (inject_Z n)]
  /\ Forall nonzero_divisor (snd (upscale_fairness_test.fairness_metrics threads n 0))
  /\ (duration <> 0 -> Forall nonzero_divisor (snd r))
  /\ (duration = 0 -> ~ Forall nonzero_divisor (snd r)).
Proof.
  intros n r Hne Hzero Hacq.
  assert (Hn : 0 < n) by (subst n; destruct threads; [congruence | simpl; lia]).
  assert (Hsum : sumZ (map upscale_fairness_test.total_operations threads) = 0).
  { apply ZeroTotal.sumZ_zero. apply Forall_map. exact Hzero. }
  assert (HT : 0 <= sumZ (map upscale_fairness_test.total_operations threads) < ULL_MOD)
    by (rewrite Hsum; unfold ULL_MOD; lia).
  destruct (FairnessFacts.fairness_index_Q threads duration HT) as [Hix Hvar].
  fold n in Hix, Hvar. fold r in Hix, Hvar. rewrite Hsum in Hix, Hvar.
  cbn [Z.ltb Z.compare] in Hix.
  assert (Havg : Qltb 0 (inject_Z 0 / inject_Z n) = false).
  { apply not_true_iff_false. rewrite Qltb_lt. unfold Qdiv. rewrite Qmult_0_l.
    apply Qlt_irrefl. }
  rewrite Havg in Hvar.
  assert (Hm : snd (upscale_fairness_test.fairness_metrics threads n 0) = [FDiv (inject_Z n)]).
  { subst n. rewrite FairnessFacts.fairness_metrics_Q. cbn [snd Z.ltb Z.compare]. rewrite Havg.
    reflexivity. }
  destruct (FairnessFacts.print_fairness_stats_split threads n duration) as (_ & _ & _ & Hlog).
  fold r in Hlog. unfold n in Hlog. rewrite FairnessFacts.fairness_slots_all in Hlog.
  rewrite wrap_sum_exact in Hlog by exact HT. rewrite Hsum in Hlog. fold n in Hlog.
  rewrite Hm in Hlog.
  assert (Hrow : forall acc t, In t threads ->
            snd (upscale_fairness_test.table_step duration acc t)
            = [FDiv (inject_Z duration); FDiv (inject_Z (CYCLE_PER_US * 1000))]).
  { intros acc t Hin. apply ZeroTotal.idle_row_divisors.
    rewrite List.Forall_forall in Hzero, Hacq. rewrite (Hacq t Hin). apply Hzero, Hin. }
  split; [exact Hix|]. split; [exact Hvar|]. split; [exact Hm|].
  split; [rewrite Hm; repeat constructor; apply ZeroTotal.inject_Z_nonzero; lia|].
  split.
  - intros Hd. rewrite Hlog. apply Forall_app. split.
    + apply FairnessFacts.table_fold_divisors.
      intros t acc Hin. rewrite (Hrow acc t Hin).
      repeat constructor; apply ZeroTotal.inject_Z_nonzero; [exact Hd | discriminate].
    + repeat constructor; apply ZeroTotal.inject_Z_nonzero; [exact Hd | discriminate | lia].
  - intros -> HF. rewrite Hlog in HF. apply Forall_app in HF. destruct HF as [_ HF].
    inversion HF as [|d l Hd _]. apply Hd. reflexivity.
Qed.

Lemma zero_total_witness :
  let threads := fairness_run (D:=Q) [0; 0; 0; 0] in
  Forall (fun t => upscale_fairness_test.total_operations t = 0) threads
  /\ upscale_fairness_test.fairness_index
       (fst (upscale_fairness_test.print_fairness_stats threads 4 10)) = 0%Q
  /\ upscale_fairness_test.throughput_variation
       (fst (upscale_fairness_test.print_fairness_stats threads 4 10)) = None
  /\ Forall nonzero_divisor (snd (upscale_fairness_test.print_fairness_stats threads 4 10)).
Proof.
  intros threads.
  assert (H0 : threads <> []) by discriminate.
  assert (H1 : Forall (fun t => upscale_fairness_test.total_operations t = 0) threads)
    by (repeat constructor).
  assert (H2 : Forall (fun t => upscale_fairness_test.lock_acquisitions t
                                = upscale_fairness_test.total_operations t) threads)
    by (repeat constructor).
  destruct (zero_total_report threads 10 H0 H1 H2) as (Hi & Hv & _ & _ & Hd & _).
  split; [exact H1|]. split; [exact Hi|]. split; [exact Hv|].
  apply Hd. discriminate.
Defined.

(** C10, as stated, fails: on two idle threads and a duration of 0 the
    report has the index 0 and "N/A", and the function divides by zero;
    in binary64 the rate of the first table row is then not a number. *)
Lemma zero_total_counterexample :
  let threads := fairness_run (D:=Q) [0; 0] in
  let r := upscale_fairness_test.print_fairness_stats threads 2 0 in
  Forall (fun t => upscale_fairness_test.total_operations t = 0) threads
  /\ upscale_fairness_test.fairness_index (fst r) = 0%Q
  /\ upscale_fairness_test.throughput_variation (fst r) = None
  /\ ~ Forall nonzero_divisor (snd r)
  /\ (exists row rest,
        upscale_fairness_test.table
          (fst (upscale_fairness_test.print_fairness_stats
                  (fairness_run (D:=float) [0; 0]) 2 0)) = row :: rest
        /\ PrimFloat.is_nan (upscale_fairness_test.ops_per_sec row) = true).
Proof.
  intros threads r.
  split; [repeat constructor|]. split; [reflexivity|]. split; [reflexivity|].
  split.
  - intros H. vm_compute in H. inversion H as [|d l Hd _]. apply Hd. reflexivity.
  - eexists. eexists. split; [vm_compute; reflexivity|]. vm_compute. reflexivity.
Qed.
(** ** Keys *)

Module KeyFacts.

Lemma digits_value_cons (d : Z) (ds : list Z) :
  digits_value (d :: ds) = d + 10 * digits_value ds.
Proof. reflexivity. Qed.

Lemma low_digits_spec (fuel : nat) (n : Z) :
  0 <= n < 10 ^ Z.of_nat fuel ->
  digits_value (low_digits fuel n) = n
  /\ (length (low_digits fuel n) <= fuel)%nat
  /\ (fuel <> 0%nat -> low_digits fuel n <> []).
Proof.
  revert n. induction fuel as [|fuel IH]; intros n Hn.
  - change (10 ^ Z.of_nat 0) with 1 in Hn. assert (n = 0) as -> by lia.
    cbn. split; [reflexivity|]. split; [lia|]. intros H. elim H. reflexivity.
  - cbn [low_digits]. destruct (Z.ltb_spec n 10) as [H10|H10].
    + cbn. split; [lia|]. split; [lia|]. discriminate.
    + rewrite Nat2Z.inj_succ, Z.pow_succ_r in Hn by lia.
      assert (Hq : 0 <= Z.quot n 10 < 10 ^ Z.of_nat fuel).
      { rewrite Z.quot_div_nonneg by lia. split.
        - apply Z.div_pos; lia.
        - apply Z.div_lt_upper_bound; lia. }
      destruct (IH _ Hq) as (Hv & Hl & _).
      rewrite digits_value_cons, Hv. split.
      * pose proof (Z.quot_rem' n 10). lia.
      * split; [cbn [length]; lia | discriminate].
Qed.

Lemma digits_value_zeros (ds : list Z) (k : nat) :
  digits_value (ds ++ replicate k 0) = digits_value ds.
Proof.
  induction ds as [|d ds IH]; cbn [app].
  - induction k as [|k IHk]; [reflexivity|].
    cbn [replicate]. rewrite digits_value_cons, IHk. reflexivity.
  - rewrite !digits_value_cons, IH. reflexivity.
Qed.

Lemma padded_digits_length (w : nat) (n : Z) :
  length (padded_digits w n) = Nat.max w (length (low_digits 10 n)).
Proof.
  unfold padded_digits. rewrite length_map, length_rev, length_app, length_replicate. lia.
Qed.

Lemma padded_digits_inj (w1 w2 : nat) (n1 n2 : Z) :
  0 <= n1 < 10 ^ 10 -> 0 <= n2 < 10 ^ 10 ->
  padded_digits w1 n1 = padded_digits w2 n2 -> n1 = n2.
Proof.
  intros H1 H2 He. unfold padded_digits in He.
  apply (f_equal (map (fun c => c - 48))) in He.
  rewrite !map_map in He.
  rewrite (map_ext _ (fun d => d)), (map_ext (fun x => 48 + x - 48) (fun d => d)) in He
    by (intros; lia).
  rewrite !map_id in He.
  apply (f_equal (@rev Z)) in He. rewrite !rev_involutive in He.
  apply (f_equal digits_value) in He. rewrite !digits_value_zeros in He.
  destruct (low_digits_spec 10 n1 H1) as (E1 & _).
  destruct (low_digits_spec 10 n2 H2) as (E2 & _).
  congruence.
Qed.

Lemma zero_padded_nonneg (w : nat) (v : Z) : 0 <= v -> zero_padded w v = padded_digits w v.
Proof. intros H. unfold zero_padded. destruct (Z.ltb_spec v 0); [lia|reflexivity]. Qed.

Lemma thread_part_length (t : Z) : 0 <= t < 100 -> length (padded_digits 2 t) = 2%nat.
Proof.
  intros H. rewrite padded_digits_length.
  assert (length (low_digits 10 t) <= 2)%nat; [|lia].
  cbn [low_digits]. destruct (Z.ltb_spec t 10); [cbn; lia|].
  destruct (Z.ltb_spec (Z.quot t 10) 10) as [|H10]; [cbn; lia|].
  rewrite Z.quot_div_nonneg in H10 by lia.
  assert (t / 10 < 10) by (apply Z.div_lt_upper_bound; lia). lia.
Qed.

Lemma key_part_length (k : Z) :
  0 <= k < 2 ^ 31 -> (8 <= length (padded_digits 8 k) <= 10)%nat.
Proof.
  intros H. rewrite padded_digits_length.
  assert (H10 : 0 <= k < 10 ^ Z.of_nat 10) by (change (10 ^ Z.of_nat 10) with 10000000000; lia).
  destruct (low_digits_spec 10 k H10) as (_ & Hl & _). lia.
Qed.

Lemma short_key_part_length (k : Z) :
  0 <= k < 10 ^ 8 -> length (padded_digits 8 k) = 8%nat.
Proof.
  intros H. rewrite padded_digits_length.
  assert (length (low_digits 10 k) <= 8)%nat; [|lia].
  assert (Hgen : forall fuel extra n, 0 <= n < 10 ^ Z.of_nat (S fuel) ->
                   (length (low_digits (S fuel + extra) n) <= S fuel)%nat).
  { induction fuel as [|fuel IH]; intros extra n Hn.
    - change (10 ^ Z.of_nat 1) with 10 in Hn. cbn [Nat.add low_digits].
      destruct (Z.ltb_spec n 10); [cbn; lia | lia].
    - cbn [Nat.add low_digits]. destruct (Z.ltb_spec n 10); [cbn; lia|].
      cbn [length]. apply le_n_S, (IH extra).
      rewrite Nat2Z.inj_succ, Z.pow_succ_r in Hn by lia.
      rewrite Z.quot_div_nonneg by lia. split.
      + apply Z.div_pos; lia.
      + apply Z.div_lt_upper_bound; lia. }
  apply (Hgen 7%nat 2%nat). exact H.
Qed.

End KeyFacts.

(** X1.  The key of thread [t] (below 100) and key id [k] (any
    non-negative [int]) fits the buffer of [KEY_SIZE] bytes without
    truncation: it has between 13 and 15 characters, 13 while
    [k < 10^8]; and two such keys are equal only if both the thread and
    the key id are. *)
Theorem generate_key_distinct (t1 k1 t2 k2 : Z) :
  0 <= t1 < 100 -> 0 <= t2 < 100 -> 0 <= k1 < 2 ^ 31 -> 0 <= k2 < 2 ^ 31 ->
  generate_key t1 k1 = [84] ++ zero_padded 2 t1 ++ [95; 75] ++ zero_padded 8 k1
  /\ 13 <= Z.of_nat (length (generate_key t1 k1)) <= KEY_SIZE - 1
  /\ (k1 < 10 ^ 8 -> Z.of_nat (length (generate_key t1 k1)) = 13)
  /\ (generate_key t1 k1 = generate_key t2 k2 -> t1 = t2 /\ k1 = k2).
Proof.
  intros Ht1 Ht2 Hk1 Hk2.
  assert (Hfull : forall t k, 0 <= t < 100 -> 0 <= k < 2 ^ 31 ->
            generate_key t k = [84] ++ padded_digits 2 t ++ [95; 75] ++ padded_digits 8 k).
  { intros t k Ht Hk. unfold generate_key.
    rewrite !KeyFacts.zero_padded_nonneg by lia.
    apply firstn_all2. rewrite !length_app, KeyFacts.thread_part_length by exact Ht.
    pose proof (KeyFacts.key_part_length k Hk). cbn [length]. unfold KEY_SIZE. lia. }
  assert (Hlen : forall t k, 0 <= t < 100 -> 0 <= k < 2 ^ 31 ->
            length (generate_key t k) = (5 + length (padded_digits 8 k))%nat).
  { intros t k Ht Hk. rewrite Hfull by assumption.
    rewrite !length_app, KeyFacts.thread_part_length by exact Ht. reflexivity. }
  split; [|split; [|split]].
  - rewrite Hfull by assumption. rewrite !KeyFacts.zero_padded_nonneg by lia. reflexivity.
  - rewrite Hlen by assumption. pose proof (KeyFacts.key_part_length k1 Hk1).
    unfold KEY_SIZE. lia.
  - intros H8. rewrite Hlen by assumption.
    rewrite KeyFacts.short_key_part_length by lia. reflexivity.
  - rewrite !Hfull by assumption. intros He.
    injection He as He.
    apply app_inj_1 in He
      as [Ht He]; [|rewrite !KeyFacts.thread_part_length by assumption; reflexivity].
    injection He as He.
    assert (B : 2 ^ 31 < 10 ^ 10) by reflexivity.
    split.
    + apply (KeyFacts.padded_digits_inj 2 2); [lia | lia | exact Ht].
    + apply (KeyFacts.padded_digits_inj 8 8); [lia | lia | exact He].
Qed.

Lemma generate_key_distinct_witness :
  generate_key 3 41 = [84; 48; 51; 95; 75; 48; 48; 48; 48; 48; 48; 52; 49]
  /\ (generate_key 3 41 = generate_key 3 41 -> 3 = 3 /\ 41 = 41).
Proof.
  assert (H3 : 0 <= 3 < 100) by lia.
  assert (H41 : 0 <= 41 < 2 ^ 31) by lia.
  split; [reflexivity|].
  exact (proj2 (proj2 (proj2 (generate_key_distinct 3 41 3 41 H3 H3 H41 H41)))).
Defined.

(** ** Record data *)

Module DataFacts.
Section Generic.
Context {G : Type}.

(** The loop of [generate_data]: draw after draw, one letter each. *)
Lemma generate_letters_spec (n : nat) (acc : list Z) (w : world G) :
  let r := generate_letters n acc w in
  fst r = acc ++ map (fun k => 65 + Z.rem (rand_src w (rand_pos w + k)%nat) 26) (seq 0 n)
  /\ rand_pos (snd r) = (rand_pos w + n)%nat
  /\ rand_src (snd r) = rand_src w
  /\ globals (snd r) = globals w /\ next_key_id (snd r) = next_key_id w
  /\ global_stop (snd r) = global_stop w
  /\ tsc_pos (snd r) = tsc_pos w /\ tsc_src (snd r) = tsc_src w
  /\ ext_pos (snd r) = ext_pos w /\ ext_src (snd r) = ext_src w
  /\ log (snd r) = log w.
Proof.
  revert acc w. induction n as [|n IH]; intros acc w.
  - cbn. rewrite app_nil_r, Nat.add_0_r. repeat split.
  - cbn [generate_letters]. rewrite bind_run.
    specialize (IH (acc ++ [65 + Z.rem (fst (rand w)) 26]) (snd (rand w))).
    cbv zeta in IH |- *. destruct IH as (H1 & H2 & H3 & H4 & H5 & H6 & H7 & H8 & H9 & H10 & H11).
    cbn [rand fst snd rand_pos rand_src globals next_key_id global_stop tsc_pos tsc_src
         ext_pos ext_src log] in *.
    rewrite H1, H2, H3, H4, H5, H6, H7, H8, H9, H10, H11.
    split; [|repeat split; lia].
    rewrite <- app_assoc. f_equal. cbn [seq map app]. rewrite Nat.add_0_r. f_equal.
    rewrite <- seq_shift, map_map. apply map_ext. intros k.
    rewrite Nat.add_succ_r. reflexivity.
Qed.

End Generic.
End DataFacts.

(** X2.  For [size >= 1] and a [rand()] that returns non-negative
    values, [generate_data] fills exactly [size] bytes: byte [i] below
    [size - 1] is the upper-case letter ['A' + (draw i) % 26], never a
    NUL, and the last byte is the terminating NUL, so that
    [strlen(data) = size - 1].  It takes [size - 1] draws, prints
    nothing and leaves [next_key_id] alone. *)
Theorem generate_data_bytes {G : Type} (size : Z) (w : world G) :
  1 <= size ->
  (forall k, 0 <= rand_src w k) ->
  let r := generate_data size w in
  Z.of_nat (length (fst r)) = size
  /\ (forall i, 0 <= i < size - 1 ->
        exists c, fst r !! Z.to_nat i = Some c /\ 65 <= c <= 90
                  /\ c = 65 + rand_src w (rand_pos w + Z.to_nat i)%nat mod 26)
  /\ fst r !! Z.to_nat (size - 1) = Some 0
  /\ rand_pos (snd r) = (rand_pos w + Z.to_nat (size - 1))%nat
  /\ log (snd r) = log w
  /\ next_key_id (snd r) = next_key_id w.
Proof.
  intros Hsize Hrand r. subst r. unfold generate_data. rewrite bind_run.
  destruct (DataFacts.generate_letters_spec (Z.to_nat (size - 1)) [] w)
    as (H1 & H2 & _ & _ & H5 & _ & _ & _ & _ & _ & H11).
  cbv zeta in H1, H2, H5, H11. cbn [ret fst snd]. rewrite H1, H2, H5, H11. cbn [app].
  split; [|split; [|split; [|repeat split]]].
  - rewrite length_app, length_map, length_seq. cbn [length]. lia.
  - intros i Hi. eexists. split.
    + rewrite lookup_app_l by (rewrite length_map, length_seq; lia).
      rewrite lookup_map. rewrite lookup_seq_lt by lia. reflexivity.
    + cbn [Nat.add]. pose proof (Hrand (rand_pos w + Z.to_nat i)%nat) as H0.
      rewrite Z.rem_mod_nonneg by lia.
      pose proof (Z.mod_pos_bound (rand_src w (rand_pos w + Z.to_nat i)%nat) 26). lia.
  - rewrite lookup_app_r by (rewrite length_map, length_seq; lia).
    rewrite length_map, length_seq, Nat.sub_diag. reflexivity.
Qed.

(** The 256 bytes of a record on draws that are all 0: 255 times 'A',
    then NUL. *)
Lemma generate_data_bytes_witness :
  Z.of_nat (length (fst (generate_data DATA_SIZE mutex_start))) = DATA_SIZE
  /\ fst (generate_data DATA_SIZE mutex_start) !! 0%nat = Some 65
  /\ fst (generate_data DATA_SIZE mutex_start) !! 255%nat = Some 0.
Proof.
  assert (Hsize : 1 <= DATA_SIZE) by (unfold DATA_SIZE; lia).
  assert (Hrand : forall k, 0 <= rand_src mutex_start k) by (intros k; cbn; unfold all_zero; lia).
  destruct (generate_data_bytes DATA_SIZE mutex_start Hsize Hrand) as (Hl & _ & Hz & _).
  split; [exact Hl|]. split; [reflexivity | exact Hz].
Defined.
(** ** Store operations *)

Module OpFacts.

Lemma fresh_inserts_app (l1 l2 : list event) :
  fresh_inserts (l1 ++ l2) = fresh_inserts l1 ++ fresh_inserts l2.
Proof. unfold fresh_inserts. apply flat_map_app. Qed.

Section Generic.
Context {G : Type}.

Lemma generate_data_effect (size : Z) (w : world G) :
  let r := generate_data size w in
  rand_pos (snd r) = (rand_pos w + Z.to_nat (size - 1))%nat
  /\ rand_src (snd r) = rand_src w
  /\ globals (snd r) = globals w /\ next_key_id (snd r) = next_key_id w
  /\ global_stop (snd r) = global_stop w
  /\ tsc_pos (snd r) = tsc_pos w /\ tsc_src (snd r) = tsc_src w
  /\ ext_pos (snd r) = ext_pos w /\ ext_src (snd r) = ext_src w
  /\ log (snd r) = log w.
Proof.
  intros r. subst r. unfold generate_data. rewrite bind_run. cbn [ret snd].
  destruct (DataFacts.generate_letters_spec (Z.to_nat (size - 1)) [] w) as (_ & H).
  exact H.
Qed.

(** What [perform_insert] does: one insert without [UPS_OVERWRITE],
    under the caller's thread id and the key id it takes from the
    counter, and a line printed only for a status other than
    [UPS_SUCCESS] and [UPS_DUPLICATE_KEY]. *)
Lemma perform_insert_effect (thread_id : Z) (w : world G) :
  let r := perform_insert thread_id w in
  let st := ext_src w (ext_pos w) in
  exists data,
    log (snd r)
    = log w ++ StoreInsert thread_id (next_key_id w) data false
               :: (if negb (st =? UPS_SUCCESS) && negb (st =? UPS_DUPLICATE_KEY)
                   then [Printf "Thread %d: Insert failed with status %d\n"] else [])
    /\ next_key_id (snd r) = int32 (next_key_id w + 1)
    /\ globals (snd r) = globals w
    /\ global_stop (snd r) = global_stop w
    /\ rand_src (snd r) = rand_src w
    /\ ext_src (snd r) = ext_src w /\ ext_pos (snd r) = S (ext_pos w).
Proof.
  intros r st. subst r. unfold perform_insert, get_next_key_id. run_bind. frame.
  match goal with
  | |- context [generate_data ?s ?w0] =>
      destruct (generate_data_effect s w0) as (H1 & H2 & H3 & H4 & H5 & _ & _ & H8 & H9 & H10);
      cbv zeta in H1, H2, H3, H4, H5, H8, H9, H10;
      exists (fst (generate_data s w0))
  end.
  repeat (frame; rewrite ?H10, ?H2, ?H3, ?H4, ?H5, ?H8, ?H9).
  fold st.
  destruct (negb (st =? UPS_SUCCESS) && negb (st =? UPS_DUPLICATE_KEY));
    repeat (frame; rewrite ?H10, ?H2, ?H3, ?H4, ?H5, ?H8, ?H9);
    rewrite <- ?app_assoc; repeat split.
Qed.

End Generic.
End OpFacts.

(** ** Finds and updates *)

Module LookupFacts.

(** The key id and the thread part a find or an update draws. *)
Lemma drawn_key_bounds (k r1 r2 : Z) :
  1 < k < 2 ^ 31 -> 0 <= r1 -> 0 <= r2 ->
  1 <= int32 (1 + Z.rem r1 (int32 (k - 1))) < k
  /\ 0 <= Z.rem r2 MAX_THREADS < MAX_THREADS.
Proof.
  intros Hk H1 H2.
  rewrite (HierarchyFacts.int32_small (k - 1)) by lia.
  rewrite Z.rem_mod_nonneg by lia.
  pose proof (Z.mod_pos_bound r1 (k - 1)).
  rewrite HierarchyFacts.int32_small by lia.
  unfold MAX_THREADS. rewrite Z.rem_mod_nonneg by lia.
  pose proof (Z.mod_pos_bound r2 16). lia.
Qed.

Section Generic.
Context {D : Type} {DO : DoubleOps D}.

Lemma mutex_perform_find_log (config : upscale_mutex.thread_config_t D)
  (w : world upscale_mutex.mutex_globals) :
  1 < next_key_id w ->
  let r := upscale_mutex.perform_find config w in
  log (snd r)
  = log w ++ [StoreFind (Z.rem (rand_src w (S (rand_pos w))) MAX_THREADS)
                        (int32 (1 + Z.rem (rand_src w (rand_pos w))
                                          (int32 (next_key_id w - 1))))]
  /\ next_key_id (snd r) = next_key_id w
  /\ globals (snd r) = globals w.
Proof.
  intros Hk r. subst r. unfold upscale_mutex.perform_find. run_bind. frame.
  destruct (Z.leb_spec (next_key_id w) 1); [lia|].
  run_bind. frame. repeat split.
Qed.

Lemma fairness_perform_find_log (config : upscale_fairness_test.thread_config_t D)
  (w : world upscale_fairness_test.hierarchy_t) :
  1 < next_key_id w ->
  let r := upscale_fairness_test.perform_find config w in
  let st := ext_src w (ext_pos w) in
  log (snd r)
  = log w ++ StoreFind (Z.rem (rand_src w (S (rand_pos w))) MAX_THREADS)
                       (int32 (1 + Z.rem (rand_src w (rand_pos w))
                                         (int32 (next_key_id w - 1))))
             :: (if negb (st =? UPS_SUCCESS) && negb (st =? UPS_KEY_NOT_FOUND)
                 then [Printf "Thread %d: Find failed with status %d\n"] else [])
  /\ next_key_id (snd r) = next_key_id w
  /\ globals (snd r) = globals w.
Proof.
  intros Hk r st. subst r. unfold upscale_fairness_test.perform_find. run_bind. frame.
  destruct (Z.leb_spec (next_key_id w) 1); [lia|].
  run_bind. frame. fold st.
  destruct (negb (st =? UPS_SUCCESS) && negb (st =? UPS_KEY_NOT_FOUND));
    frame; rewrite <- ?app_assoc; repeat split.
Qed.

End Generic.
End LookupFacts.

(** X3.  With keys issued ([next_key_id > 1], below [2^31]) and a
    [rand()] that returns values in [0, RAND_MAX], [perform_find] of
    either program makes exactly one lookup: of a key whose thread part
    is in [0, MAX_THREADS) and whose key id is in [1, next_key_id), an
    id [get_next_key_id] has already handed out.  [upscale_mutex] adds
    nothing to the log beside it; [upscale_fairness_test] adds a line
    exactly when the status is neither [UPS_SUCCESS] nor
    [UPS_KEY_NOT_FOUND]. *)
Theorem find_looks_up_issued_key {D : Type} {DO : DoubleOps D}
  (cm : upscale_mutex.thread_config_t D) (wm : world upscale_mutex.mutex_globals)
  (cf : upscale_fairness_test.thread_config_t D)
  (wf : world upscale_fairness_test.hierarchy_t) :
  1 < next_key_id wm < 2 ^ 31 -> 1 < next_key_id wf < 2 ^ 31 ->
  (forall k, 0 <= rand_src wm k <= RAND_MAX) ->
  (forall k, 0 <= rand_src wf k <= RAND_MAX) ->
  (exists thread key_id,
     log (snd (upscale_mutex.perform_find cm wm)) = log wm ++ [StoreFind thread key_id]
     /\ 0 <= thread < MAX_THREADS /\ 1 <= key_id < next_key_id wm)
  /\ (exists thread key_id tail,
     log (snd (upscale_fairness_test.perform_find cf wf))
     = log wf ++ StoreFind thread key_id :: tail
     /\ 0 <= thread < MAX_THREADS /\ 1 <= key_id < next_key_id wf
     /\ Forall is_printf tail
     /\ (tail = [] <-> ext_src wf (ext_pos wf) = UPS_SUCCESS
                       \/ ext_src wf (ext_pos wf) = UPS_KEY_NOT_FOUND)).
Proof.
  intros Hkm Hkf Hrm Hrf. split.
  - destruct (LookupFacts.mutex_perform_find_log cm wm) as (Hl & _); [lia|].
    eexists. eexists. split; [exact Hl|].
    destruct (LookupFacts.drawn_key_bounds (next_key_id wm) (rand_src wm (rand_pos wm))
                (rand_src wm (S (rand_pos wm)))) as (H1 & H2);
      [lia | apply Hrm | apply Hrm |]. split; assumption.
  - destruct (LookupFacts.fairness_perform_find_log cf wf) as (Hl & _); [lia|].
    cbv zeta in Hl. eexists. eexists. eexists. split; [exact Hl|].
    destruct (LookupFacts.drawn_key_bounds (next_key_id wf) (rand_src wf (rand_pos wf))
                (rand_src wf (S (rand_pos wf)))) as (H1 & H2);
      [lia | apply Hrf | apply Hrf |].
    split; [exact H2|]. split; [exact H1|].
    unfold UPS_SUCCESS, UPS_KEY_NOT_FOUND.
    destruct (Z.eqb_spec (ext_src wf (ext_pos wf)) 0) as [E0|E0];
      destruct (Z.eqb_spec (ext_src wf (ext_pos wf)) (-11)) as [E1|E1];
      cbn [negb andb]; (split; [repeat constructor|]); split; intros H;
      try reflexivity; try discriminate; try tauto; lia.
Qed.

(** A find after the first insert of a run: the only key id it can look
    up is 1. *)
Lemma find_looks_up_issued_key_witness :
  let wm := snd (perform_insert 0 mutex_start) in
  let wf := snd (perform_insert 0 fairness_start) in
  (exists thread key_id,
     log (snd (upscale_mutex.perform_find (mutex_joined (D:=float) 0 0) wm))
     = log wm ++ [StoreFind thread key_id]
     /\ 0 <= thread < MAX_THREADS /\ 1 <= key_id < 2)
  /\ exists thread key_id tail,
       log (snd (upscale_fairness_test.perform_find (fairness_joined (D:=float) 0 0) wf))
       = log wf ++ StoreFind thread key_id :: tail
       /\ 0 <= thread < MAX_THREADS /\ 1 <= key_id < 2.
Proof.
  intros wm wf.
  assert (Hkm : 1 < next_key_id wm < 2 ^ 31) by (vm_compute; split; reflexivity).
  assert (Hkf : 1 < next_key_id wf < 2 ^ 31) by (vm_compute; split; reflexivity).
  assert (Hrm : forall k, 0 <= rand_src wm k <= RAND_MAX)
    by (intros k; vm_compute; split; discriminate).
  assert (Hrf : forall k, 0 <= rand_src wf k <= RAND_MAX)
    by (intros k; vm_compute; split; discriminate).
  destruct (find_looks_up_issued_key (mutex_joined 0 0) wm (fairness_joined 0 0) wf
              Hkm Hkf Hrm Hrf) as ((t & k & Hl & Ht & Hk) & t' & k' & tail & Hf & Ht' & Hk' & _).
  split.
  - exists t, k. split; [exact Hl|]. split; [exact Ht | exact Hk].
  - exists t', k', tail. split; [exact Hf|]. split; [exact Ht' | exact Hk'].
Defined.

(** Pushes the projections of the state through [generate_data] too. *)
Ltac frame_data :=
  frame;
  repeat match goal with
  | |- context [generate_data ?s ?w0] =>
      lazymatch goal with
      | H : log (snd (generate_data s w0)) = _ |- _ => fail
      | _ => idtac
      end;
      let H1 := fresh "Hd" in
      destruct (OpFacts.generate_data_effect s w0)
        as (H1 & ? & ? & ? & ? & _ & _ & ? & ? & ?);
      cbv zeta in *
  end;
  repeat (frame;
          repeat match goal with
                 | H : _ (snd (generate_data _ _)) = _ |- _ => rewrite H
                 end).

Module UpdateFacts.
Section Generic.
Context {D : Type} {DO : DoubleOps D}.

Lemma mutex_perform_update_log (config : upscale_mutex.thread_config_t D)
  (w : world upscale_mutex.mutex_globals) :
  1 < next_key_id w ->
  let r := upscale_mutex.perform_update config w in
  let thread := Z.rem (rand_src w (S (rand_pos w))) MAX_THREADS in
  let key_id := int32 (1 + Z.rem (rand_src w (rand_pos w)) (int32 (next_key_id w - 1))) in
  exists data,
    log (snd r)
    = log w ++ StoreFind thread key_id
               :: (if ext_src w (ext_pos w) =? UPS_SUCCESS
                   then [StoreInsert thread key_id data true] else [])
    /\ next_key_id (snd r) = next_key_id w
    /\ globals (snd r) = globals w.
Proof.
  intros Hk r thread key_id. subst r thread key_id.
  unfold upscale_mutex.perform_update. run_bind. frame.
  destruct (Z.leb_spec (next_key_id w) 1); [lia|].
  run_bind. frame_data.
  match goal with |- context [generate_data ?s ?w0] => exists (fst (generate_data s w0)) end.
  destruct (ext_src w (ext_pos w) =? UPS_SUCCESS);
    frame_data; rewrite <- ?app_assoc; repeat split.
Qed.

Lemma fairness_perform_update_log (config : upscale_fairness_test.thread_config_t D)
  (w : world upscale_fairness_test.hierarchy_t) :
  1 < next_key_id w ->
  let r := upscale_fairness_test.perform_update config w in
  let thread := Z.rem (rand_src w (S (rand_pos w))) MAX_THREADS in
  let key_id := int32 (1 + Z.rem (rand_src w (rand_pos w)) (int32 (next_key_id w - 1))) in
  let st := if ext_src w (ext_pos w) =? UPS_SUCCESS
            then ext_src w (S (ext_pos w)) else ext_src w (ext_pos w) in
  exists data,
    log (snd r)
    = log w ++ StoreFind thread key_id
               :: (if ext_src w (ext_pos w) =? UPS_SUCCESS
                   then [StoreInsert thread key_id data true] else [])
               ++ (if negb (st =? UPS_SUCCESS) && negb (st =? UPS_KEY_NOT_FOUND)
                   then [Printf "Thread %d: Update failed with status %d\n"] else [])
    /\ next_key_id (snd r) = next_key_id w
    /\ globals (snd r) = globals w.
Proof.
  intros Hk r thread key_id st. subst r thread key_id st.
  unfold upscale_fairness_test.perform_update. run_bind. frame.
  destruct (Z.leb_spec (next_key_id w) 1); [lia|].
  run_bind. frame_data.
  match goal with |- context [generate_data ?s ?w0] => exists (fst (generate_data s w0)) end.
  destruct (ext_src w (ext_pos w) =? UPS_SUCCESS); frame_data;
    match goal with
    | |- context [if ?c then printf _ else _] => destruct c
    end; frame_data; rewrite <- ?app_assoc; repeat split.
Qed.

End Generic.
End UpdateFacts.

(** X4.  Under the same conditions [perform_update] of either program
    looks up one key with a thread part in [0, MAX_THREADS) and an
    issued key id, and writes only if that lookup returned
    [UPS_SUCCESS]: then it inserts the same key with [UPS_OVERWRITE].
    It never inserts a key without [UPS_OVERWRITE] and leaves
    [next_key_id] as it is. *)
Theorem update_overwrites_found_key {D : Type} {DO : DoubleOps D}
  (cm : upscale_mutex.thread_config_t D) (wm : world upscale_mutex.mutex_globals)
  (cf : upscale_fairness_test.thread_config_t D)
  (wf : world upscale_fairness_test.hierarchy_t) :
  1 < next_key_id wm < 2 ^ 31 -> 1 < next_key_id wf < 2 ^ 31 ->
  (forall k, 0 <= rand_src wm k <= RAND_MAX) ->
  (forall k, 0 <= rand_src wf k <= RAND_MAX) ->
  (exists thread key_id data,
     log (snd (upscale_mutex.perform_update cm wm))
     = log wm ++ StoreFind thread key_id
                 :: (if ext_src wm (ext_pos wm) =? UPS_SUCCESS
                     then [StoreInsert thread key_id data true] else [])
     /\ 0 <= thread < MAX_THREADS /\ 1 <= key_id < next_key_id wm
     /\ next_key_id (snd (upscale_mutex.perform_update cm wm)) = next_key_id wm
     /\ fresh_inserts (log (snd (upscale_mutex.perform_update cm wm)))
        = fresh_inserts (log wm))
  /\ (exists thread key_id data tail,
     log (snd (upscale_fairness_test.perform_update cf wf))
     = log wf ++ StoreFind thread key_id
                 :: (if ext_src wf (ext_pos wf) =? UPS_SUCCESS
                     then [StoreInsert thread key_id data true] else [])
                 ++ tail
     /\ Forall is_printf tail
     /\ 0 <= thread < MAX_THREADS /\ 1 <= key_id < next_key_id wf
     /\ next_key_id (snd (upscale_fairness_test.perform_update cf wf)) = next_key_id wf
     /\ fresh_inserts (log (snd (upscale_fairness_test.perform_update cf wf)))
        = fresh_inserts (log wf)).
Proof.
  intros Hkm Hkf Hrm Hrf. split.
  - destruct (UpdateFacts.mutex_perform_update_log cm wm) as (data & Hl & Hn & _); [lia|].
    cbv zeta in Hl.
    destruct (LookupFacts.drawn_key_bounds (next_key_id wm) (rand_src wm (rand_pos wm))
                (rand_src wm (S (rand_pos wm)))) as (H1 & H2);
      [lia | apply Hrm | apply Hrm |].
    eexists. eexists. exists data. split; [exact Hl|].
    split; [exact H2|]. split; [exact H1|]. split; [exact Hn|].
    rewrite Hl, OpFacts.fresh_inserts_app.
    destruct (ext_src wm (ext_pos wm) =? UPS_SUCCESS); cbn; apply app_nil_r.
  - destruct (UpdateFacts.fairness_perform_update_log cf wf) as (data & Hl & Hn & _); [lia|].
    cbv zeta in Hl.
    destruct (LookupFacts.drawn_key_bounds (next_key_id wf) (rand_src wf (rand_pos wf))
                (rand_src wf (S (rand_pos wf)))) as (H1 & H2);
      [lia | apply Hrf | apply Hrf |].
    eexists. eexists. exists data. eexists. split; [exact Hl|].
    split.
    { match goal with |- Forall _ (if ?c then _ else _) => destruct c end;
        repeat constructor. }
    split; [exact H2|]. split; [exact H1|]. split; [exact Hn|].
    rewrite Hl, OpFacts.fresh_inserts_app.
    destruct (ext_src wf (ext_pos wf) =? UPS_SUCCESS);
      match goal with |- context [if ?c then [Printf _] else _] => destruct c end;
      cbn; apply app_nil_r.
Qed.

(** An update after the first insert of a run: the keys inserted
    without [UPS_OVERWRITE] are still the one key of that insert. *)
Lemma update_overwrites_found_key_witness :
  let wm := snd (perform_insert 0 mutex_start) in
  let wf := snd (perform_insert 0 fairness_start) in
  fresh_inserts (log (snd (upscale_mutex.perform_update (mutex_joined (D:=float) 0 0) wm)))
  = [(0, 1)]
  /\ fresh_inserts
       (log (snd (upscale_fairness_test.perform_update (fairness_joined (D:=float) 0 0) wf)))
     = [(0, 1)].
Proof.
  intros wm wf.
  assert (Hkm : 1 < next_key_id wm < 2 ^ 31) by (vm_compute; split; reflexivity).
  assert (Hkf : 1 < next_key_id wf < 2 ^ 31) by (vm_compute; split; reflexivity).
  assert (Hrm : forall k, 0 <= rand_src wm k <= RAND_MAX)
    by (intros k; vm_compute; split; discriminate).
  assert (Hrf : forall k, 0 <= rand_src wf k <= RAND_MAX)
    by (intros k; vm_compute; split; discriminate).
  destruct (update_overwrites_found_key (mutex_joined 0 0) wm (fairness_joined 0 0) wf
              Hkm Hkf Hrm Hrf)
    as ((? & ? & ? & _ & _ & _ & _ & Hm) & ? & ? & ? & ? & _ & _ & _ & _ & _ & Hf).
  split; [rewrite Hm | rewrite Hf]; vm_compute; reflexivity.
Defined.
(** * One pass of a worker, and runs of passes *)

Module PassFacts.
Section Generic.
Context {D : Type} {DO : DoubleOps D}.

(** What an operation of a pass leaves behind: store accesses and
    printed lines, the fresh keys among them, and the key counter. *)
Lemma mutex_operation_effect (op : operation_type_t)
  (config : upscale_mutex.thread_config_t D) (w : world upscale_mutex.mutex_globals) :
  let r := match op with
           | OP_INSERT => perform_insert (upscale_mutex.thread_id config) w
           | OP_FIND => upscale_mutex.perform_find config w
           | OP_UPDATE => upscale_mutex.perform_update config w
           end in
  exists evs,
    log (snd r) = log w ++ evs
    /\ Forall store_or_printf evs
    /\ fresh_inserts evs
       = match op with
         | OP_INSERT => [(upscale_mutex.thread_id config, next_key_id w)]
         | _ => []
         end
    /\ next_key_id (snd r)
       = match op with OP_INSERT => int32 (next_key_id w + 1) | _ => next_key_id w end
    /\ globals (snd r) = globals w.
Proof.
  destruct op; cbv zeta.
  - destruct (OpFacts.perform_insert_effect (upscale_mutex.thread_id config) w)
      as (data & Hl & Hn & Hg & _). cbv zeta in Hl.
    eexists. split; [exact Hl|]. split; [|split; [|split; assumption]].
    + constructor; [exact I|].
      match goal with |- Forall _ (if ?c then _ else _) => destruct c end;
        repeat constructor.
    + match goal with |- context [if ?c then _ else _] => destruct c end; reflexivity.
  - destruct (Z.leb_spec (next_key_id w) 1) as [Hk|Hk].
    + destruct (EmptyKeyspace.mutex_perform_find_empty config w Hk) as (_ & Hl & Hn & _).
      exists []. rewrite app_nil_r. repeat split; try assumption; try constructor.
      unfold upscale_mutex.perform_find. run_bind. frame.
      destruct (Z.leb_spec (next_key_id w) 1); [|lia]. frame. reflexivity.
    + destruct (LookupFacts.mutex_perform_find_log config w Hk) as (Hl & Hn & Hg).
      eexists. split; [exact Hl|]. repeat split; try assumption. repeat constructor.
  - destruct (Z.leb_spec (next_key_id w) 1) as [Hk|Hk].
    + destruct (EmptyKeyspace.mutex_perform_update_empty config w Hk) as (_ & Hl & Hn & _).
      exists []. rewrite app_nil_r. repeat split; try assumption; try constructor.
      unfold upscale_mutex.perform_update. run_bind. frame.
      destruct (Z.leb_spec (next_key_id w) 1); [|lia]. frame. reflexivity.
    + destruct (UpdateFacts.mutex_perform_update_log config w Hk) as (data & Hl & Hn & Hg).
      cbv zeta in Hl.
      eexists. split; [exact Hl|]. split; [|split; [|split; assumption]].
      * constructor; [exact I|].
        match goal with |- Forall _ (if ?c then _ else _) => destruct c end;
          repeat constructor.
      * match goal with |- context [if ?c then _ else _] => destruct c end; reflexivity.
Qed.

Lemma fairness_operation_effect (op : operation_type_t)
  (config : upscale_fairness_test.thread_config_t D)
  (w : world upscale_fairness_test.hierarchy_t) :
  let r := match op with
           | OP_INSERT => perform_insert (upscale_fairness_test.thread_id config) w
           | OP_FIND => upscale_fairness_test.perform_find config w
           | OP_UPDATE => upscale_fairness_test.perform_update config w
           end in
  exists evs,
    log (snd r) = log w ++ evs
    /\ Forall store_or_printf evs
    /\ fresh_inserts evs
       = match op with
         | OP_INSERT => [(upscale_fairness_test.thread_id config, next_key_id w)]
         | _ => []
         end
    /\ next_key_id (snd r)
       = match op with OP_INSERT => int32 (next_key_id w + 1) | _ => next_key_id w end
    /\ globals (snd r) = globals w.
Proof.
  destruct op; cbv zeta.
  - destruct (OpFacts.perform_insert_effect (upscale_fairness_test.thread_id config) w)
      as (data & Hl & Hn & Hg & _). cbv zeta in Hl.
    eexists. split; [exact Hl|]. split; [|split; [|split; assumption]].
    + constructor; [exact I|].
      match goal with |- Forall _ (if ?c then _ else _) => destruct c end;
        repeat constructor.
    + match goal with |- context [if ?c then _ else _] => destruct c end; reflexivity.
  - destruct (Z.leb_spec (next_key_id w) 1) as [Hk|Hk].
    + destruct (EmptyKeyspace.fairness_perform_find_empty config w Hk) as (_ & Hl & Hn & _).
      eexists. split; [exact Hl|]. repeat split; try assumption; try (repeat constructor).
      unfold upscale_fairness_test.perform_find. run_bind. frame.
      destruct (Z.leb_spec (next_key_id w) 1); [|lia]. run_bind. frame. reflexivity.
    + destruct (LookupFacts.fairness_perform_find_log config w Hk) as (Hl & Hn & Hg).
      cbv zeta in Hl.
      eexists. split; [exact Hl|]. split; [|split; [|split; assumption]].
      * constructor; [exact I|].
        match goal with |- Forall _ (if ?c then _ else _) => destruct c end;
          repeat constructor.
      * match goal with |- context [if ?c then _ else _] => destruct c end; reflexivity.
  - destruct (Z.leb_spec (next_key_id w) 1) as [Hk|Hk].
    + destruct (EmptyKeyspace.fairness_perform_update_empty config w Hk) as (_ & Hl & Hn & _).
      exists []. rewrite app_nil_r. repeat split; try assumption; try constructor.
      unfold upscale_fairness_test.perform_update. run_bind. frame.
      destruct (Z.leb_spec (next_key_id w) 1); [|lia]. frame. reflexivity.
    + destruct (UpdateFacts.fairness_perform_update_log config w Hk) as (data & Hl & Hn & Hg).
      cbv zeta in Hl.
      eexists. split; [exact Hl|]. split; [|split; [|split; assumption]].
      * constructor; [exact I|]. apply Forall_app. split;
        match goal with |- Forall _ (if ?c then _ else _) => destruct c end;
          repeat constructor.
      * repeat match goal with |- context [if ?c then _ else _] => destruct c end; reflexivity.
Qed.

End Generic.
End PassFacts.

Module LockFacts.
Import upscale_mutex.

(** The one library call [lock_call] makes for the selected lock. *)
Lemma lock_call_effect (s1 s2 s3 s4 : string) (w : world mutex_globals) :
  let type := current_lock_type (globals w) in
  let w' := snd (lock_call s1 s2 s3 s4 w) in
  log w' = log w ++ (if type =? LOCK_MUTEX then [Call s1]
                     else if type =? LOCK_SPIN then [Call s2]
                     else if type =? LOCK_RWLOCK then [Call s3]
                     else if type =? LOCK_ADAPTIVE_MUTEX then [Call s4]
                     else [])
  /\ globals w' = globals w /\ next_key_id w' = next_key_id w
  /\ global_stop w' = global_stop w
  /\ rand_pos w' = rand_pos w /\ rand_src w' = rand_src w
  /\ ext_pos w' = ext_pos w /\ ext_src w' = ext_src w.
Proof.
  intros type w'. subst type w'. unfold lock_call. run_bind. frame.
  repeat match goal with |- context [if ?c then emit _ else _] => destruct c end;
    frame; rewrite ?app_nil_r; repeat split.
Qed.

Section Generic.
Context {D : Type} {DO : DoubleOps D}.

Lemma acquire_lock_effect (config : thread_config_t D) (w : world mutex_globals) :
  let type := current_lock_type (globals w) in
  let w' := snd (acquire_lock config w) in
  log w' = log w ++ (if type =? LOCK_MUTEX then [Call "pthread_mutex_lock"]
                     else if type =? LOCK_SPIN then [Call "pthread_spin_lock"]
                     else if type =? LOCK_RWLOCK then [Call "pthread_rwlock_wrlock"]
                     else if type =? LOCK_ADAPTIVE_MUTEX then [Call "pthread_mutex_lock"]
                     else [])
  /\ current_lock_type (globals w') = type
  /\ next_key_id w' = next_key_id w
  /\ rand_pos w' = rand_pos w /\ rand_src w' = rand_src w
  /\ ext_pos w' = ext_pos w /\ ext_src w' = ext_src w.
Proof.
  intros type w'. subst type w'. unfold acquire_lock. cbv zeta. run_bind. frame.
  match goal with
  | |- context [lock_call ?a ?b ?c ?d ?w0] =>
      destruct (lock_call_effect a b c d w0) as (H1 & H2 & H3 & H4 & H5 & H6 & H7 & H8)
  end.
  cbv zeta in *. rewrite H1, H2, H3, H5, H6, H7, H8. frame.
  split; [reflexivity|]. split; [|repeat split].
  match goal with |- context [if ?c then _ else _] => destruct c end; reflexivity.
Qed.

End Generic.
End LockFacts.

Module SectionFacts.
Section Generic.
Context {D : Type} {DO : DoubleOps D}.

(** The log of one pass of [upscale_mutex]'s loop. *)
Lemma mutex_pass_log (config : upscale_mutex.thread_config_t D)
  (w : world upscale_mutex.mutex_globals) :
  let type := upscale_mutex.current_lock_type (globals w) in
  let locked :=
    if type =? upscale_mutex.LOCK_MUTEX then [Call "pthread_mutex_lock"]
    else if type =? upscale_mutex.LOCK_SPIN then [Call "pthread_spin_lock"]
    else if type =? upscale_mutex.LOCK_RWLOCK then [Call "pthread_rwlock_wrlock"]
    else if type =? upscale_mutex.LOCK_ADAPTIVE_MUTEX then [Call "pthread_mutex_lock"]
    else [] in
  let unlocked :=
    if type =? upscale_mutex.LOCK_MUTEX then [Call "pthread_mutex_unlock"]
    else if type =? upscale_mutex.LOCK_SPIN then [Call "pthread_spin_unlock"]
    else if type =? upscale_mutex.LOCK_RWLOCK then [Call "pthread_rwlock_unlock"]
    else if type =? upscale_mutex.LOCK_ADAPTIVE_MUTEX then [Call "pthread_mutex_unlock"]
    else [] in
  let op := upscale_mutex.select_operation config (rand_src w (rand_pos w)) in
  let w' := snd (upscale_mutex.worker_iteration config w) in
  exists ops tail,
    log w' = log w ++ locked ++ ops ++ unlocked ++ tail
    /\ Forall store_or_printf ops
    /\ (tail = [] \/ tail = [Call "sched_yield"])
    /\ fresh_inserts ops
       = match op with
         | OP_INSERT => [(upscale_mutex.thread_id config, next_key_id w)]
         | _ => []
         end
    /\ next_key_id w'
       = match op with OP_INSERT => int32 (next_key_id w + 1) | _ => next_key_id w end.
Proof.
  intros type locked unlocked op w'. subst w'.
  unfold upscale_mutex.worker_iteration. run_bind. frame.
  fold op.
  destruct (LockFacts.acquire_lock_effect config (snd (rand w)))
    as (HL & HT & HK & _).
  cbv zeta in HL, HT, HK. revert HL HT HK. frame. fold type. fold locked. intros HL HT HK.
  set (w2 := snd (upscale_mutex.acquire_lock config (snd (rand w)))) in *.
  destruct (PassFacts.mutex_operation_effect op config w2)
    as (ops & HO & HF & HI & HN & HG).
  cbv zeta in HO, HN, HG. rewrite HK in HI, HN.
  assert (Hop : forall (A : Type) (f : Z * world upscale_mutex.mutex_globals -> A),
            f ((match op with
                | OP_INSERT => perform_insert (upscale_mutex.thread_id config)
                | OP_FIND => upscale_mutex.perform_find config
                | OP_UPDATE => upscale_mutex.perform_update config
                end) w2)
            = f (match op with
                 | OP_INSERT => perform_insert (upscale_mutex.thread_id config) w2
                 | OP_FIND => upscale_mutex.perform_find config w2
                 | OP_UPDATE => upscale_mutex.perform_update config w2
                 end)) by (intros; destruct op; reflexivity).
  set (r3 := match op with
             | OP_INSERT => perform_insert (upscale_mutex.thread_id config) w2
             | OP_FIND => upscale_mutex.perform_find config w2
             | OP_UPDATE => upscale_mutex.perform_update config w2
             end) in *.
  assert (Hr3 : (match op with
                 | OP_INSERT => perform_insert (upscale_mutex.thread_id config)
                 | OP_FIND => upscale_mutex.perform_find config
                 | OP_UPDATE => upscale_mutex.perform_update config
                 end) w2 = r3) by (subst r3; destruct op; reflexivity).
  rewrite Hr3.
  destruct (LockFacts.lock_call_effect "pthread_mutex_unlock" "pthread_spin_unlock"
              "pthread_rwlock_unlock" "pthread_mutex_unlock" (snd r3))
    as (HU & _ & HUK & _).
  cbv zeta in HU, HUK. rewrite HG, HT in HU. fold unlocked in HU.
  fold upscale_mutex.release_lock in HU, HUK.
  exists ops.
  match goal with
  | |- context [if ?c then emit _ else _] => destruct c
  end; frame; rewrite ?HU, ?HUK, ?HO, ?HN, ?HL, ?HK; frame.
  - exists [Call "sched_yield"]. rewrite <- !app_assoc. repeat split; auto.
  - exists []. rewrite <- !app_assoc, app_nil_r. repeat split; auto.
Qed.

(** The log of one pass of [upscale_fairness_test]'s loop. *)
Lemma fairness_pass_log (config : upscale_fairness_test.thread_config_t D)
  (w : world upscale_fairness_test.hierarchy_t) :
  let op := upscale_fairness_test.select_operation config (rand_src w (rand_pos w)) in
  let w' := snd (upscale_fairness_test.worker_iteration config w) in
  exists ops tail,
    log w' = log w ++ [Call "hfairlock_acquire"] ++ ops
                   ++ [Call "hfairlock_release"] ++ tail
    /\ Forall store_or_printf ops
    /\ (tail = [] \/ tail = [Call "usleep"])
    /\ fresh_inserts ops
       = match op with
         | OP_INSERT => [(upscale_fairness_test.thread_id config, next_key_id w)]
         | _ => []
         end
    /\ next_key_id w'
       = match op with OP_INSERT => int32 (next_key_id w + 1) | _ => next_key_id w end
    /\ globals w' = globals w.
Proof.
  intros op w'. subst w'.
  unfold upscale_fairness_test.worker_iteration. run_bind. frame.
  fold op.
  set (w2 := snd (rdtsc (snd (emit (Call "hfairlock_acquire") (snd (rdtsc (snd (rand w)))))))).
  assert (HL : log w2 = log w ++ [Call "hfairlock_acquire"]) by (subst w2; frame; reflexivity).
  assert (HK : next_key_id w2 = next_key_id w) by (subst w2; frame; reflexivity).
  assert (HG2 : globals w2 = globals w) by (subst w2; frame; reflexivity).
  clearbody w2.
  destruct (PassFacts.fairness_operation_effect op config w2)
    as (ops & HO & HF & HI & HN & HG).
  cbv zeta in HO, HN, HG. rewrite HK in HI, HN.
  set (r3 := match op with
             | OP_INSERT => perform_insert (upscale_fairness_test.thread_id config) w2
             | OP_FIND => upscale_fairness_test.perform_find config w2
             | OP_UPDATE => upscale_fairness_test.perform_update config w2
             end) in *.
  assert (Hr3 : (match op with
                 | OP_INSERT => perform_insert (upscale_fairness_test.thread_id config)
                 | OP_FIND => upscale_fairness_test.perform_find config
                 | OP_UPDATE => upscale_fairness_test.perform_update config
                 end) w2 = r3) by (subst r3; destruct op; reflexivity).
  rewrite Hr3. clearbody r3.
  exists ops.
  match goal with
  | |- context [if ?c then emit _ else _] => destruct c
  end; frame; rewrite ?HO, ?HN, ?HL, ?HG, ?HG2.
  - exists [Call "usleep"]. rewrite <- !app_assoc. repeat split; auto.
  - exists []. rewrite <- !app_assoc, app_nil_r. repeat split; auto.
Qed.

End Generic.
End SectionFacts.

Module RunFacts.
Section Generic.
Context {D : Type} {DO : DoubleOps D}.

(** What one pass adds to the store: at most one fresh key, the one the
    counter held. *)
Lemma mutex_pass_keys (config : upscale_mutex.thread_config_t D)
  (w : world upscale_mutex.mutex_globals) :
  let w' := snd (upscale_mutex.worker_iteration config w) in
  upscale_mutex.thread_id (fst (upscale_mutex.worker_iteration config w))
  = upscale_mutex.thread_id config
  /\ exists evs,
    log w' = log w ++ evs
    /\ ((fresh_inserts evs = [] /\ next_key_id w' = next_key_id w)
        \/ (fresh_inserts evs = [(upscale_mutex.thread_id config, next_key_id w)]
            /\ next_key_id w' = int32 (next_key_id w + 1))).
Proof.
  cbv zeta. split.
  { unfold upscale_mutex.worker_iteration. run_bind. reflexivity. }
  destruct (SectionFacts.mutex_pass_log config w) as (ops & tail & Hl & _ & Ht & Hi & Hn).
  cbv zeta in Hl, Hi, Hn.
  eexists. split; [exact Hl|].
  rewrite !OpFacts.fresh_inserts_app.
  assert (Htail : fresh_inserts tail = []) by (destruct Ht as [-> | ->]; reflexivity).
  rewrite Htail, Hi, Hn, !app_nil_r.
  destruct (upscale_mutex.select_operation _ _);
    repeat match goal with |- context [if ?c then [_] else _] => destruct c end;
    cbn [fresh_inserts flat_map app]; auto.
Qed.

Lemma fairness_pass_keys (config : upscale_fairness_test.thread_config_t D)
  (w : world upscale_fairness_test.hierarchy_t) :
  let w' := snd (upscale_fairness_test.worker_iteration config w) in
  upscale_fairness_test.thread_id (fst (upscale_fairness_test.worker_iteration config w))
  = upscale_fairness_test.thread_id config
  /\ exists evs,
    log w' = log w ++ evs
    /\ ((fresh_inserts evs = [] /\ next_key_id w' = next_key_id w)
        \/ (fresh_inserts evs = [(upscale_fairness_test.thread_id config, next_key_id w)]
            /\ next_key_id w' = int32 (next_key_id w + 1))).
Proof.
  cbv zeta. split.
  { unfold upscale_fairness_test.worker_iteration. run_bind. reflexivity. }
  destruct (SectionFacts.fairness_pass_log config w)
    as (ops & tail & Hl & _ & Ht & Hi & Hn & _).
  cbv zeta in Hl, Hi, Hn.
  eexists. split; [exact Hl|].
  rewrite !OpFacts.fresh_inserts_app.
  assert (Htail : fresh_inserts tail = []) by (destruct Ht as [-> | ->]; reflexivity).
  rewrite Htail, app_nil_r. cbn [fresh_inserts flat_map app].
  rewrite ?app_nil_r, Hi, Hn.
  destruct (upscale_fairness_test.select_operation _ _); auto.
Qed.

End Generic.
End RunFacts.

Module ScheduleFacts.

Lemma map_insert_same {A B} (f : A -> B) (l : list A) (i : nat) (x y : A) :
  l !! i = Some x -> f y = f x -> map f (<[i := y]> l) = map f l.
Proof.
  revert i. induction l as [|a l IH]; intros [|i] Hl Hf; try discriminate.
  - cbn in Hl. injection Hl as ->. cbn. now rewrite Hf.
  - cbn in *. f_equal. now apply IH.
Qed.

Lemma lookup_in_map {A B} (f : A -> B) (l : list A) (i : nat) (x : A) :
  l !! i = Some x -> In (f x) (map f l).
Proof.
  revert i. induction l as [|a l IH]; intros [|i] Hl; try discriminate.
  - cbn in Hl. injection Hl as ->. now left.
  - right. now apply (IH i).
Qed.

Section Generic.
Context {D : Type} {DO : DoubleOps D}.

Lemma mutex_run_keys (schedule : list nat) :
  forall (threads : list (upscale_mutex.thread_config_t D))
         (w : world upscale_mutex.mutex_globals),
  - 2 ^ 31 <= next_key_id w ->
  next_key_id w + Z.of_nat (length schedule) < 2 ^ 31 ->
  let r := upscale_mutex.run_passes schedule threads w in
  exists evs,
    log (snd r) = log w ++ evs
    /\ map snd (fresh_inserts evs)
       = seqZ (next_key_id w) (next_key_id (snd r) - next_key_id w)
    /\ next_key_id w <= next_key_id (snd r) <= next_key_id w + Z.of_nat (length schedule)
    /\ Forall (fun p => In (fst p) (map upscale_mutex.thread_id threads)) (fresh_inserts evs)
    /\ map upscale_mutex.thread_id (fst r) = map upscale_mutex.thread_id threads.
Proof.
  induction schedule as [|i rest IH]; intros threads w Hlo Hhi; cbv zeta.
  - exists []. cbn. rewrite app_nil_r, Z.sub_diag. repeat split; try lia. constructor.
  - cbn [upscale_mutex.run_passes]. cbn [length] in Hhi |- *.
    destruct (threads !! i) as [config|] eqn:Hi.
    + run_bind.
      destruct (RunFacts.mutex_pass_keys config w) as (Hid & evs1 & Hl1 & Hk).
      cbv zeta in Hl1, Hk.
      set (r1 := upscale_mutex.worker_iteration config w) in *. clearbody r1.
      destruct r1 as [config' w1]. cbn [fst snd] in *.
      assert (Hk1 : next_key_id w <= next_key_id w1 <= next_key_id w + 1).
      { destruct Hk as [(_ & ->) | (_ & ->)]; unfold int32, INT_MOD.
        - lia.
        - rewrite Z.mod_small by lia. lia. }
      destruct (IH (<[i := config']> threads) w1) as (evs2 & Hl2 & Hs2 & Hb2 & Hf2 & Hm2);
        [lia | lia |].
      cbv zeta in Hl2, Hs2, Hb2, Hf2, Hm2.
      rewrite (map_insert_same _ _ _ _ _ Hi Hid) in Hf2, Hm2.
      exists (evs1 ++ evs2). rewrite Hl2, Hl1, <- app_assoc.
      split; [reflexivity|]. rewrite OpFacts.fresh_inserts_app, map_app, Hs2.
      split; [|split; [lia|split; [|exact Hm2]]].
      * destruct Hk as [(-> & Hn) | (-> & Hn)].
        -- rewrite Hn. reflexivity.
        -- cbn [map snd app]. rewrite Hn.
           unfold int32, INT_MOD in *. rewrite Z.mod_small in * by lia.
           replace (next_key_id w + 1 + 2 ^ 31 - 2 ^ 31) with (next_key_id w + 1) in * by lia.
           rewrite (seqZ_cons (next_key_id w)) by lia.
           f_equal. f_equal; lia.
      * apply Forall_app. split; [|exact Hf2].
        destruct Hk as [(-> & _) | (-> & _)]; repeat constructor.
        cbn [fst]. apply (lookup_in_map _ _ _ _ Hi).
    + destruct (IH threads w) as (evs & H); [lia | lia |].
      exists evs. cbv zeta in H. destruct H as (H1 & H2 & H3 & H4 & H5).
      repeat split; try assumption; lia.
Qed.

Lemma fairness_run_keys (schedule : list nat) :
  forall (threads : list (upscale_fairness_test.thread_config_t D))
         (w : world upscale_fairness_test.hierarchy_t),
  - 2 ^ 31 <= next_key_id w ->
  next_key_id w + Z.of_nat (length schedule) < 2 ^ 31 ->
  let r := upscale_fairness_test.run_passes schedule threads w in
  exists evs,
    log (snd r) = log w ++ evs
    /\ map snd (fresh_inserts evs)
       = seqZ (next_key_id w) (next_key_id (snd r) - next_key_id w)
    /\ next_key_id w <= next_key_id (snd r) <= next_key_id w + Z.of_nat (length schedule)
    /\ Forall (fun p => In (fst p) (map upscale_fairness_test.thread_id threads))
              (fresh_inserts evs)
    /\ map upscale_fairness_test.thread_id (fst r)
       = map upscale_fairness_test.thread_id threads.
Proof.
  induction schedule as [|i rest IH]; intros threads w Hlo Hhi; cbv zeta.
  - exists []. cbn. rewrite app_nil_r, Z.sub_diag. repeat split; try lia. constructor.
  - cbn [upscale_fairness_test.run_passes]. cbn [length] in Hhi |- *.
    destruct (threads !! i) as [config|] eqn:Hi.
    + run_bind.
      destruct (RunFacts.fairness_pass_keys config w) as (Hid & evs1 & Hl1 & Hk).
      cbv zeta in Hl1, Hk.
      set (r1 := upscale_fairness_test.worker_iteration config w) in *. clearbody r1.
      destruct r1 as [config' w1]. cbn [fst snd] in *.
      assert (Hk1 : next_key_id w <= next_key_id w1 <= next_key_id w + 1).
      { destruct Hk as [(_ & ->) | (_ & ->)]; unfold int32, INT_MOD.
        - lia.
        - rewrite Z.mod_small by lia. lia. }
      destruct (IH (<[i := config']> threads) w1) as (evs2 & Hl2 & Hs2 & Hb2 & Hf2 & Hm2);
        [lia | lia |].
      cbv zeta in Hl2, Hs2, Hb2, Hf2, Hm2.
      rewrite (map_insert_same _ _ _ _ _ Hi Hid) in Hf2, Hm2.
      exists (evs1 ++ evs2). rewrite Hl2, Hl1, <- app_assoc.
      split; [reflexivity|]. rewrite OpFacts.fresh_inserts_app, map_app, Hs2.
      split; [|split; [lia|split; [|exact Hm2]]].
      * destruct Hk as [(-> & Hn) | (-> & Hn)].
        -- rewrite Hn. reflexivity.
        -- cbn [map snd app]. rewrite Hn.
           unfold int32, INT_MOD in *. rewrite Z.mod_small in * by lia.
           replace (next_key_id w + 1 + 2 ^ 31 - 2 ^ 31) with (next_key_id w + 1) in * by lia.
           rewrite (seqZ_cons (next_key_id w)) by lia.
           f_equal. f_equal; lia.
      * apply Forall_app. split; [|exact Hf2].
        destruct Hk as [(-> & _) | (-> & _)]; repeat constructor.
        cbn [fst]. apply (lookup_in_map _ _ _ _ Hi).
    + destruct (IH threads w) as (evs & H); [lia | lia |].
      exists evs. cbv zeta in H. destruct H as (H1 & H2 & H3 & H4 & H5).
      repeat split; try assumption; lia.
Qed.

End Generic.
End ScheduleFacts.



(** X6. Passes that follow one another in any order, by any of the
    threads, insert fresh keys whose ids are the successive values of
    the shared counter: as long as the counter stays an [int], no key id
    is issued twice, and each fresh key carries the id of a thread of
    the run. *)
Theorem run_issues_each_key_once {D : Type} {DO : DoubleOps D}
  (schedule : list nat)
  (tm : list (upscale_mutex.thread_config_t D)) (wm : world upscale_mutex.mutex_globals)
  (tf : list (upscale_fairness_test.thread_config_t D))
  (wf : world upscale_fairness_test.hierarchy_t) :
  1 <= next_key_id wm -> next_key_id wm + Z.of_nat (length schedule) < 2 ^ 31 ->
  1 <= next_key_id wf -> next_key_id wf + Z.of_nat (length schedule) < 2 ^ 31 ->
  (let r := upscale_mutex.run_passes schedule tm wm in
   exists evs,
     log (snd r) = log wm ++ evs
     /\ map snd (fresh_inserts evs)
        = seqZ (next_key_id wm) (next_key_id (snd r) - next_key_id wm)
     /\ NoDup (map snd (fresh_inserts evs))
     /\ Forall (fun p => In (fst p) (map upscale_mutex.thread_id tm)
                         /\ next_key_id wm <= snd p < next_key_id (snd r))
               (fresh_inserts evs)
     /\ next_key_id (snd r) <= next_key_id wm + Z.of_nat (length schedule))
  /\ (let r := upscale_fairness_test.run_passes schedule tf wf in
      exists evs,
        log (snd r) = log wf ++ evs
        /\ map snd (fresh_inserts evs)
           = seqZ (next_key_id wf) (next_key_id (snd r) - next_key_id wf)
        /\ NoDup (map snd (fresh_inserts evs))
        /\ Forall (fun p => In (fst p) (map upscale_fairness_test.thread_id tf)
                            /\ next_key_id wf <= snd p < next_key_id (snd r))
                  (fresh_inserts evs)
        /\ next_key_id (snd r) <= next_key_id wf + Z.of_nat (length schedule)).
Proof.
  intros Hm1 Hm2 Hf1 Hf2.
  assert (Hrange : forall (l : list (Z * Z)) (a n : Z) (P : Z -> Prop),
             map snd l = seqZ a n -> Forall (fun p => P (fst p)) l ->
             Forall (fun p => P (fst p) /\ a <= snd p < a + n) l).
  { intros l a n P Hs Hp. apply List.Forall_forall. intros p Hin. split.
    - exact (proj1 (List.Forall_forall _ _) Hp p Hin).
    - assert (Hi : In (snd p) (seqZ a n)) by (rewrite <- Hs; now apply in_map).
      apply list_elem_of_In, elem_of_seqZ in Hi. exact Hi. }
  split; cbv zeta.
  - destruct (ScheduleFacts.mutex_run_keys schedule tm wm) as (evs & Hl & Hs & Hb & Hf & _);
      [lia | lia |].
    cbv zeta in Hl, Hs, Hb, Hf. exists evs.
    split; [exact Hl|]. split; [exact Hs|]. split; [rewrite Hs; apply NoDup_seqZ|].
    split; [|lia].
    eapply Forall_impl;
      [apply (Hrange _ _ _ (fun t => In t (map upscale_mutex.thread_id tm)) Hs Hf)|].
    cbv beta. intros p (H1 & H2). split; [exact H1 | lia].
  - destruct (ScheduleFacts.fairness_run_keys schedule tf wf) as (evs & Hl & Hs & Hb & Hf & _);
      [lia | lia |].
    cbv zeta in Hl, Hs, Hb, Hf. exists evs.
    split; [exact Hl|]. split; [exact Hs|]. split; [rewrite Hs; apply NoDup_seqZ|].
    split; [|lia].
    eapply Forall_impl;
      [apply (Hrange _ _ _ (fun t => In t (map upscale_fairness_test.thread_id tf)) Hs Hf)|].
    cbv beta. intros p (H1 & H2). split; [exact H1 | lia].
Qed.

(** Three passes, of threads 0, 1 and 0 again, from the state the
    program starts in. *)
Lemma run_issues_each_key_once_witness :
  let schedule := [0%nat; 1%nat; 0%nat] in
  (1 <= next_key_id mutex_start
   /\ next_key_id mutex_start + Z.of_nat (length schedule) < 2 ^ 31
   /\ 1 <= next_key_id fairness_start
   /\ next_key_id fairness_start + Z.of_nat (length schedule) < 2 ^ 31)
  /\ (exists evs,
        log (snd (upscale_mutex.run_passes schedule (mutex_run (D:=float) [0; 0]) mutex_start))
        = log mutex_start ++ evs
        /\ NoDup (map snd (fresh_inserts evs)))
  /\ (exists evs,
        log (snd (upscale_fairness_test.run_passes schedule
                    (fairness_run (D:=float) [0; 0]) fairness_start))
        = log fairness_start ++ evs
        /\ NoDup (map snd (fresh_inserts evs))).
Proof.
  intros schedule.
  assert (H : 1 <= next_key_id mutex_start
              /\ next_key_id mutex_start + Z.of_nat (length schedule) < 2 ^ 31
              /\ 1 <= next_key_id fairness_start
              /\ next_key_id fairness_start + Z.of_nat (length schedule) < 2 ^ 31)
    by (vm_compute; repeat split; discriminate).
  split; [exact H|].
  destruct H as (H1 & H2 & H3 & H4).
  destruct (run_issues_each_key_once schedule (mutex_run [0; 0]) mutex_start
              (fairness_run [0; 0]) fairness_start H1 H2 H3 H4)
    as ((evs & Hl & _ & Hn & _) & evs' & Hl' & _ & Hn' & _).
  split; [exists evs | exists evs']; split; assumption.
Defined.
